(** * The persistence and reconciliation layer of the record store

    A shallow embedding of [database.py] (class [Database] and the
    migration runner [migrate_json_to_db]) and of the document view adapter
    of [db_integration.py], followed by the properties of the specification
    that are settled against it.

    Conventions of the embedding.

    - A Python value that can occur in a legacy JSON document is a [pyval];
      dictionaries are association lists in insertion order, since the code
      iterates over [items()].
    - The SQLite connection is a [conn]: the committed database, the working
      copy seen by the statements of the open transaction, a fault plan for
      the storage layer, and the value of [CURRENT_TIMESTAMP].
    - A method of the store is a computation [M A]: it receives the
      connection and either returns a value or raises an exception, with the
      connection left as it is at that point.
    - Foreign keys are declared in the schema but the code never issues
      [PRAGMA foreign_keys = ON], so SQLite neither checks them nor cascades
      deletes; the embedding does the same.
    - Every call on the connection, [conn.rollback()] included, consumes one
      entry of the fault plan and raises [sqlite3.Error] when the entry says
      so.
    - SQLite leaves the order of the rows of a [SELECT] without [ORDER BY]
      open; the embedding returns them in table order.
    - Floating-point numbers are outside [pyval], and so is the REAL that a
      column of numeric affinity makes of a text such as ['1.5']: a property
      about a value stored in such a column takes a value that is not a
      text, or leaves the cell to [aff_numeric].
    - A key that the code pastes into a statement is compared with the
      column names as it is written; SQLite ignores the case of ASCII
      letters and also knows the row identifier.  A property about keys that
      are not columns takes keys for which the two agree ([names_nothing]).
    - The table [user_meta] and the economy, jobs and store projections of
      the adapter are left out. *)

From Stdlib Require Import ZArith List String Bool Lia Ascii DecimalString.
Import ListNotations.
Local Open Scope string_scope.
Local Open Scope Z_scope.
Local Open Scope list_scope.

(** ** Python values *)

#[warnings="-register-all"]
Inductive pyval : Type :=
| PNone
| PBool (b : bool)
| PInt (z : Z)
| PStr (s : string)
| PList (l : list pyval)
| PDict (d : list (string * pyval)).

Definition pydict := list (string * pyval).

(** Exceptions the modelled code can raise.  [SqliteError] stands for
    [sqlite3.Error] and its subclasses; the others are ordinary Python
    exceptions, which [except sqlite3.Error] does not catch. *)
Inductive exn : Type :=
| SqliteError
| OverflowError
| AttributeError
| TypeError
| KeyError.

Definition is_sqlite (e : exn) : bool :=
  match e with SqliteError => true | _ => false end.

(** Behaviour of the Python runtime and of SQLite that lies outside the
    repository and outside the value universe above.  The development is
    parametric in it. *)
Class PyRuntime : Type := {
  (** [str(v)] for a list or a dictionary *)
  str_container : pyval -> string;
  (** [int(s)] for a string; [None] is [ValueError] *)
  int_of_text : string -> option Z;
  (** SQLite's conversion of a numeric-looking text stored in a column of
      INTEGER or NUMERIC affinity; [None] when the text is kept as text *)
  numeric_text : string -> option Z;
  (** [json.loads(s)] for a text that was not written by [json.dumps];
      [None] is [json.JSONDecodeError] *)
  json_loads : string -> option pyval
}.

Definition str_of_Z (z : Z) : string := NilZero.string_of_int (Z.to_int z).

(** Decimal reading of an optionally signed digit string, used by the
    reference runtime below. *)
Definition Z_of_str (s : string) : option Z :=
  match NilZero.int_of_string s with
  | Some i => Some (Z.of_int i)
  | None => None
  end.

Section Values.
Context {RT : PyRuntime}.

(** [str(v)] *)
Definition py_str (v : pyval) : string :=
  match v with
  | PNone => "None"
  | PBool true => "True"
  | PBool false => "False"
  | PInt z => str_of_Z z
  | PStr s => s
  | PList _ | PDict _ => str_container v
  end.

(** [int(v)]; [None] stands for the [ValueError] or [TypeError] that the
    callers catch together. *)
Definition py_int (v : pyval) : option Z :=
  match v with
  | PNone => None
  | PBool b => Some (Z.b2z b)
  | PInt z => Some z
  | PStr s => int_of_text s
  | PList _ | PDict _ => None
  end.

End Values.

(** Truth value of a Python object. *)
Definition py_truthy (v : pyval) : bool :=
  match v with
  | PNone => false
  | PBool b => b
  | PInt z => negb (z =? 0)
  | PStr s => negb (s =? "")%string
  | PList l => match l with [] => false | _ => true end
  | PDict d => match d with [] => false | _ => true end
  end.

(** ** Dictionaries *)

Fixpoint dict_get (k : string) (d : pydict) : option pyval :=
  match d with
  | [] => None
  | (k', v) :: r => if (k' =? k)%string then Some v else dict_get k r
  end.

(** [k in d] *)
Definition dict_has (k : string) (d : pydict) : bool :=
  match dict_get k d with Some _ => true | None => false end.

(** [d.get(k, dflt)] *)
Definition dict_get_default (k : string) (dflt : pyval) (d : pydict) : pyval :=
  match dict_get k d with Some v => v | None => dflt end.

(** [d.get(k)] *)
Definition dict_get_none (k : string) (d : pydict) : pyval :=
  dict_get_default k PNone d.

(** [d[k] = v]: an existing key keeps its position. *)
Fixpoint dict_set (k : string) (v : pyval) (d : pydict) : pydict :=
  match d with
  | [] => [(k, v)]
  | (k', v') :: r =>
      if (k' =? k)%string then (k, v) :: r else (k', v') :: dict_set k v r
  end.

(** [d.setdefault(k, v)] *)
Definition dict_setdefault (k : string) (v : pyval) (d : pydict) : pydict :=
  if dict_has k d then d else d ++ [(k, v)].

(** [a == b] on Python values: a boolean equals the integer 0 or 1, lists are
    compared element by element, dictionaries key by key. *)
Fixpoint py_eqb (a b : pyval) : bool :=
  match a, b with
  | PNone, PNone => true
  | PBool x, PBool y => Bool.eqb x y
  | PBool x, PInt y => Z.b2z x =? y
  | PInt x, PBool y => x =? Z.b2z y
  | PInt x, PInt y => x =? y
  | PStr x, PStr y => (x =? y)%string
  | PList xs, PList ys =>
      (fix go (xs ys : list pyval) : bool :=
         match xs, ys with
         | [], [] => true
         | x :: xs', y :: ys' => py_eqb x y && go xs' ys'
         | _, _ => false
         end) xs ys
  | PDict d1, PDict d2 =>
      (List.length d1 =? List.length d2)%nat &&
      (fix go (d : list (string * pyval)) : bool :=
         match d with
         | [] => true
         | (k, v) :: r =>
             match dict_get k d2 with
             | Some w => py_eqb v w
             | None => false
             end && go r
         end) d1
  | _, _ => false
  end.

(** [s in l] for a string [s] and a list [l] of Python values. *)
Definition str_in_list (s : string) (l : list pyval) : bool :=
  existsb (py_eqb (PStr s)) l.

(** [s in xs] for strings. *)
Definition str_mem (s : string) (xs : list string) : bool :=
  existsb (String.eqb s) xs.

(** ** Stored values *)

(** A value held by a column: NULL, an integer or a text. *)
Inductive cell : Type :=
| CNull
| CInt (z : Z)
| CText (s : string).

(** A column written through [json.dumps]: [JDump v] is the text
    [json.dumps(v)]; [JRaw c] is a value stored without serialisation. *)
Inductive jcell : Type :=
| JDump (v : pyval)
| JRaw (c : cell).

Definition in_int64 (z : Z) : bool :=
  (- 2 ^ 63 <=? z) && (z <? 2 ^ 63).

(** Binding a Python value to a [?] placeholder. *)
Definition bind_param (v : pyval) : exn + cell :=
  match v with
  | PNone => inr CNull
  | PBool b => inr (CInt (Z.b2z b))
  | PInt z => if in_int64 z then inr (CInt z) else inl OverflowError
  | PStr s => inr (CText s)
  | PList _ | PDict _ => inl SqliteError
  end.

(** The parameters of a statement are bound from left to right. *)
Fixpoint bind_params (vs : list pyval) : exn + list cell :=
  match vs with
  | [] => inr []
  | v :: r =>
      match bind_param v with
      | inl e => inl e
      | inr c =>
          match bind_params r with
          | inl e => inl e
          | inr cs => inr (c :: cs)
          end
      end
  end.

(** The Python value of a fetched column. *)
Definition cell_to_py (c : cell) : pyval :=
  match c with
  | CNull => PNone
  | CInt z => PInt z
  | CText s => PStr s
  end.

(** Column affinities. *)
Definition aff_text (c : cell) : cell :=
  match c with
  | CInt z => CText (str_of_Z z)
  | _ => c
  end.

(** Numeric affinity: a text in which [numeric_text] reads an integer
    becomes that integer, any other value is kept.  The REAL that SQLite
    makes of a text such as ['1.5'] is outside [cell]. *)
Definition aff_numeric {RT : PyRuntime} (c : cell) : cell :=
  match c with
  | CText s =>
      match numeric_text s with
      | Some z => CInt z
      | None => CText s
      end
  | _ => c
  end.

(** ** Schema *)

Record user_row : Type := mk_user {
  u_user_id : string;
  u_cash : cell;
  u_bank : cell;
  u_job : cell;
  u_last_cultivate : cell;
  u_last_collect : cell;
  u_message_count : cell;
  u_created_at : cell;
  u_updated_at : cell
}.

Record inventory_row : Type := mk_inventory {
  i_id : Z;
  i_user_id : string;
  i_item_name : string;
  i_quantity : Z;
  i_rarity : string;
  i_metadata : pyval
}.

Record job_row : Type := mk_job {
  j_job_name : string;
  j_min_pay : cell;
  j_max_pay : cell
}.

Record user_job_row : Type := mk_user_job {
  uj_user_id : string;
  uj_job_name : string;
  uj_xp : cell;
  uj_rank : cell;
  uj_last_work : cell
}.

Record sect_row : Type := mk_sect {
  s_sect_id : string;
  s_name : cell;
  s_leader_id : cell;
  s_description : cell;
  s_created_at : cell;
  s_level : cell;
  s_wealth : cell;
  s_max_members : cell
}.

Record sect_member_row : Type := mk_sect_member {
  sm_sect_id : string;
  sm_user_id : string;
  sm_role : string;
  sm_joined_at : string
}.

Record store_item_row : Type := mk_store_item {
  si_item_name : string;
  si_price : cell;
  si_description : cell;
  si_stock : cell;
  si_min_rank : cell;
  si_rarity : cell;
  si_metadata : pyval
}.

Record tournament_row : Type := mk_tournament {
  t_tournament_id : string;
  t_host_id : cell;
  t_title : cell;
  t_description : cell;
  t_status : cell;
  t_created_at : cell;
  t_winner_id : cell;
  t_reward_data : jcell
}.

Record participant_row : Type := mk_participant {
  tp_tournament_id : string;
  tp_participant_id : string;
  tp_joined_at : string;
  tp_is_bot : bool;
  tp_bot_name : cell
}.

Record db : Type := mk_db {
  users : list user_row;
  inventory : list inventory_row;
  inventory_seq : Z;
  jobs : list job_row;
  user_jobs : list user_job_row;
  sects : list sect_row;
  sect_members : list sect_member_row;
  store_items : list store_item_row;
  tournaments : list tournament_row;
  tournament_participants : list participant_row
}.

Definition empty_db : db := mk_db [] [] 0 [] [] [] [] [] [] [].

Definition with_users (d : db) (x : list user_row) : db :=
  mk_db x (inventory d) (inventory_seq d) (jobs d) (user_jobs d) (sects d)
        (sect_members d) (store_items d) (tournaments d)
        (tournament_participants d).

Definition with_inventory (d : db) (x : list inventory_row) (n : Z) : db :=
  mk_db (users d) x n (jobs d) (user_jobs d) (sects d)
        (sect_members d) (store_items d) (tournaments d)
        (tournament_participants d).

Definition with_jobs (d : db) (x : list job_row) : db :=
  mk_db (users d) (inventory d) (inventory_seq d) x (user_jobs d) (sects d)
        (sect_members d) (store_items d) (tournaments d)
        (tournament_participants d).

Definition with_user_jobs (d : db) (x : list user_job_row) : db :=
  mk_db (users d) (inventory d) (inventory_seq d) (jobs d) x (sects d)
        (sect_members d) (store_items d) (tournaments d)
        (tournament_participants d).

Definition with_sects (d : db) (x : list sect_row) : db :=
  mk_db (users d) (inventory d) (inventory_seq d) (jobs d) (user_jobs d) x
        (sect_members d) (store_items d) (tournaments d)
        (tournament_participants d).

Definition with_sect_members (d : db) (x : list sect_member_row) : db :=
  mk_db (users d) (inventory d) (inventory_seq d) (jobs d) (user_jobs d)
        (sects d) x (store_items d) (tournaments d)
        (tournament_participants d).

Definition with_store_items (d : db) (x : list store_item_row) : db :=
  mk_db (users d) (inventory d) (inventory_seq d) (jobs d) (user_jobs d)
        (sects d) (sect_members d) x (tournaments d)
        (tournament_participants d).

Definition with_tournaments (d : db) (x : list tournament_row) : db :=
  mk_db (users d) (inventory d) (inventory_seq d) (jobs d) (user_jobs d)
        (sects d) (sect_members d) (store_items d) x
        (tournament_participants d).

Definition with_participants (d : db) (x : list participant_row) : db :=
  mk_db (users d) (inventory d) (inventory_seq d) (jobs d) (user_jobs d)
        (sects d) (sect_members d) (store_items d) (tournaments d) x.

(** ** The connection *)

Record conn : Type := mk_conn {
  committed : db;       (* what a rollback restores *)
  working : db;         (* what the statements read and write *)
  faults : list bool;   (* one entry per statement or commit: [true] raises *)
  now : string          (* CURRENT_TIMESTAMP *)
}.

(** No storage fault is pending. *)
Definition quiet (c : conn) : Prop := faults c = [].

Definition open_conn (d : db) (ts : string) : conn := mk_conn d d [] ts.

(** ** Computations over the connection *)

Inductive outcome (A : Type) : Type :=
| Ret (a : A) (c : conn)
| Raise (e : exn) (c : conn).
Arguments Ret {A} a c.
Arguments Raise {A} e c.

(** The connection a computation leaves. *)
Definition conn_of {A} (o : outcome A) : conn :=
  match o with
  | Ret _ c => c
  | Raise _ c => c
  end.

Definition M (A : Type) : Type := conn -> outcome A.

Definition ret {A} (a : A) : M A := fun c => Ret a c.

Definition raise {A} (e : exn) : M A := fun c => Raise e c.

Definition bind {A B} (m : M A) (k : A -> M B) : M B :=
  fun c =>
    match m c with
    | Ret a c' => k a c'
    | Raise e c' => Raise e c'
    end.

Notation "x <- m ;; k" := (bind m (fun x => k))
  (at level 61, m at next level, right associativity).
Notation "m ;;; k" := (bind m (fun _ => k))
  (at level 61, right associativity).

(** [try: body except sqlite3.Error: handler] *)
Definition try_sqlite {A} (body handler : M A) : M A :=
  fun c =>
    match body c with
    | Ret a c' => Ret a c'
    | Raise e c' => if is_sqlite e then handler c' else Raise e c'
    end.

(** [try: body except Exception: handler] *)
Definition try_exception {A} (body handler : M A) : M A :=
  fun c =>
    match body c with
    | Ret a c' => Ret a c'
    | Raise _ c' => handler c'
    end.

(** The storage layer consumes one entry of the fault plan. *)
Definition next_fault (c : conn) : bool * conn :=
  match faults c with
  | [] => (false, c)
  | f :: fs => (f, mk_conn (committed c) (working c) fs (now c))
  end.

(** [cursor.execute] of a statement on the working copy; [None] is an error
    raised by the statement itself (constraint violation, unknown column). *)
Definition execute {A} (stmt : db -> option (A * db)) : M A :=
  fun c =>
    let (f, c1) := next_fault c in
    if f then Raise SqliteError c1
    else match stmt (working c1) with
         | None => Raise SqliteError c1
         | Some (a, d') =>
             Ret a (mk_conn (committed c1) d' (faults c1) (now c1))
         end.

(** A [SELECT]. *)
Definition query {A} (q : db -> A) : M A :=
  execute (fun d => Some (q d, d)).

(** A statement that changes rows. *)
Definition update (f : db -> db) : M unit :=
  execute (fun d => Some (tt, f d)).

Definition current_timestamp : M string := fun c => Ret (now c) c.

(** [conn.commit()] *)
Definition commit : M unit :=
  fun c =>
    let (f, c1) := next_fault c in
    if f then Raise SqliteError c1
    else Ret tt (mk_conn (working c1) (working c1) (faults c1) (now c1)).

(** [conn.rollback()]: like every call on the connection it consumes one
    entry of the fault plan, and it raises when the storage layer fails (on
    a closed connection it raises [sqlite3.ProgrammingError]). *)
Definition rollback : M unit :=
  fun c =>
    let (f, c1) := next_fault c in
    if f then Raise SqliteError c1
    else Ret tt (mk_conn (committed c1) (committed c1) (faults c1) (now c1)).

(** Binding the parameters of a statement. *)
Definition bind_values (vs : list pyval) : M (list cell) :=
  match bind_params vs with
  | inl e => raise e
  | inr cs => ret cs
  end.

Definition bind_value (v : pyval) : M cell :=
  match bind_param v with
  | inl e => raise e
  | inr c => ret c
  end.

(** [for x in xs: body x] *)
Fixpoint for_each {A} (xs : list A) (body : A -> M unit) : M unit :=
  match xs with
  | [] => ret tt
  | x :: r => body x ;;; for_each r body
  end.

(** ** Dynamic UPDATE statements *)

(** The assignments of a [SET] clause, applied from left to right: a column
    assigned twice keeps the last value. *)
Fixpoint set_cols {P R} (set_col : string -> P -> R -> option R)
         (fields : list (string * P)) (r : R) : option R :=
  match fields with
  | [] => Some r
  | (k, c) :: rest =>
      match set_col k c r with
      | Some r' => set_cols set_col rest r'
      | None => None
      end
  end.

(** The rows after [UPDATE t SET fields WHERE matches]; [None] when an
    assignment to a matching row names no column. *)
Fixpoint update_where {P R} (matches : R -> bool)
         (set_col : string -> P -> R -> option R)
         (fields : list (string * P)) (rows : list R)
  : option (list R) :=
  match rows with
  | [] => Some []
  | r :: rest =>
      match update_where matches set_col fields rest with
      | None => None
      | Some rest' =>
          if matches r then
            match set_cols set_col fields r with
            | Some r' => Some (r' :: rest')
            | None => None
            end
          else Some (r :: rest')
      end
  end.

(** The names of the assigned columns are checked when the statement is
    prepared, whether or not a row matches. *)
Definition known_cols {P R} (set_col : string -> P -> R -> option R)
           (witness_row : R) (fields : list (string * P)) : bool :=
  forallb (fun kc => match set_col (fst kc) (snd kc) witness_row with
                     | Some _ => true
                     | None => false
                     end) fields.

(** ** The entity store: users *)

Section Store.
Context {RT : PyRuntime}.

Definition user_dict (r : user_row) : pydict :=
  [ ("user_id", PStr (u_user_id r));
    ("cash", cell_to_py (u_cash r));
    ("bank", cell_to_py (u_bank r));
    ("job", cell_to_py (u_job r));
    ("last_cultivate", cell_to_py (u_last_cultivate r));
    ("last_collect", cell_to_py (u_last_collect r));
    ("message_count", cell_to_py (u_message_count r));
    ("created_at", cell_to_py (u_created_at r));
    ("updated_at", cell_to_py (u_updated_at r)) ].

(** The record [get_user] returns for a user it has just created, and on a
    storage error. *)
Definition zero_user (user_id : string) : pydict :=
  [ ("user_id", PStr user_id);
    ("cash", PInt 0);
    ("bank", PInt 0);
    ("job", PNone);
    ("last_cultivate", PNone);
    ("last_collect", PNone);
    ("message_count", PInt 0) ].

(** [INSERT INTO users (user_id, cash, bank) VALUES (?, 0, 0)] *)
Definition new_user_row (user_id ts : string) : user_row :=
  mk_user user_id (CInt 0) (CInt 0) CNull CNull CNull (CInt 0)
          (CText ts) (CText ts).

Definition find_user (user_id : string) (d : db) : option user_row :=
  find (fun r => (u_user_id r =? user_id)%string) (users d).

Definition get_user (user_id : pyval) : M pydict :=
  let user_id := py_str user_id in
  try_sqlite
    (user <- query (find_user user_id) ;;
     match user with
     | Some r => ret (user_dict r)
     | None =>
         ts <- current_timestamp ;;
         update (fun d => with_users d (users d ++ [new_user_row user_id ts])) ;;;
         commit ;;;
         ret (zero_user user_id)
     end)
    (rollback ;;; ret (zero_user user_id)).

(** [SET key = ?] on a row of [users], with the affinity of the column;
    [None] for a name that is not a column. *)
Definition set_user_col (key : string) (c : cell) (r : user_row)
  : option user_row :=
  if (key =? "cash")%string then
    Some (mk_user (u_user_id r) (aff_numeric c) (u_bank r) (u_job r)
            (u_last_cultivate r) (u_last_collect r) (u_message_count r)
            (u_created_at r) (u_updated_at r))
  else if (key =? "bank")%string then
    Some (mk_user (u_user_id r) (u_cash r) (aff_numeric c) (u_job r)
            (u_last_cultivate r) (u_last_collect r) (u_message_count r)
            (u_created_at r) (u_updated_at r))
  else if (key =? "job")%string then
    Some (mk_user (u_user_id r) (u_cash r) (u_bank r) (aff_text c)
            (u_last_cultivate r) (u_last_collect r) (u_message_count r)
            (u_created_at r) (u_updated_at r))
  else if (key =? "last_cultivate")%string then
    Some (mk_user (u_user_id r) (u_cash r) (u_bank r) (u_job r)
            (aff_text c) (u_last_collect r) (u_message_count r)
            (u_created_at r) (u_updated_at r))
  else if (key =? "last_collect")%string then
    Some (mk_user (u_user_id r) (u_cash r) (u_bank r) (u_job r)
            (u_last_cultivate r) (aff_text c) (u_message_count r)
            (u_created_at r) (u_updated_at r))
  else if (key =? "message_count")%string then
    Some (mk_user (u_user_id r) (u_cash r) (u_bank r) (u_job r)
            (u_last_cultivate r) (u_last_collect r) (aff_numeric c)
            (u_created_at r) (u_updated_at r))
  else if (key =? "created_at")%string then
    Some (mk_user (u_user_id r) (u_cash r) (u_bank r) (u_job r)
            (u_last_cultivate r) (u_last_collect r) (u_message_count r)
            (aff_numeric c) (u_updated_at r))
  else if (key =? "updated_at")%string then
    Some (mk_user (u_user_id r) (u_cash r) (u_bank r) (u_job r)
            (u_last_cultivate r) (u_last_collect r) (u_message_count r)
            (u_created_at r) (aff_numeric c))
  else None.

Definition blank_user : user_row :=
  mk_user "" CNull CNull CNull CNull CNull CNull CNull CNull.

(** [updated_at = CURRENT_TIMESTAMP], the last assignment of the statement. *)
Definition touch_user (user_id ts : string) (r : user_row) : user_row :=
  if (u_user_id r =? user_id)%string then
    mk_user (u_user_id r) (u_cash r) (u_bank r) (u_job r)
            (u_last_cultivate r) (u_last_collect r) (u_message_count r)
            (u_created_at r) (CText ts)
  else r.

Definition update_user (user_id : pyval) (data : pydict) : M bool :=
  let user_id := py_str user_id in
  try_sqlite
    (user <- get_user (PStr user_id) ;;
     let fields :=
       filter (fun kv => dict_has (fst kv) user
                         && negb (fst kv =? "user_id")%string) data in
     match fields with
     | [] => ret true
     | _ =>
         values <- bind_values (map snd fields) ;;
         ts <- current_timestamp ;;
         let sets := combine (map fst fields) values in
         execute (fun d =>
           if known_cols set_user_col blank_user sets then
             match update_where
                     (fun r => (u_user_id r =? user_id)%string)
                     set_user_col sets (users d) with
             | Some us => Some (tt, with_users d (map (touch_user user_id ts) us))
             | None => None
             end
           else None) ;;;
         commit ;;;
         ret true
     end)
    (rollback ;;; ret false).

(** The integer reading of a fetched balance: NULL and unreadable values
    count as zero. *)
Definition balance_of (v : option pyval) : Z :=
  match v with
  | None | Some PNone => 0
  | Some x => match py_int x with Some z => z | None => 0 end
  end.

Definition get_balance (user_id : pyval) : M (Z * Z) :=
  user <- get_user user_id ;;
  ret (balance_of (dict_get "cash" user), balance_of (dict_get "bank" user)).

(** [int(amount)], zero when the conversion fails. *)
Definition amount_of (amount : pyval) : Z :=
  match py_int amount with Some z => z | None => 0 end.

Definition add_cash (user_id amount : pyval) : M bool :=
  let user_id := py_str user_id in
  try_exception
    (let amount := amount_of amount in
     user <- get_user (PStr user_id) ;;
     let cash := balance_of (dict_get "cash" user) in
     let new_cash := Z.max 0 (cash + amount) in
     update_user (PStr user_id) [("cash", PInt new_cash)])
    (ret false).

Definition set_cash (user_id amount : pyval) : M bool :=
  let amount := amount_of amount in
  let amount := Z.max 0 amount in
  update_user user_id [("cash", PInt amount)].

Definition add_bank (user_id amount : pyval) : M bool :=
  let user_id := py_str user_id in
  try_exception
    (let amount := amount_of amount in
     user <- get_user (PStr user_id) ;;
     let bank := balance_of (dict_get "bank" user) in
     let new_bank := Z.max 0 (bank + amount) in
     update_user (PStr user_id) [("bank", PInt new_bank)])
    (ret false).

Definition set_bank (user_id amount : pyval) : M bool :=
  let amount := amount_of amount in
  let amount := Z.max 0 amount in
  update_user user_id [("bank", PInt amount)].

(** ** The entity store: inventory *)

Definition inventory_match (user_id item_name : string)
           (rarity : option string) (r : inventory_row) : bool :=
  (i_user_id r =? user_id)%string && (i_item_name r =? item_name)%string
  && match rarity with
     | Some x => (i_rarity r =? x)%string
     | None => true
     end.

Definition set_quantity (id q : Z) (r : inventory_row) : inventory_row :=
  if i_id r =? id
  then mk_inventory (i_id r) (i_user_id r) (i_item_name r) q (i_rarity r)
                    (i_metadata r)
  else r.

Definition add_inventory_item (user_id : pyval) (item_name : string)
           (quantity : Z) (rarity : string) (metadata : option pyval)
  : M bool :=
  let user_id := py_str user_id in
  let metadata := match metadata with Some m => m | None => PDict [] end in
  try_sqlite
    (get_user (PStr user_id) ;;;
     existing_item <-
       query (fun d => find (inventory_match user_id item_name (Some rarity))
                            (inventory d)) ;;
     match existing_item with
     | Some it =>
         let new_quantity := i_quantity it + quantity in
         bind_value (PInt new_quantity) ;;;
         update (fun d =>
           with_inventory d (map (set_quantity (i_id it) new_quantity)
                                 (inventory d))
                          (inventory_seq d))
     | None =>
         bind_value (PInt quantity) ;;;
         update (fun d =>
           let id := inventory_seq d + 1 in
           with_inventory d
             (inventory d ++
              [mk_inventory id user_id item_name quantity rarity metadata])
             id)
     end ;;;
     commit ;;;
     ret true)
    (rollback ;;; ret false).

(** [if rarity:] holds for a rarity that is neither [None] nor empty; only
    then does the query compare the rarity. *)
Definition rarity_filter (rarity : option string) : option string :=
  match rarity with
  | Some x => if (x =? "")%string then None else Some x
  | None => None
  end.

Definition remove_inventory_item (user_id : pyval) (item_name : string)
           (quantity : Z) (rarity : option string) : M bool :=
  let user_id := py_str user_id in
  try_sqlite
    (let rarity := rarity_filter rarity in
     existing_item <-
       query (fun d => find (inventory_match user_id item_name rarity)
                            (inventory d)) ;;
     match existing_item with
     | None => ret false
     | Some it =>
         (if i_quantity it <=? quantity then
            update (fun d =>
              with_inventory d
                (filter (fun r => negb (i_id r =? i_id it)) (inventory d))
                (inventory_seq d))
          else
            let new_quantity := i_quantity it - quantity in
            bind_value (PInt new_quantity) ;;;
            update (fun d =>
              with_inventory d (map (set_quantity (i_id it) new_quantity)
                                    (inventory d))
                             (inventory_seq d))) ;;;
         commit ;;;
         ret true
     end)
    (rollback ;;; ret false).

(** ** The entity store: jobs *)

Definition set_job (job_name : string) (min_pay max_pay : pyval) : M bool :=
  try_sqlite
    (lo <- bind_value min_pay ;;
     hi <- bind_value max_pay ;;
     update (fun d =>
       with_jobs d
         (filter (fun r => negb (j_job_name r =? job_name)%string) (jobs d)
          ++ [mk_job job_name (aff_numeric lo) (aff_numeric hi)])) ;;;
     commit ;;;
     ret true)
    (rollback ;;; ret false).

Definition user_job_match (user_id job_name : string) (r : user_job_row)
  : bool :=
  (uj_user_id r =? user_id)%string && (uj_job_name r =? job_name)%string.

(** [SET key = ?] on a row of [user_jobs]; the key is compared with the
    column names as it is written. *)
Definition set_user_job_col (key : string) (c : cell) (r : user_job_row)
  : option user_job_row :=
  if (key =? "xp")%string then
    Some (mk_user_job (uj_user_id r) (uj_job_name r) (aff_numeric c)
                      (uj_rank r) (uj_last_work r))
  else if (key =? "rank")%string then
    Some (mk_user_job (uj_user_id r) (uj_job_name r) (uj_xp r)
                      (aff_text c) (uj_last_work r))
  else if (key =? "last_work")%string then
    Some (mk_user_job (uj_user_id r) (uj_job_name r) (uj_xp r)
                      (uj_rank r) (aff_text c))
  else None.

(** In the column list of the INSERT the key columns come first; a key of
    [data] that names one of them again is bound but its value is not used. *)
Definition insert_user_job_col (key : string) (c : cell) (r : user_job_row)
  : option user_job_row :=
  if ((key =? "user_id") || (key =? "job_name"))%string then Some r
  else set_user_job_col key c r.

(** The column defaults of [user_jobs]. *)
Definition default_user_job (user_id job_name : string) : user_job_row :=
  mk_user_job user_id job_name (CInt 0) (CText "apprentice") CNull.

Definition update_user_job (user_id : pyval) (job_name : string)
           (data : pydict) : M bool :=
  let user_id := py_str user_id in
  try_sqlite
    (get_user (PStr user_id) ;;;
     exists_ <-
       query (fun d => existsb (user_job_match user_id job_name)
                               (user_jobs d)) ;;
     if exists_ then
       let fields :=
         filter (fun kv => negb ((fst kv =? "user_id")
                                 || (fst kv =? "job_name"))%string) data in
       match fields with
       | [] => ret true
       | _ =>
           values <- bind_values (map snd fields) ;;
           let sets := combine (map fst fields) values in
           execute (fun d =>
             if known_cols set_user_job_col
                           (default_user_job user_id job_name) sets then
               match update_where (user_job_match user_id job_name)
                                  set_user_job_col sets (user_jobs d) with
               | Some rows => Some (tt, with_user_jobs d rows)
               | None => None
               end
             else None) ;;;
           commit ;;;
           ret true
       end
     else
       let data := dict_setdefault "xp" (PInt 0) data in
       let data := dict_setdefault "rank" (PStr "apprentice") data in
       values <- bind_values (map snd data) ;;
       let sets := combine (map fst data) values in
       execute (fun d =>
         match set_cols insert_user_job_col sets
                        (default_user_job user_id job_name) with
         | Some row => Some (tt, with_user_jobs d (user_jobs d ++ [row]))
         | None => None
         end) ;;;
       commit ;;;
       ret true)
    (rollback ;;; ret false).

(** ** The entity store: sects *)

Definition sect_dict (r : sect_row) : pydict :=
  [ ("sect_id", PStr (s_sect_id r));
    ("name", cell_to_py (s_name r));
    ("leader_id", cell_to_py (s_leader_id r));
    ("description", cell_to_py (s_description r));
    ("created_at", cell_to_py (s_created_at r));
    ("level", cell_to_py (s_level r));
    ("wealth", cell_to_py (s_wealth r));
    ("max_members", cell_to_py (s_max_members r)) ].

Definition find_sect (sect_id : string) (d : db) : option sect_row :=
  find (fun r => (s_sect_id r =? sect_id)%string) (sects d).

Definition get_sect (sect_id : string) : M (option pydict) :=
  try_sqlite
    (sect <- query (find_sect sect_id) ;;
     match sect with
     | Some r => ret (Some (sect_dict r))
     | None => ret None
     end)
    (ret None).

Definition sect_member_match (sect_id user_id : string)
           (r : sect_member_row) : bool :=
  (sm_sect_id r =? sect_id)%string && (sm_user_id r =? user_id)%string.

Definition create_sect (sect_id : string)
           (name leader_id description level wealth : pyval) : M bool :=
  let leader_id := py_str leader_id in
  try_sqlite
    (get_user (PStr leader_id) ;;;
     c_name <- bind_value name ;;
     c_description <- bind_value description ;;
     c_level <- bind_value level ;;
     c_wealth <- bind_value wealth ;;
     ts <- current_timestamp ;;
     execute (fun d =>
       match find_sect sect_id d with
       | Some _ => None
       | None =>
           Some (tt, with_sects d
             (sects d ++
              [mk_sect sect_id (aff_text c_name) (CText leader_id)
                       (aff_text c_description) (CText ts)
                       (aff_numeric c_level) (aff_numeric c_wealth)
                       (CInt 10)]))
       end) ;;;
     execute (fun d =>
       if existsb (sect_member_match sect_id leader_id) (sect_members d)
       then None
       else Some (tt, with_sect_members d
              (sect_members d ++
               [mk_sect_member sect_id leader_id "leader" ts]))) ;;;
     commit ;;;
     ret true)
    (rollback ;;; ret false).

(** [SET key = ?] on a row of [sects]; [update_sect] never assigns
    [sect_id].  The key is compared with the column names as it is
    written. *)
Definition set_sect_col (key : string) (c : cell) (r : sect_row)
  : option sect_row :=
  if (key =? "sect_id")%string then None
  else if (key =? "name")%string then
    Some (mk_sect (s_sect_id r) (aff_text c) (s_leader_id r) (s_description r)
            (s_created_at r) (s_level r) (s_wealth r) (s_max_members r))
  else if (key =? "leader_id")%string then
    Some (mk_sect (s_sect_id r) (s_name r) (aff_text c) (s_description r)
            (s_created_at r) (s_level r) (s_wealth r) (s_max_members r))
  else if (key =? "description")%string then
    Some (mk_sect (s_sect_id r) (s_name r) (s_leader_id r) (aff_text c)
            (s_created_at r) (s_level r) (s_wealth r) (s_max_members r))
  else if (key =? "created_at")%string then
    Some (mk_sect (s_sect_id r) (s_name r) (s_leader_id r) (s_description r)
            (aff_numeric c) (s_level r) (s_wealth r) (s_max_members r))
  else if (key =? "level")%string then
    Some (mk_sect (s_sect_id r) (s_name r) (s_leader_id r) (s_description r)
            (s_created_at r) (aff_numeric c) (s_wealth r) (s_max_members r))
  else if (key =? "wealth")%string then
    Some (mk_sect (s_sect_id r) (s_name r) (s_leader_id r) (s_description r)
            (s_created_at r) (s_level r) (aff_numeric c) (s_max_members r))
  else if (key =? "max_members")%string then
    Some (mk_sect (s_sect_id r) (s_name r) (s_leader_id r) (s_description r)
            (s_created_at r) (s_level r) (s_wealth r) (aff_numeric c))
  else None.

Definition blank_sect : sect_row :=
  mk_sect "" CNull CNull CNull CNull CNull CNull CNull.

Definition update_sect (sect_id : string) (data : pydict) : M bool :=
  try_sqlite
    (sect <- get_sect sect_id ;;
     match sect with
     | None => ret false
     | Some _ =>
         let fields :=
           filter (fun kv => negb (fst kv =? "sect_id")%string) data in
         match fields with
         | [] => ret true
         | _ =>
             values <- bind_values (map snd fields) ;;
             let sets := combine (map fst fields) values in
             execute (fun d =>
               if known_cols set_sect_col blank_sect sets then
                 match update_where
                         (fun r => (s_sect_id r =? sect_id)%string)
                         set_sect_col sets (sects d) with
                 | Some rows => Some (tt, with_sects d rows)
                 | None => None
                 end
               else None) ;;;
             commit ;;;
             ret true
         end
     end)
    (rollback ;;; ret false).

(** The rows of [SELECT sm.*, u.cash, u.bank FROM sect_members sm JOIN users u
    ON sm.user_id = u.user_id WHERE sm.sect_id = ?]: a membership together
    with the user row it joins. *)
Definition select_sect_members (sect_id : string) (d : db)
  : list (sect_member_row * user_row) :=
  flat_map
    (fun m =>
       if (sm_sect_id m =? sect_id)%string then
         map (fun u => (m, u))
             (filter (fun u => (u_user_id u =? sm_user_id m)%string) (users d))
       else [])
    (sect_members d).

Definition get_sect_members (sect_id : string)
  : M (list (sect_member_row * user_row)) :=
  try_sqlite (query (select_sect_members sect_id)) (ret []).

Definition add_sect_member (sect_id : string) (user_id : pyval)
           (role : string) : M bool :=
  let user_id := py_str user_id in
  try_sqlite
    (get_user (PStr user_id) ;;;
     sect <- get_sect sect_id ;;
     match sect with
     | None => ret false
     | Some _ =>
         ts <- current_timestamp ;;
         update (fun d =>
           with_sect_members d
             (filter (fun r => negb (sect_member_match sect_id user_id r))
                     (sect_members d)
              ++ [mk_sect_member sect_id user_id role ts])) ;;;
         commit ;;;
         ret true
     end)
    (rollback ;;; ret false).

Definition remove_sect_member (sect_id : string) (user_id : pyval) : M bool :=
  let user_id := py_str user_id in
  try_sqlite
    (update (fun d =>
       with_sect_members d
         (filter (fun r => negb (sect_member_match sect_id user_id r))
                 (sect_members d))) ;;;
     commit ;;;
     ret true)
    (rollback ;;; ret false).

(** ** The entity store: store items *)

Definition set_store_item (item_name : string)
           (price description stock min_rank rarity : pyval)
           (metadata : option pyval) : M bool :=
  let metadata := match metadata with Some m => m | None => PDict [] end in
  try_sqlite
    (c_price <- bind_value price ;;
     c_description <- bind_value description ;;
     c_stock <- bind_value stock ;;
     c_min_rank <- bind_value min_rank ;;
     c_rarity <- bind_value rarity ;;
     update (fun d =>
       with_store_items d
         (filter (fun r => negb (si_item_name r =? item_name)%string)
                 (store_items d)
          ++ [mk_store_item item_name (aff_numeric c_price)
                (aff_text c_description) (aff_numeric c_stock)
                (aff_numeric c_min_rank) (aff_text c_rarity) metadata])) ;;;
     commit ;;;
     ret true)
    (rollback ;;; ret false).

(** ** The entity store: tournaments *)

(** [json.loads] of a stored [reward_data]; [inl] is the [TypeError] raised
    for a value that is not a text, and a text that does not parse gives
    [{}]. *)
Definition loads_reward_data (j : jcell) : exn + pyval :=
  match j with
  | JDump v => inr v
  | JRaw (CText s) =>
      match json_loads s with
      | Some v => inr v
      | None => inr (PDict [])
      end
  | JRaw _ => inl TypeError
  end.

Definition tournament_dict (r : tournament_row) (reward_data : pyval)
  : pydict :=
  [ ("tournament_id", PStr (t_tournament_id r));
    ("host_id", cell_to_py (t_host_id r));
    ("title", cell_to_py (t_title r));
    ("description", cell_to_py (t_description r));
    ("status", cell_to_py (t_status r));
    ("created_at", cell_to_py (t_created_at r));
    ("winner_id", cell_to_py (t_winner_id r));
    ("reward_data", reward_data) ].

Definition find_tournament (tournament_id : string) (d : db)
  : option tournament_row :=
  find (fun r => (t_tournament_id r =? tournament_id)%string) (tournaments d).

Definition get_tournament (tournament_id : string) : M (option pydict) :=
  try_sqlite
    (tournament <- query (find_tournament tournament_id) ;;
     match tournament with
     | Some r =>
         match loads_reward_data (t_reward_data r) with
         | inr v => ret (Some (tournament_dict r v))
         | inl e => raise e
         end
     | None => ret None
     end)
    (ret None).

Definition create_tournament (tournament_id : string)
           (host_id title description : pyval) (reward_data : option pyval)
  : M bool :=
  let host_id := py_str host_id in
  let reward_data :=
    match reward_data with Some v => v | None => PDict [] end in
  try_sqlite
    (get_user (PStr host_id) ;;;
     c_title <- bind_value title ;;
     c_description <- bind_value description ;;
     ts <- current_timestamp ;;
     execute (fun d =>
       match find_tournament tournament_id d with
       | Some _ => None
       | None =>
           Some (tt, with_tournaments d
             (tournaments d ++
              [mk_tournament tournament_id (CText host_id) (aff_text c_title)
                 (aff_text c_description) (CText "recruiting") (CText ts)
                 CNull (JDump reward_data)]))
       end) ;;;
     commit ;;;
     ret true)
    (rollback ;;; ret false).

(** [update_tournament] never assigns [tournament_id]. *)
Definition set_tournament_col (key : string) (p : jcell) (r : tournament_row)
  : option tournament_row :=
  let c := match p with JRaw c => c | JDump _ => CNull end in
  if (key =? "tournament_id")%string then None
  else if (key =? "host_id")%string then
    Some (mk_tournament (t_tournament_id r) (aff_text c) (t_title r)
            (t_description r) (t_status r) (t_created_at r) (t_winner_id r)
            (t_reward_data r))
  else if (key =? "title")%string then
    Some (mk_tournament (t_tournament_id r) (t_host_id r) (aff_text c)
            (t_description r) (t_status r) (t_created_at r) (t_winner_id r)
            (t_reward_data r))
  else if (key =? "description")%string then
    Some (mk_tournament (t_tournament_id r) (t_host_id r) (t_title r)
            (aff_text c) (t_status r) (t_created_at r) (t_winner_id r)
            (t_reward_data r))
  else if (key =? "status")%string then
    Some (mk_tournament (t_tournament_id r) (t_host_id r) (t_title r)
            (t_description r) (aff_text c) (t_created_at r) (t_winner_id r)
            (t_reward_data r))
  else if (key =? "created_at")%string then
    Some (mk_tournament (t_tournament_id r) (t_host_id r) (t_title r)
            (t_description r) (t_status r) (aff_numeric c) (t_winner_id r)
            (t_reward_data r))
  else if (key =? "winner_id")%string then
    Some (mk_tournament (t_tournament_id r) (t_host_id r) (t_title r)
            (t_description r) (t_status r) (t_created_at r) (aff_text c)
            (t_reward_data r))
  else if (key =? "reward_data")%string then
    Some (mk_tournament (t_tournament_id r) (t_host_id r) (t_title r)
            (t_description r) (t_status r) (t_created_at r) (t_winner_id r)
            (match p with
             | JDump v => JDump v
             | JRaw c => JRaw (aff_text c)
             end))
  else None.

Definition blank_tournament : tournament_row :=
  mk_tournament "" CNull CNull CNull CNull CNull CNull (JRaw CNull).

(** The value bound for a field of [update_tournament]: a dictionary given
    for [reward_data] has been replaced by its [json.dumps] text. *)
Definition bind_tournament_field (kv : string * pyval) : exn + jcell :=
  match kv with
  | (k, PDict v) =>
      if (k =? "reward_data")%string then inr (JDump (PDict v))
      else inl SqliteError
  | (_, v) =>
      match bind_param v with
      | inl e => inl e
      | inr c => inr (JRaw c)
      end
  end.

Fixpoint bind_tournament_fields (fields : pydict)
  : exn + list (string * jcell) :=
  match fields with
  | [] => inr []
  | kv :: r =>
      match bind_tournament_field kv with
      | inl e => inl e
      | inr p =>
          match bind_tournament_fields r with
          | inl e => inl e
          | inr ps => inr ((fst kv, p) :: ps)
          end
      end
  end.

Definition update_tournament (tournament_id : string) (data : pydict)
  : M bool :=
  try_sqlite
    (tournament <- get_tournament tournament_id ;;
     match tournament with
     | None => ret false
     | Some _ =>
         let fields :=
           filter (fun kv => negb (fst kv =? "tournament_id")%string) data in
         match fields with
         | [] => ret true
         | _ =>
             match bind_tournament_fields fields with
             | inl e => raise e
             | inr sets =>
                 execute (fun d =>
                   if known_cols set_tournament_col blank_tournament sets then
                     match update_where
                             (fun r =>
                                (t_tournament_id r =? tournament_id)%string)
                             set_tournament_col sets (tournaments d) with
                     | Some rows => Some (tt, with_tournaments d rows)
                     | None => None
                     end
                   else None) ;;;
                 commit ;;;
                 ret true
             end
         end
     end)
    (rollback ;;; ret false).

Definition participant_dict (r : participant_row) : pydict :=
  [ ("tournament_id", PStr (tp_tournament_id r));
    ("participant_id", PStr (tp_participant_id r));
    ("joined_at", PStr (tp_joined_at r));
    ("is_bot", PInt (Z.b2z (tp_is_bot r)));
    ("bot_name", cell_to_py (tp_bot_name r)) ].

Definition select_participants (tournament_id : string) (d : db)
  : list participant_row :=
  filter (fun r => (tp_tournament_id r =? tournament_id)%string)
         (tournament_participants d).

Definition get_tournament_participants (tournament_id : string)
  : M (list participant_row) :=
  try_sqlite (query (select_participants tournament_id)) (ret []).

Definition participant_match (tournament_id participant_id : string)
           (r : participant_row) : bool :=
  (tp_tournament_id r =? tournament_id)%string
  && (tp_participant_id r =? participant_id)%string.

Definition add_tournament_participant (tournament_id : string)
           (participant_id : pyval) (is_bot : bool) (bot_name : pyval)
  : M bool :=
  let participant_id := py_str participant_id in
  try_sqlite
    (tournament <- get_tournament tournament_id ;;
     match tournament with
     | None => ret false
     | Some _ =>
         (if is_bot then ret tt
          else get_user (PStr participant_id) ;;; ret tt) ;;;
         c_bot_name <- bind_value bot_name ;;
         ts <- current_timestamp ;;
         update (fun d =>
           with_participants d
             (filter (fun r =>
                        negb (participant_match tournament_id participant_id r))
                     (tournament_participants d)
              ++ [mk_participant tournament_id participant_id ts is_bot
                                 (aff_text c_bot_name)])) ;;;
         commit ;;;
         ret true
     end)
    (rollback ;;; ret false).

Definition remove_tournament_participant (tournament_id : string)
           (participant_id : pyval) : M bool :=
  let participant_id := py_str participant_id in
  try_sqlite
    (update (fun d =>
       with_participants d
         (filter (fun r =>
                    negb (participant_match tournament_id participant_id r))
                 (tournament_participants d))) ;;;
     commit ;;;
     ret true)
    (rollback ;;; ret false).

End Store.

(** ** The document view adapter *)

Section Adapter.
Context {RT : PyRuntime}.

(** Calling [.get] or [.items] on a value that is not a dictionary. *)
Definition as_dict (v : pyval) : M pydict :=
  match v with
  | PDict d => ret d
  | _ => raise AttributeError
  end.

(** [k in s] for strings: [k] occurs in [s]. *)
Fixpoint is_substring (k s : string) : bool :=
  String.prefix k s
  || match s with
     | EmptyString => false
     | String _ s' => is_substring k s'
     end.

(** [key in v] *)
Definition py_contains (key : string) (v : pyval) : M bool :=
  match v with
  | PDict d => ret (dict_has key d)
  | PList l => ret (existsb (py_eqb (PStr key)) l)
  | PStr s => ret (is_substring key s)
  | _ => raise TypeError
  end.

(** [v[key]] for a string key that [key in v] has found. *)
Definition py_subscript (key : string) (v : pyval) : M pyval :=
  match v with
  | PDict d =>
      match dict_get key d with
      | Some x => ret x
      | None => raise KeyError
      end
  | _ => raise TypeError
  end.

Definition reward_keys : list string :=
  ["add_money"; "set_money"; "rem_money"; "reward_title"].

(** [for key in reward_keys: if key in src: dst[key] = src[key]] *)
Fixpoint copy_reward_keys (keys : list string) (src : pyval) (dst : pydict)
  : M pydict :=
  match keys with
  | [] => ret dst
  | key :: rest =>
      present <- py_contains key src ;;
      if present then
        v <- py_subscript key src ;;
        copy_reward_keys rest src (dict_set key v dst)
      else copy_reward_keys rest src dst
  end.

Definition select_sect_ids (d : db) : list string := map s_sect_id (sects d).

Definition select_tournament_ids (d : db) : list string :=
  map t_tournament_id (tournaments d).

Definition sect_entry (sect_id : string) (sect_data : pydict)
           (members : list (sect_member_row * user_row)) : pydict :=
  [ ("name", dict_get_default "name" (PStr ("Sect " ++ sect_id)%string)
                              sect_data);
    ("leader", dict_get_none "leader_id" sect_data);
    ("description", dict_get_default "description" (PStr "") sect_data);
    ("level", dict_get_default "level" (PInt 1) sect_data);
    ("wealth", dict_get_default "wealth" (PInt 0) sect_data);
    ("members", PList (map (fun m => PStr (sm_user_id (fst m))) members)) ].

Fixpoint project_sects (sect_ids : list string) (result : pydict)
  : M pydict :=
  match sect_ids with
  | [] => ret result
  | sect_id :: rest =>
      sect_data <- get_sect sect_id ;;
      members <- get_sect_members sect_id ;;
      match sect_data with
      | None => raise AttributeError
      | Some sect_data =>
          project_sects rest
            (dict_set sect_id (PDict (sect_entry sect_id sect_data members))
                      result)
      end
  end.

Definition get_sects_data : M pydict :=
  try_exception
    (sect_ids <- query select_sect_ids ;;
     project_sects sect_ids [])
    (ret []).

(** The membership test [member_id not in current_member_ids] against a set
    of strings: a list or a dictionary cannot be hashed. *)
Definition not_in_str_set (v : pyval) (ids : list string) : M bool :=
  match v with
  | PList _ | PDict _ => raise TypeError
  | PStr s => ret (negb (str_mem s ids))
  | _ => ret true
  end.

Definition sect_update_data (sect_id : string) (sect_data : pydict) : pydict :=
  [ ("name", dict_get_default "name" (PStr ("Sect " ++ sect_id)%string)
                              sect_data);
    ("leader_id", dict_get_none "leader" sect_data);
    ("description", dict_get_default "description" (PStr "") sect_data);
    ("level", dict_get_default "level" (PInt 1) sect_data);
    ("wealth", dict_get_default "wealth" (PInt 0) sect_data) ].

(** The reconciliation of the members of an existing sect. *)
Definition reconcile_sect_members (sect_id : string) (sect_data : pydict)
           (members : list pyval) : M unit :=
  current_members <- get_sect_members sect_id ;;
  let current_member_ids :=
    map (fun m => sm_user_id (fst m)) current_members in
  for_each members (fun member_id =>
    absent <- not_in_str_set member_id current_member_ids ;;
    if absent then
      let role :=
        if py_eqb member_id (dict_get_none "leader" sect_data)
        then "leader" else "member" in
      add_sect_member sect_id member_id role ;;; ret tt
    else ret tt) ;;;
  for_each current_members (fun member =>
    if negb (str_in_list (sm_user_id (fst member)) members) then
      remove_sect_member sect_id (PStr (sm_user_id (fst member))) ;;; ret tt
    else ret tt).

(** The members of a sect that has just been created. *)
Definition add_new_sect_members (sect_id : string) (sect_data : pydict)
           (members : list pyval) : M unit :=
  for_each members (fun member_id =>
    if negb (py_eqb member_id (dict_get_none "leader" sect_data)) then
      add_sect_member sect_id member_id "member" ;;; ret tt
    else ret tt).

Definition create_sect_from (sect_id : string) (sect_data : pydict) : M bool :=
  create_sect sect_id
    (dict_get_default "name" (PStr ("Sect " ++ sect_id)%string) sect_data)
    (dict_get_default "leader" (PStr "0") sect_data)
    (dict_get_default "description" (PStr "") sect_data)
    (dict_get_default "level" (PInt 1) sect_data)
    (dict_get_default "wealth" (PInt 0) sect_data).

Definition save_sect (existing_sects : list string)
           (entry : string * pyval) : M unit :=
  let (sect_id, sect_data) := entry in
  if str_mem sect_id existing_sects then
    sect_data <- as_dict sect_data ;;
    update_sect sect_id (sect_update_data sect_id sect_data) ;;;
    match dict_get "members" sect_data with
    | Some (PList members) => reconcile_sect_members sect_id sect_data members
    | _ => ret tt
    end
  else
    sect_data <- as_dict sect_data ;;
    create_sect_from sect_id sect_data ;;;
    match dict_get "members" sect_data with
    | Some (PList members) => add_new_sect_members sect_id sect_data members
    | _ => ret tt
    end.

Definition delete_sect (sect_id : string) : M unit :=
  update (fun d =>
    with_sects d
      (filter (fun r => negb (s_sect_id r =? sect_id)%string) (sects d))).

(** The body of the [try] block of [save_sects_data]. *)
Definition absorb_sects (data : pydict) : M unit :=
  existing_sects <- query select_sect_ids ;;
  for_each data (save_sect existing_sects) ;;;
  for_each existing_sects (fun sect_id =>
    if negb (dict_has sect_id data) then delete_sect sect_id
    else ret tt) ;;;
  commit.

Definition save_sects_data (data : pydict) : M unit :=
  try_exception (absorb_sects data) rollback.

(** The participant list and the bot names of a projected tournament. *)
Fixpoint project_participants (participants : list participant_row)
         (ids : list pyval) (bot_names : pydict) : list pyval * pydict :=
  match participants with
  | [] => (ids, bot_names)
  | participant :: rest =>
      let participant_id := tp_participant_id participant in
      if tp_is_bot participant
         && py_truthy (cell_to_py (tp_bot_name participant)) then
        let bot_names :=
          dict_set participant_id (cell_to_py (tp_bot_name participant))
                   bot_names in
        let participant_id :=
          match int_of_text participant_id with
          | Some z => PInt z
          | None => PStr participant_id
          end in
        project_participants rest (ids ++ [participant_id]) bot_names
      else
        project_participants rest (ids ++ [PStr participant_id]) bot_names
  end.

Definition tournament_entry (tournament_id : string)
           (tournament_data : pydict) : pydict :=
  let entry :=
    [ ("title", dict_get_default "title"
                  (PStr ("Tournament " ++ tournament_id)%string)
                  tournament_data);
      ("host", dict_get_none "host_id" tournament_data);
      ("description", dict_get_default "description" (PStr "")
                                       tournament_data);
      ("status", dict_get_default "status" (PStr "recruiting")
                                  tournament_data);
      ("participants", PList []) ] in
  if py_truthy (dict_get_none "winner_id" tournament_data)
  then dict_set "winner" (dict_get_none "winner_id" tournament_data) entry
  else entry.

Fixpoint project_tournaments (tournament_ids : list string) (result : pydict)
  : M pydict :=
  match tournament_ids with
  | [] => ret result
  | tournament_id :: rest =>
      tournament_data <- get_tournament tournament_id ;;
      participants <- get_tournament_participants tournament_id ;;
      match tournament_data with
      | None => raise AttributeError
      | Some tournament_data =>
          let entry := tournament_entry tournament_id tournament_data in
          let reward_data :=
            dict_get_default "reward_data" (PDict []) tournament_data in
          entry <- copy_reward_keys reward_keys reward_data entry ;;
          let (ids, bot_names) := project_participants participants [] [] in
          let entry := dict_set "participants" (PList ids) entry in
          let entry :=
            match bot_names with
            | [] => entry
            | _ => dict_set "bot_names" (PDict bot_names) entry
            end in
          project_tournaments rest (dict_set tournament_id (PDict entry) result)
      end
  end.

Definition get_tournaments_data : M pydict :=
  try_exception
    (tournament_ids <- query select_tournament_ids ;;
     project_tournaments tournament_ids [])
    (ret []).

(** [isinstance(participant_id, int) and participant_id < 0] *)
Definition is_bot_id (participant_id : pyval) : bool :=
  match participant_id with
  | PInt z => z <? 0
  | PBool b => Z.b2z b <? 0
  | _ => false
  end.

(** The bot name looked up for a participant of a tournament document. *)
Definition lookup_bot_name (tournament_data : pydict) (is_bot : bool)
           (p_id_str : string) : M pyval :=
  if is_bot && dict_has "bot_names" tournament_data then
    bot_names <- as_dict (dict_get_none "bot_names" tournament_data) ;;
    ret (dict_get_none p_id_str bot_names)
  else ret PNone.

(** [update_data["winner_id"] = tournament_data["winner"]] when present. *)
Definition with_winner (tournament_data update_data : pydict) : pydict :=
  match dict_get "winner" tournament_data with
  | Some w => dict_set "winner_id" w update_data
  | None => update_data
  end.

Definition reconcile_participants (tournament_id : string)
           (tournament_data : pydict) (participants : list pyval) : M unit :=
  current_participants <- get_tournament_participants tournament_id ;;
  let current_participant_ids :=
    map tp_participant_id current_participants in
  for_each participants (fun participant_id =>
    let is_bot := is_bot_id participant_id in
    let p_id_str := py_str participant_id in
    bot_name <- lookup_bot_name tournament_data is_bot p_id_str ;;
    if negb (str_mem p_id_str current_participant_ids) then
      add_tournament_participant tournament_id (PStr p_id_str) is_bot
                                 bot_name ;;; ret tt
    else ret tt) ;;;
  for_each current_participants (fun participant =>
    let p_id := tp_participant_id participant in
    if negb (str_mem p_id (map py_str participants)) then
      remove_tournament_participant tournament_id (PStr p_id) ;;; ret tt
    else ret tt).

Definition add_new_participants (tournament_id : string)
           (tournament_data : pydict) (participants : list pyval) : M unit :=
  for_each participants (fun participant_id =>
    let is_bot := is_bot_id participant_id in
    let p_id_str := py_str participant_id in
    bot_name <- lookup_bot_name tournament_data is_bot p_id_str ;;
    add_tournament_participant tournament_id (PStr p_id_str) is_bot
                               bot_name ;;; ret tt).

Definition save_tournament (existing_tournaments : list string)
           (entry : string * pyval) : M unit :=
  let (tournament_id, tournament_data) := entry in
  reward_data <- copy_reward_keys reward_keys tournament_data [] ;;
  if str_mem tournament_id existing_tournaments then
    tournament_data <- as_dict tournament_data ;;
    let update_data :=
      [ ("title", dict_get_default "title"
                    (PStr ("Tournament " ++ tournament_id)%string)
                    tournament_data);
        ("host_id", dict_get_none "host" tournament_data);
        ("description", dict_get_default "description" (PStr "")
                                         tournament_data);
        ("status", dict_get_default "status" (PStr "recruiting")
                                    tournament_data);
        ("reward_data", PDict reward_data) ] in
    update_tournament tournament_id
                      (with_winner tournament_data update_data) ;;;
    match dict_get "participants" tournament_data with
    | Some (PList participants) =>
        reconcile_participants tournament_id tournament_data participants
    | _ => ret tt
    end
  else
    tournament_data <- as_dict tournament_data ;;
    create_tournament tournament_id
      (dict_get_default "host" (PStr "0") tournament_data)
      (dict_get_default "title"
         (PStr ("Tournament " ++ tournament_id)%string) tournament_data)
      (dict_get_default "description" (PStr "") tournament_data)
      (Some (PDict reward_data)) ;;;
    update_tournament tournament_id
      (with_winner tournament_data
         [("status", dict_get_default "status" (PStr "recruiting")
                                      tournament_data)]) ;;;
    match dict_get "participants" tournament_data with
    | Some (PList participants) =>
        add_new_participants tournament_id tournament_data participants
    | _ => ret tt
    end.

Definition delete_tournament (tournament_id : string) : M unit :=
  update (fun d =>
    with_tournaments d
      (filter (fun r => negb (t_tournament_id r =? tournament_id)%string)
              (tournaments d))).

(** The body of the [try] block of [save_tournaments_data]. *)
Definition absorb_tournaments (data : pydict) : M unit :=
  existing_tournaments <- query select_tournament_ids ;;
  for_each data (save_tournament existing_tournaments) ;;;
  for_each existing_tournaments (fun tournament_id =>
    if negb (dict_has tournament_id data)
    then delete_tournament tournament_id
    else ret tt) ;;;
  commit.

Definition save_tournaments_data (data : pydict) : M unit :=
  try_exception (absorb_tournaments data) rollback.

End Adapter.

(** ** The migration runner *)

Section Migration.
Context {RT : PyRuntime}.

(** The legacy documents as [load_json_file] finds them: [None] for a file
    that is missing or does not parse. *)
Record legacy_docs : Type := mk_legacy {
  economy_json : option pyval;
  jobs_json : option pyval;
  store_json : option pyval;
  sects_json : option pyval;
  tournaments_json : option pyval
}.

Definition load_json_file (file : option pyval) : pyval :=
  match file with
  | Some v => v
  | None => PDict []
  end.

Definition migrate_user_jobs (user_id : string) (jobs_data : pydict)
  : M unit :=
  for_each jobs_data (fun entry =>
    match snd entry with
    | PDict job_data =>
        let job_update :=
          [ ("xp", dict_get_default "xp" (PInt 0) job_data);
            ("rank", dict_get_default "rank" (PStr "apprentice") job_data);
            ("last_work", dict_get_none "last_work" job_data) ] in
        update_user_job (PStr user_id) (fst entry) job_update ;;; ret tt
    | _ => ret tt
    end).

Definition migrate_economy (docs : legacy_docs) : M unit :=
  economy_data <- as_dict (load_json_file (economy_json docs)) ;;
  for_each economy_data (fun entry =>
    let user_id := fst entry in
    data <- as_dict (snd entry) ;;
    let user_data :=
      [ ("cash", dict_get_default "cash" (PInt 0) data);
        ("bank", dict_get_default "bank" (PInt 0) data);
        ("job", dict_get_none "job" data);
        ("last_cultivate", dict_get_none "last_cultivate" data);
        ("last_collect", dict_get_none "last_collect" data);
        ("message_count", dict_get_default "message_count" (PInt 0) data) ] in
    update_user (PStr user_id) user_data ;;;
    match dict_get "inventory" data with
    | Some (PList items) =>
        for_each items (fun item =>
          match item with
          | PStr item_name =>
              add_inventory_item (PStr user_id) item_name 1 "common" None ;;;
              ret tt
          | _ => ret tt
          end)
    | _ => ret tt
    end ;;;
    match dict_get "jobs" data with
    | Some (PDict jobs_data) => migrate_user_jobs user_id jobs_data
    | _ => ret tt
    end).

Definition migrate_jobs (docs : legacy_docs) : M unit :=
  jobs_data <- as_dict (load_json_file (jobs_json docs)) ;;
  for_each jobs_data (fun entry =>
    match snd entry with
    | PList (lo :: hi :: _) => set_job (fst entry) lo hi ;;; ret tt
    | _ => ret tt
    end).

Definition store_columns : list string :=
  ["price"; "description"; "stock"; "min_rank"; "rarity"].

Definition migrate_store (docs : legacy_docs) : M unit :=
  store_data <- as_dict (load_json_file (store_json docs)) ;;
  for_each store_data (fun entry =>
    match snd entry with
    | PDict item_data =>
        let metadata :=
          fold_left (fun m kv => dict_set (fst kv) (snd kv) m)
            (filter (fun kv => negb (str_mem (fst kv) store_columns))
                    item_data) [] in
        set_store_item (fst entry)
          (dict_get_default "price" (PInt 0) item_data)
          (dict_get_default "description" (PStr "") item_data)
          (dict_get_default "stock" (PInt (-1)) item_data)
          (dict_get_default "min_rank" (PInt 0) item_data)
          (dict_get_default "rarity" (PStr "common") item_data)
          (Some (PDict metadata)) ;;; ret tt
    | _ => ret tt
    end).

Definition migrate_sects (docs : legacy_docs) : M unit :=
  sects_data <- as_dict (load_json_file (sects_json docs)) ;;
  for_each sects_data (fun entry =>
    match snd entry with
    | PDict sect_data =>
        create_sect_from (fst entry) sect_data ;;;
        match dict_get "members" sect_data with
        | Some (PList members) =>
            add_new_sect_members (fst entry) sect_data members
        | _ => ret tt
        end
    | _ => ret tt
    end).

Definition migrate_tournaments (docs : legacy_docs) : M unit :=
  tournaments_data <- as_dict (load_json_file (tournaments_json docs)) ;;
  for_each tournaments_data (fun entry =>
    let tournament_id := fst entry in
    match snd entry with
    | PDict tournament_data =>
        reward_data <-
          copy_reward_keys reward_keys (PDict tournament_data) [] ;;
        create_tournament tournament_id
          (dict_get_default "host" (PStr "0") tournament_data)
          (dict_get_default "title"
             (PStr ("Tournament " ++ tournament_id)%string) tournament_data)
          (dict_get_default "description" (PStr "") tournament_data)
          (Some (PDict reward_data)) ;;;
        update_tournament tournament_id
          (with_winner tournament_data
             [("status", dict_get_default "status" (PStr "recruiting")
                                          tournament_data)]) ;;;
        match dict_get "participants" tournament_data with
        | Some (PList participants) =>
            for_each participants (fun participant_id =>
              let is_bot := is_bot_id participant_id in
              bot_name <-
                lookup_bot_name tournament_data is_bot
                                (py_str participant_id) ;;
              add_tournament_participant tournament_id participant_id is_bot
                                         bot_name ;;; ret tt)
        | _ => ret tt
        end
    | _ => ret tt
    end).

Definition migrate_json_to_db (docs : legacy_docs) : M bool :=
  try_exception
    (migrate_economy docs ;;;
     migrate_jobs docs ;;;
     migrate_store docs ;;;
     migrate_sects docs ;;;
     migrate_tournaments docs ;;;
     ret true)
    (ret false).

End Migration.

(** ** A runtime for concrete scenarios *)

(** Decimal integers are read the same way by [int] and by SQLite; the
    scenarios below pass no list or dictionary to [str] and store no
    hand-written JSON text. *)
Definition decimal_runtime : PyRuntime := {|
  str_container := fun _ => "<container>";
  int_of_text := Z_of_str;
  numeric_text := Z_of_str;
  json_loads := fun _ => None
|}.

(** * Vocabulary of the properties *)

Section Vocabulary.
Context {RT : PyRuntime}.

(** What it means for a connection to differ only by the transaction having
    been committed. *)
Definition committed_conn (c : conn) : conn :=
  mk_conn (working c) (working c) (faults c) (now c).

(** The connection after [get_user] has created the row of [user_id]. *)
Definition created_user_conn (user_id : string) (c : conn) : conn :=
  let d := with_users (working c)
             (users (working c) ++ [new_user_row user_id (now c)]) in
  mk_conn d d (faults c) (now c).




(** The cell bound for a value that can be bound. *)
Definition bound (v : pyval) : cell :=
  match bind_param v with
  | inr c => c
  | inl _ => CNull
  end.

(** [data] after the two [setdefault] calls of the insert branch. *)
Definition with_job_defaults (data : pydict) : pydict :=
  dict_setdefault "rank" (PStr "apprentice")
    (dict_setdefault "xp" (PInt 0) data).

(** The five steps, in the order [migrate_json_to_db] calls them. *)
Definition migration_steps (docs : legacy_docs) : list (M unit) :=
  [ migrate_economy docs; migrate_jobs docs; migrate_store docs;
    migrate_sects docs; migrate_tournaments docs ].

(** Running steps in order until one raises: the flag tells whether all of
    them returned, and the connection is the one left by the last step that
    ran. *)
Fixpoint run_steps (steps : list (M unit)) (c : conn) : bool * conn :=
  match steps with
  | [] => (true, c)
  | step :: rest =>
      match step c with
      | Ret _ c' => run_steps rest c'
      | Raise _ c' => (false, c')
      end
  end.

(** Nothing is pending on the connection: no storage fault and no open
    transaction. *)
Definition steady (c : conn) : Prop :=
  quiet c /\ committed c = working c.

(** The connection after its working copy has been replaced and committed. *)
Definition stored (c : conn) (d : db) : conn :=
  mk_conn d d (faults c) (now c).

(** The row of a sect after the five assignments of [save_sects_data]. *)
Definition write_sect (c_name c_leader c_description c_level c_wealth : cell)
           (r : sect_row) : sect_row :=
  mk_sect (s_sect_id r) (aff_text c_name) (aff_text c_leader)
          (aff_text c_description) (s_created_at r) (aff_numeric c_level)
          (aff_numeric c_wealth) (s_max_members r).

Definition write_sect_where (sect_id : string) (cells : list cell)
           (r : sect_row) : sect_row :=
  match cells with
  | [a; b; c; d; e] =>
      if (s_sect_id r =? sect_id)%string then write_sect a b c d e r else r
  | _ => r
  end.

(** The connection [get_user] leaves: the row is created when missing. *)
Definition after_get_user (user_id : string) (c : conn) : conn :=
  match find_user user_id (working c) with
  | Some _ => c
  | None => created_user_conn user_id c
  end.

(** A value a column of TEXT affinity can hold. *)
Definition text_cell (c : cell) : bool :=
  match c with
  | CInt _ => false
  | _ => true
  end.

(** A value a column of INTEGER affinity can hold: a 64-bit integer, NULL,
    or a text that does not read as a number. *)
Definition numeric_cell (c : cell) : bool :=
  match c with
  | CNull => true
  | CInt z => in_int64 z
  | CText s => match numeric_text s with None => true | Some _ => false end
  end.

Definition sect_row_wf (r : sect_row) : bool :=
  text_cell (s_name r) && text_cell (s_leader_id r)
  && text_cell (s_description r)
  && numeric_cell (s_level r) && numeric_cell (s_wealth r).

(** The table [sects] as SQLite keeps it: [sect_id] is a key and every
    column holds a value of its affinity. *)
Definition sects_wf (d : db) : Prop :=
  NoDup (map s_sect_id (sects d)) /\ forallb sect_row_wf (sects d) = true.

(** The document entry [get_sects_data] builds for a stored sect. *)
Definition projected_sect (d : db) (r : sect_row) : string * pyval :=
  (s_sect_id r,
   PDict (sect_entry (s_sect_id r) (sect_dict r)
                     (select_sect_members (s_sect_id r) d))).

Definition projected_sects (d : db) : pydict :=
  map (projected_sect d) (sects d).

(** The membership rows of the sect [s]. *)
Definition rows_of (s : string) (d : db) : list sect_member_row :=
  filter (fun m => (sm_sect_id m =? s)%string) (sect_members d).

(** [d] has the membership rows of [s] that [d0] has, still has the sect
    [s] if [d0] has it, and has every user that [d0] has. *)
Definition frame_db (s : string) (d0 d : db) : Prop :=
  rows_of s d = rows_of s d0 /\
  (find_sect s d0 <> None -> find_sect s d <> None) /\
  (forall u, find_user u d0 <> None -> find_user u d <> None).

(** Both the working copy and the committed database are framed by [d0],
    and no storage fault is pending. *)
Definition framed (s : string) (d0 : db) (c : conn) : Prop :=
  quiet c /\ frame_db s d0 (working c) /\ frame_db s d0 (committed c).

(** A computation that keeps the frame, however it ends. *)
Definition keeps (s : string) {A} (m : M A) : Prop :=
  forall d0 c, framed s d0 c -> framed s d0 (conn_of (m c)).

Definition users_of (rows : list sect_member_row) : list string :=
  map sm_user_id rows.

Definition not_user (u : string) (m : sect_member_row) : bool :=
  negb (sm_user_id m =? u)%string.

(** The invariant of the two loops: [L] are the rows the sect had, [new]
    the members the document lists. *)
Definition recon_inv (s : string) (L : list sect_member_row) (new : list string)
           (c : conn) : Prop :=
  steady c /\ find_sect s (working c) <> None /\
  (forall m, In m L -> In (sm_user_id m) new -> In m (rows_of s (working c))) /\
  (forall m, In m (rows_of s (working c)) ->
             In m L \/
             (In (sm_user_id m) new /\ ~ In (sm_user_id m) (users_of L))).

(** The membership [rows] is the reconciliation of the old rows [L] with
    the listed members [new]: its users are exactly the listed ones, the old
    row of a listed user is still there, and every row is an old row or the
    row of a user that had none. *)
Definition members_reconciled (L : list sect_member_row) (new : list string)
           (rows : list sect_member_row) : Prop :=
  (forall u, In u (users_of rows) <-> In u new) /\
  (forall m, In m L -> In (sm_user_id m) new -> In m rows) /\
  (forall m, In m rows -> In m L \/ ~ In (sm_user_id m) (users_of L)).

(** A value that can be a member of a Python set. *)
Definition hashable (v : pyval) : bool :=
  match v with
  | PList _ | PDict _ => false
  | _ => true
  end.

(** A value whose binding does not overflow a 64-bit integer. *)
Definition no_overflow (v : pyval) : bool :=
  match v with
  | PInt z => in_int64 z
  | _ => true
  end.

(** An entry of a sects document that is an object, whose scalar fields do
    not overflow and whose member list, if any, holds no list and no
    object. *)
Definition plain_sect_entry (entry : string * pyval) : bool :=
  match snd entry with
  | PDict sect_data =>
      forallb no_overflow (map snd (sect_update_data (fst entry) sect_data))
      && match dict_get "members" sect_data with
         | Some (PList members) => forallb hashable members
         | _ => true
         end
  | _ => false
  end.

Definition plain_sects_doc (data : pydict) : bool :=
  forallb plain_sect_entry data.

(** Without storage faults the computation returns. *)
Definition returns {A} (m : M A) : Prop :=
  forall c, quiet c -> exists a c', m c = Ret a c' /\ quiet c'.

(** Without storage faults the computation returns or raises
    [sqlite3.Error]. *)
Definition safe {A} (m : M A) : Prop :=
  forall c, quiet c ->
    match m c with
    | Ret _ c' => quiet c'
    | Raise e c' => is_sqlite e = true /\ quiet c'
    end.
(** The fault plan makes the storage layer fail twice in a row. *)
Fixpoint double_fault (fs : list bool) : bool :=
  match fs with
  | [] => false
  | f :: r =>
      match r with
      | [] => false
      | g :: _ => (f && g) || double_fault r
      end
  end.

End Vocabulary.

(** ** Concrete stores and documents *)

Section Fixtures.

#[local] Existing Instance decimal_runtime.

Definition t0 : string := "2024-01-01 00:00:00".

(** An empty store behind a connection without pending faults. *)
Definition fresh : conn := open_conn empty_db t0.

(** The same connection with a fault plan. *)
Definition with_faults (c : conn) (fs : list bool) : conn :=
  mk_conn (committed c) (working c) fs (now c).

(** A store with the sect [s1], led by [A], with members [A], [B], [C]. *)
Definition iron_sect : conn :=
  Eval vm_compute in
    conn_of
      ((create_sect "s1" (PStr "Iron Sect") (PStr "A") (PStr "") (PInt 1)
                    (PInt 0) ;;;
        add_sect_member "s1" (PStr "B") "member" ;;;
        add_sect_member "s1" (PStr "C") "member") fresh).

(** A document that lists [s1] with members [B], [C], [D]. *)
Definition iron_sect_doc : pydict :=
  [ ("s1", PDict [ ("name", PStr "Iron Sect"); ("leader", PStr "A");
                   ("members", PList [PStr "B"; PStr "C"; PStr "D"]) ]) ].

(** The same document followed by an entry that is not an object. *)
Definition iron_sect_doc_then_junk : pydict :=
  iron_sect_doc ++ [("s2", PInt 7)].

(** A store with the tournament [t1], hosted by [100], with participants
    [200] and [201]. *)
Definition cup : conn :=
  Eval vm_compute in
    conn_of
      ((create_tournament "t1" (PStr "100") (PStr "Cup") (PStr "") None ;;;
        add_tournament_participant "t1" (PStr "200") false PNone ;;;
        add_tournament_participant "t1" (PStr "201") false PNone) fresh).

Definition cup_doc_then_junk : pydict :=
  [ ("t1", PDict [ ("title", PStr "Cup"); ("host", PStr "100");
                   ("participants", PList [PStr "201"; PStr "202"]) ]);
    ("t2", PInt 7) ].

(** The legacy documents of the counterexample of C3: an economy entry that
    is a number, and one sect. *)
Definition broken_economy_docs : legacy_docs :=
  mk_legacy
    (Some (PDict [("u1", PInt 5)]))
    None None
    (Some (PDict [("s1", PDict [("name", PStr "Iron Sect");
                                ("leader", PStr "100")])]))
    None.

(** The tournament document of the specification's example. *)
Definition golem_docs : legacy_docs :=
  mk_legacy None None None None
    (Some (PDict
       [("t1", PDict [ ("host", PStr "100"); ("title", PStr "Cup");
                       ("participants",
                        PList [PInt 200; PInt (-1); PInt (-2)]);
                       ("bot_names",
                        PDict [("-1", PStr "Iron Golem")]) ])])).

(** A store in which [u1] holds two common swords. *)
Definition two_swords : conn :=
  Eval vm_compute in
    conn_of (add_inventory_item (PStr "u1") "Sword" 2 "common"
                                (Some (PDict [("forged", PStr "north")]))
                                fresh).
End Fixtures.

(** * Further methods of the store and of the adapter *)

Section More_store.
Context {RT : PyRuntime}.

(** [get_inventory]: the rows stand for the dictionaries built from them. *)
Definition get_inventory (user_id : pyval) : M (list inventory_row) :=
  let user_id := py_str user_id in
  try_sqlite
    (query (fun d =>
       filter (fun r => (i_user_id r =? user_id)%string) (inventory d)))
    (ret []).

(** The dictionary [{job['job_name']: [job['min_pay'], job['max_pay']]}]. *)
Definition jobs_dict (rows : list job_row) : pydict :=
  fold_left
    (fun acc job =>
       dict_set (j_job_name job)
                (PList [cell_to_py (j_min_pay job); cell_to_py (j_max_pay job)])
                acc)
    rows [].

Definition get_jobs : M pydict :=
  try_sqlite (query (fun d => jobs_dict (jobs d))) (ret []).

Definition user_job_dict (r : user_job_row) : pydict :=
  [ ("user_id", PStr (uj_user_id r));
    ("job_name", PStr (uj_job_name r));
    ("xp", cell_to_py (uj_xp r));
    ("rank", cell_to_py (uj_rank r));
    ("last_work", cell_to_py (uj_last_work r)) ].

(** The record [get_user_job] returns for a pair without a row, and on a
    storage error. *)
Definition zero_user_job (user_id job_name : string) : pydict :=
  [ ("user_id", PStr user_id);
    ("job_name", PStr job_name);
    ("xp", PInt 0);
    ("rank", PStr "apprentice");
    ("last_work", PNone) ].

Definition get_user_job (user_id : pyval) (job_name : string) : M pydict :=
  let user_id := py_str user_id in
  try_sqlite
    (job <- query (fun d => find (user_job_match user_id job_name)
                                 (user_jobs d)) ;;
     match job with
     | Some r => ret (user_job_dict r)
     | None => ret (zero_user_job user_id job_name)
     end)
    (ret (zero_user_job user_id job_name)).

(** The stored [metadata] is always the text [set_store_item] wrote with
    [json.dumps], so [json.loads] gives the value back. *)
Definition store_item_dict (r : store_item_row) : pydict :=
  [ ("item_name", PStr (si_item_name r));
    ("price", cell_to_py (si_price r));
    ("description", cell_to_py (si_description r));
    ("stock", cell_to_py (si_stock r));
    ("min_rank", cell_to_py (si_min_rank r));
    ("rarity", cell_to_py (si_rarity r));
    ("metadata", si_metadata r) ].

Definition find_store_item (item_name : string) (d : db)
  : option store_item_row :=
  find (fun r => (si_item_name r =? item_name)%string) (store_items d).

Definition get_store_item (item_name : string) : M (option pydict) :=
  try_sqlite
    (item <- query (find_store_item item_name) ;;
     match item with
     | Some r => ret (Some (store_item_dict r))
     | None => ret None
     end)
    (ret None).

Definition set_stock (item_name : string) (c : cell) (r : store_item_row)
  : store_item_row :=
  if (si_item_name r =? item_name)%string then
    mk_store_item (si_item_name r) (si_price r) (si_description r)
                  (aff_numeric c) (si_min_rank r) (si_rarity r)
                  (si_metadata r)
  else r.

(** [item['stock'] + change] for a fetched stock: only integers add. *)
Definition update_store_item_stock (item_name : string) (change : Z)
  : M bool :=
  try_sqlite
    (item <- get_store_item item_name ;;
     match item with
     | None => ret false
     | Some item =>
         let stock := dict_get_none "stock" item in
         if negb (py_eqb stock (PInt (-1))) then
           match stock with
           | PInt z =>
               let new_stock := Z.max 0 (z + change) in
               c_stock <- bind_value (PInt new_stock) ;;
               update (fun d =>
                 with_store_items d
                   (map (set_stock item_name c_stock) (store_items d))) ;;;
               commit ;;;
               ret true
           | _ => raise TypeError
           end
         else ret true
     end)
    (rollback ;;; ret false).

End More_store.

Section More_adapter.
Context {RT : PyRuntime}.

Definition save_jobs_data (data : pydict) : M unit :=
  try_exception
    (for_each data (fun entry =>
       match snd entry with
       | PList (lo :: hi :: _) => set_job (fst entry) lo hi ;;; ret tt
       | _ => ret tt
       end))
    (ret tt).

End More_adapter.

(** * Further vocabulary *)

Section More_vocabulary.
Context {RT : PyRuntime}.

(** No inventory row has an id above the AUTOINCREMENT counter. *)
Definition ids_issued (d : db) : Prop :=
  forall r, In r (inventory d) -> i_id r <= inventory_seq d.

(** Every stored quantity is positive. *)
Definition quantities_positive (d : db) : Prop :=
  forall r, In r (inventory d) -> 0 < i_quantity r.

(** The metadata [add_inventory_item] stores for its argument. *)
Definition metadata_or_empty (metadata : option pyval) : pyval :=
  match metadata with
  | Some m => m
  | None => PDict []
  end.

End More_vocabulary.

Section More_vocabulary_users.
Context {RT : PyRuntime}.

(** The names of the columns of [users]. *)
Definition user_columns : list string :=
  ["user_id"; "cash"; "bank"; "job"; "last_cultivate"; "last_collect";
   "message_count"; "created_at"; "updated_at"].

(** The row of [user_id] after its cash (or its bank) has been set to [n]
    at the time [ts]; the rows of other users are left alone. *)
Definition set_balance (cash : bool) (user_id : string) (n : Z) (ts : string)
           (r : user_row) : user_row :=
  if (u_user_id r =? user_id)%string then
    mk_user (u_user_id r)
            (if cash then CInt n else u_cash r)
            (if cash then u_bank r else CInt n)
            (u_job r) (u_last_cultivate r) (u_last_collect r)
            (u_message_count r) (u_created_at r) (CText ts)
  else r.

Definition balance_key (cash : bool) : string :=
  if cash then "cash" else "bank".

End More_vocabulary_users.

Section More_vocabulary_invariants.
Context {RT : PyRuntime}.

(** Without storage faults and however it ends, [m] takes a connection
    whose working copy satisfies [W] and whose committed database satisfies
    [C] to one whose working copy satisfies [W'] and whose committed
    database satisfies [C]. *)
Definition leads (W C : db -> Prop) {A} (m : M A) (W' : db -> Prop) : Prop :=
  forall c, quiet c -> W (working c) -> C (committed c) ->
    quiet (conn_of (m c)) /\
    W' (working (conn_of (m c))) /\
    C (committed (conn_of (m c))).

(** Every membership row names a user that has a row. *)
Definition members_have_users (d : db) : Prop :=
  forall m, In m (sect_members d) -> find_user (sm_user_id m) d <> None.

(** The keys of [sects] and of [sect_members]. *)
Definition sect_ids_unique (d : db) : Prop :=
  NoDup (map s_sect_id (sects d)).

Definition membership_key (m : sect_member_row) : string * string :=
  (sm_sect_id m, sm_user_id m).

Definition memberships_unique (d : db) : Prop :=
  NoDup (map membership_key (sect_members d)).

Definition sect_store_ok (d : db) : Prop :=
  members_have_users d /\ sect_ids_unique d /\ memberships_unique d.

(** The sects the deletion loop of [save_sects_data] keeps. *)
Definition kept_sect (existing : list string) (data : pydict) (r : sect_row)
  : bool :=
  dict_has (s_sect_id r) data || negb (str_mem (s_sect_id r) existing).

End More_vocabulary_invariants.

Section More_vocabulary_new_sect.
Context {RT : PyRuntime}.

(** The invariant of the loop that adds the members of a sect that has
    just been created with the leader [leader]: [done] are the members
    handled so far. *)
Definition new_sect_inv (s leader : string) (done : list string) (c : conn)
  : Prop :=
  steady c /\ find_sect s (working c) <> None /\
  (forall m, In m (rows_of s (working c)) ->
     (sm_user_id m = leader /\ sm_role m = "leader"%string) \/
     (sm_user_id m <> leader /\ In (sm_user_id m) done /\
      sm_role m = "member"%string)) /\
  In leader (users_of (rows_of s (working c))) /\
  (forall u, In u done -> In u (users_of (rows_of s (working c)))) /\
  (forall m, In m (rows_of s (working c)) ->
     find_user (sm_user_id m) (working c) <> None).

End More_vocabulary_new_sect.

(** An entry of a jobs document whose value is a pair of 64-bit integers. *)
Definition int_pay_range (entry : string * pyval) : bool :=
  match snd entry with
  | PList [PInt lo; PInt hi] => in_int64 lo && in_int64 hi
  | _ => false
  end.

(** *** Names pasted into a statement

    [update_sect] and [update_user_job] paste the keys of [data] into the
    text of the UPDATE.  SQLite reads a key that consists of letters,
    digits and underscores as one name, resolves a name without regard to
    the case of ASCII letters, and in these tables also knows the row
    identifier under three names. *)

Definition lower_ascii (a : ascii) : ascii :=
  let n := nat_of_ascii a in
  if (Nat.leb 65 n && Nat.leb n 90)%bool then ascii_of_nat (n + 32) else a.

Fixpoint lower (s : string) : string :=
  match s with
  | EmptyString => EmptyString
  | String a r => String (lower_ascii a) (lower r)
  end.

Definition name_char (a : ascii) : bool :=
  let n := nat_of_ascii a in
  ((Nat.leb 65 n && Nat.leb n 90)
   || (Nat.leb 97 n && Nat.leb n 122)
   || (Nat.leb 48 n && Nat.leb n 57)
   || Nat.eqb n 95)%bool.

Fixpoint plain_name (s : string) : bool :=
  match s with
  | EmptyString => true
  | String a r => name_char a && plain_name r
  end.

(** The columns of the tables [sects] and [user_jobs], as the schema
    declares them. *)
Definition sects_table_columns : list string :=
  ["sect_id"; "name"; "leader_id"; "description"; "created_at"; "level";
   "wealth"; "max_members"].

Definition user_jobs_table_columns : list string :=
  ["user_id"; "job_name"; "xp"; "rank"; "last_work"].

Definition rowid_aliases : list string := ["rowid"; "oid"; "_rowid_"].

(** The name [k] resolves to nothing in a table with the columns [cols]. *)
Definition names_nothing (cols : list string) (k : string) : bool :=
  negb (str_mem (lower k) (cols ++ rowid_aliases)).

(** * Further fixtures *)

Section More_fixtures.

#[local] Existing Instance decimal_runtime.

(** A store that sells potions, three in stock. *)
Definition shop : conn :=
  Eval vm_compute in
    conn_of (set_store_item "potion" (PInt 5) (PStr "heals") (PInt 3)
                            (PInt 0) (PStr "common") None fresh).

(** A store in which [u1] is an adept miner with five points of
    experience. *)
Definition adept_miner : conn :=
  Eval vm_compute in
    conn_of (update_user_job (PStr "u1") "miner"
               [("xp", PInt 5); ("rank", PStr "adept")] fresh).

(** A store in which [u1] holds 50 in cash and 7 in the bank. *)
Definition saver : conn :=
  Eval vm_compute in
    conn_of ((set_cash (PStr "u1") (PInt 50) ;;;
              set_bank (PStr "u1") (PInt 7)) fresh).

(** A document that lists the new sect [s2], led by [A], with the members
    [A], [D] and [E]. *)
Definition jade_sect_data : pydict :=
  [ ("name", PStr "Jade Sect"); ("leader", PStr "A");
    ("members", PList [PStr "A"; PStr "D"; PStr "E"]) ].

Definition jade_sect_doc : pydict :=
  iron_sect_doc ++ [("s2", PDict jade_sect_data)].

End More_fixtures.

(** * Properties *)

(** ** Running a computation *)

Section Running.

Lemma bind_Ret_inv {A B} (m : M A) (k : A -> M B) c b c2 :
  bind m k c = Ret b c2 ->
  exists a c1, m c = Ret a c1 /\ k a c1 = Ret b c2.
Proof.
  unfold bind. destruct (m c) as [a c1 | e c1]; intros H.
  - exists a, c1. split; [reflexivity | exact H].
  - discriminate H.
Qed.

Lemma try_sqlite_Ret_inv {A} (body handler : M A) c a c2 :
  try_sqlite body handler c = Ret a c2 ->
  body c = Ret a c2 \/
  exists c1, body c = Raise SqliteError c1 /\ handler c1 = Ret a c2.
Proof.
  unfold try_sqlite. destruct (body c) as [a1 c1 | e c1]; intros H.
  - left. exact H.
  - destruct e; simpl in H; try discriminate H.
    right. exists c1. split; [reflexivity | exact H].
Qed.

Lemma next_fault_quiet c : quiet c -> next_fault c = (false, c).
Proof. unfold quiet, next_fault. intros ->. reflexivity. Qed.

Lemma next_fault_frame c :
  committed (snd (next_fault c)) = committed c /\
  working (snd (next_fault c)) = working c /\
  now (snd (next_fault c)) = now c.
Proof. unfold next_fault. destruct (faults c); simpl; auto. Qed.

Lemma execute_quiet {A} (stmt : db -> option (A * db)) c :
  quiet c ->
  execute stmt c =
  match stmt (working c) with
  | None => Raise SqliteError c
  | Some (a, d') => Ret a (mk_conn (committed c) d' (faults c) (now c))
  end.
Proof. intros Q. unfold execute. rewrite (next_fault_quiet c Q). reflexivity. Qed.

Lemma query_quiet {A} (q : db -> A) c :
  quiet c -> query q c = Ret (q (working c)) c.
Proof.
  intros Q. unfold query. rewrite (execute_quiet _ c Q).
  destruct c; reflexivity.
Qed.

Lemma update_quiet (f : db -> db) c :
  quiet c ->
  update f c = Ret tt (mk_conn (committed c) (f (working c)) (faults c) (now c)).
Proof. intros Q. unfold update. rewrite (execute_quiet _ c Q). reflexivity. Qed.

Lemma commit_quiet c :
  quiet c ->
  commit c = Ret tt (mk_conn (working c) (working c) (faults c) (now c)).
Proof. intros Q. unfold commit. rewrite (next_fault_quiet c Q). reflexivity. Qed.


Lemma rollback_quiet c :
  quiet c ->
  rollback c = Ret tt (mk_conn (committed c) (committed c) (faults c) (now c)).
Proof.
  intros Q. unfold rollback. rewrite (next_fault_quiet c Q). reflexivity.
Qed.


Lemma commit_Ret_inv c u c' :
  commit c = Ret u c' ->
  working c' = working c /\ committed c' = working c /\ now c' = now c.
Proof.
  unfold commit.
  destruct (next_fault_frame c) as (Hc & Hw & Hn).
  destruct (next_fault c) as [f c1]; simpl in *.
  destruct f; [discriminate |].
  intros H; inversion H; subst; simpl. auto.
Qed.

End Running.

Lemma find_app_last {A} (f : A -> bool) (l : list A) (x : A) :
  find f l = None -> find f (l ++ [x]) = if f x then Some x else None.
Proof.
  induction l as [| a l IH]; simpl.
  - reflexivity.
  - destruct (f a); [discriminate | exact IH].
Qed.

Section Users.
Context {RT : PyRuntime}.

Lemma get_user_quiet (user_id : pyval) (c : conn) :
  quiet c ->
  get_user user_id c =
  match find_user (py_str user_id) (working c) with
  | Some r => Ret (user_dict r) c
  | None => Ret (zero_user (py_str user_id))
                (created_user_conn (py_str user_id) c)
  end.
Proof.
  intros Q. unfold get_user, try_sqlite, bind.
  rewrite (query_quiet _ c Q).
  destruct (find_user (py_str user_id) (working c)) as [r |]; [reflexivity |].
  unfold current_timestamp. rewrite (update_quiet _ c Q).
  rewrite commit_quiet by exact Q. reflexivity.
Qed.

Lemma quiet_created_user user_id c : quiet c -> quiet (created_user_conn user_id c).
Proof. intros Q. exact Q. Qed.

Lemma find_user_created user_id c :
  find_user user_id (working c) = None ->
  find_user user_id (working (created_user_conn user_id c))
  = Some (new_user_row user_id (now c)).
Proof.
  intros H. unfold find_user, created_user_conn in *; simpl.
  rewrite (find_app_last _ _ _ H); simpl. rewrite String.eqb_refl. reflexivity.
Qed.

(** How [get_user] ends: it returns the stored row, read without a storage
    error, or the zero-valued record; it raises only when the storage layer
    fails twice in a row, the second time on the rollback of its handler. *)
Lemma get_user_outcome (user_id : pyval) (c : conn) :
  match get_user user_id c with
  | Ret r c' =>
      (r = zero_user (py_str user_id) \/
       exists row, find_user (py_str user_id) (working c) = Some row /\
                   hd false (faults c) = false /\ r = user_dict row) /\
      (hd false (faults c) = true ->
       r = zero_user (py_str user_id) /\ working c' = committed c)
  | Raise e c' => e = SqliteError /\ double_fault (faults c) = true
  end.
Proof.
  unfold get_user, try_sqlite, bind, query, execute, update, execute, commit,
    rollback, current_timestamp, ret, next_fault.
  destruct c as [cm w fs ts]; simpl.
  destruct fs as [| [|] fs]; simpl.
  - destruct (find_user (py_str user_id) w) as [row |] eqn:E; cbn;
      (split; [eauto 8 | discriminate]).
  - destruct fs as [| [|] fs]; cbn; auto.
  - destruct (find_user (py_str user_id) w) as [row |] eqn:E; cbn;
      [split; [eauto 8 | discriminate] |].
    destruct fs as [| [|] fs]; cbn; [split; [auto | discriminate] | |].
    + destruct fs as [| [|] fs]; cbn; [split; [auto | discriminate] | auto |].
      split; [auto | discriminate].
    + destruct fs as [| [|] fs]; cbn; [split; [auto | discriminate] | |].
      * destruct fs as [| [|] fs]; cbn;
          [split; [auto | discriminate] | auto |].
        split; [auto | discriminate].
      * split; [auto | discriminate].
Qed.

(** A call of [get_user] that returns gives a record of the user. *)
Lemma get_user_Ret (user_id : pyval) (c : conn) r c' :
  get_user user_id c = Ret r c' ->
  r = zero_user (py_str user_id) \/
  exists row, find_user (py_str user_id) (working c) = Some row /\
              hd false (faults c) = false /\ r = user_dict row.
Proof.
  intros E. pose proof (get_user_outcome user_id c) as H.
  rewrite E in H. exact (proj1 H).
Qed.

End Users.

Section Lazy_creation.
Context {RT : PyRuntime}.

Lemma dict_get_app k (d e : pydict) v :
  dict_get k d = Some v -> dict_get k (d ++ e) = Some v.
Proof.
  induction d as [| [k' v'] d IH]; simpl; [discriminate |].
  destruct (k' =? k)%string; auto.
Qed.

Lemma zero_user_fields_of_new_row user_id ts k v :
  dict_get k (zero_user user_id) = Some v ->
  dict_get k (user_dict (new_user_row user_id ts)) = Some v.
Proof.
  intros H.
  change (user_dict (new_user_row user_id ts))
    with (zero_user user_id
          ++ [("created_at", PStr ts); ("updated_at", PStr ts)]).
  apply dict_get_app, H.
Qed.

(** C8, as amended.  [get_user] (the store's get-or-create) raises only when
    the storage layer fails twice in a row, the second failure being that of
    the rollback in its handler, and what it raises then is a storage error;
    with a fault plan without two failures in a row it returns.  The record
    it returns is the zero-valued record whenever the storage layer fails on
    its first statement, and otherwise either the stored row or the
    zero-valued record.  On a connection without storage faults, a first
    call followed by a second call returns the same value for every field of
    the first result, the second call changes nothing, and after the first
    call the row of the user is in storage; the two records are equal when
    the user had a row, and for a user created by the first call the second
    record is the first followed by [created_at] and [updated_at]. *)
Theorem get_or_create_user_idempotent (user_id : pyval) (c : conn)
        (Q : quiet c) :
  (forall c0 : conn,
     match get_user user_id c0 with
     | Ret r c' =>
         (r = zero_user (py_str user_id) \/
          exists row, find_user (py_str user_id) (working c0) = Some row /\
                      hd false (faults c0) = false /\ r = user_dict row) /\
         (hd false (faults c0) = true ->
          r = zero_user (py_str user_id) /\ working c' = committed c0)
     | Raise e c' => e = SqliteError /\ double_fault (faults c0) = true
     end) /\
  (forall c0 : conn,
     double_fault (faults c0) = false ->
     exists r c', get_user user_id c0 = Ret r c') /\
  exists r1 c1 r2,
    get_user user_id c = Ret r1 c1 /\
    get_user user_id c1 = Ret r2 c1 /\
    (forall k v, dict_get k r1 = Some v -> dict_get k r2 = Some v) /\
    (forall row, find_user (py_str user_id) (working c) = Some row ->
                 r1 = user_dict row /\ r2 = r1 /\ c1 = c) /\
    (find_user (py_str user_id) (working c) = None ->
     r1 = zero_user (py_str user_id) /\
     r2 = r1 ++ [("created_at", PStr (now c)); ("updated_at", PStr (now c))])
    /\
    exists row, find_user (py_str user_id) (working c1) = Some row.
Proof.
  split; [| split].
  - intros c0. exact (get_user_outcome user_id c0).
  - intros c0 D. pose proof (get_user_outcome user_id c0) as H.
    destruct (get_user user_id c0) as [r c' | e c']; [eauto |].
    destruct H as [_ H]. congruence.
  - rewrite (get_user_quiet user_id c Q).
    destruct (find_user (py_str user_id) (working c)) as [row |] eqn:E.
    + exists (user_dict row), c, (user_dict row).
      rewrite (get_user_quiet user_id c Q), E.
      split; [reflexivity |]. split; [reflexivity |].
      split; [auto |]. split; [| split].
      * intros row' H'; inversion H'; auto.
      * discriminate.
      * exists row; reflexivity.
    + exists (zero_user (py_str user_id)),
             (created_user_conn (py_str user_id) c),
             (user_dict (new_user_row (py_str user_id) (now c))).
      rewrite (get_user_quiet user_id _ (quiet_created_user _ c Q)).
      rewrite (find_user_created _ c E).
      split; [reflexivity |]. split; [reflexivity |].
      split; [apply zero_user_fields_of_new_row |]. split; [| split].
      * discriminate.
      * intros _. split; reflexivity.
      * eexists; reflexivity.
Qed.

End Lazy_creation.

(** ** Balances *)



Section Balances.
Context {RT : PyRuntime}.

Lemma get_user_has_balances user_id c r c' :
  get_user user_id c = Ret r c' ->
  dict_has "cash" r = true /\ dict_has "bank" r = true.
Proof.
  intros E.
  destruct (get_user_Ret _ _ _ _ E) as [-> | (row & _ & _ & ->)];
    split; reflexivity.
Qed.









End Balances.

(** ** Removals *)

Lemma filter_none_rejected {A} (f : A -> bool) (l : list A) :
  existsb f l = false -> filter (fun x => negb (f x)) l = l.
Proof.
  induction l as [| a l IH]; simpl; [reflexivity |].
  destruct (f a); simpl; [discriminate |].
  intros H. rewrite (IH H). reflexivity.
Qed.

Section Removals.
Context {RT : PyRuntime}.

Lemma remove_sect_member_quiet sect_id user_id c :
  quiet c ->
  remove_sect_member sect_id user_id c =
  Ret true
    (committed_conn
       (mk_conn (committed c)
          (with_sect_members (working c)
             (filter (fun r => negb (sect_member_match sect_id
                                       (py_str user_id) r))
                     (sect_members (working c))))
          (faults c) (now c))).
Proof.
  intros Q. unfold remove_sect_member, try_sqlite, bind.
  rewrite (update_quiet _ c Q). rewrite commit_quiet by exact Q. reflexivity.
Qed.

Lemma remove_tournament_participant_quiet tournament_id participant_id c :
  quiet c ->
  remove_tournament_participant tournament_id participant_id c =
  Ret true
    (committed_conn
       (mk_conn (committed c)
          (with_participants (working c)
             (filter (fun r => negb (participant_match tournament_id
                                       (py_str participant_id) r))
                     (tournament_participants (working c))))
          (faults c) (now c))).
Proof.
  intros Q. unfold remove_tournament_participant, try_sqlite, bind.
  rewrite (update_quiet _ c Q). rewrite commit_quiet by exact Q. reflexivity.
Qed.

(** C4, as amended.  On a connection without storage faults,
    [remove_sect_member] and [remove_tournament_participant] return true,
    and when no row matches the target they leave every stored row as it
    was (the transaction is committed); a storage error on their statement
    makes them return false after the rollback of their handler, when that
    rollback does not fail itself.  [remove_inventory_item] returns false,
    with the connection untouched, when no row matches. *)
Theorem removals_of_absent_targets (c : conn) (Q : quiet c) :
  (forall sect_id user_id,
     exists c', remove_sect_member sect_id user_id c = Ret true c') /\
  (forall tournament_id participant_id,
     exists c',
       remove_tournament_participant tournament_id participant_id c
       = Ret true c') /\
  (forall sect_id user_id,
     existsb (sect_member_match sect_id (py_str user_id))
             (sect_members (working c)) = false ->
     remove_sect_member sect_id user_id c = Ret true (committed_conn c)) /\
  (forall tournament_id participant_id,
     existsb (participant_match tournament_id (py_str participant_id))
             (tournament_participants (working c)) = false ->
     remove_tournament_participant tournament_id participant_id c
     = Ret true (committed_conn c)) /\
  (forall user_id item_name quantity rarity,
     find (inventory_match (py_str user_id) item_name (rarity_filter rarity))
          (inventory (working c)) = None ->
     remove_inventory_item user_id item_name quantity rarity c
     = Ret false c) /\
  (forall c0 fs sect_id user_id,
     faults c0 = true :: fs -> hd false fs = false ->
     remove_sect_member sect_id user_id c0
     = Ret false (mk_conn (committed c0) (committed c0) (tl fs) (now c0))) /\
  (forall c0 fs tournament_id participant_id,
     faults c0 = true :: fs -> hd false fs = false ->
     remove_tournament_participant tournament_id participant_id c0
     = Ret false (mk_conn (committed c0) (committed c0) (tl fs) (now c0))).
Proof.
  split; [| split; [| split; [| split; [| split; [| split]]]]].
  - intros sect_id user_id.
    rewrite (remove_sect_member_quiet _ _ c Q). eauto.
  - intros tournament_id participant_id.
    rewrite (remove_tournament_participant_quiet _ _ c Q). eauto.
  - intros sect_id user_id H.
    rewrite (remove_sect_member_quiet _ _ c Q).
    rewrite (filter_none_rejected _ _ H).
    destruct c as [cm [] fs ts]; reflexivity.
  - intros tournament_id participant_id H.
    rewrite (remove_tournament_participant_quiet _ _ c Q).
    rewrite (filter_none_rejected _ _ H).
    destruct c as [cm [] fs ts]; reflexivity.
  - intros user_id item_name quantity rarity H.
    unfold remove_inventory_item, try_sqlite, bind.
    rewrite (query_quiet _ c Q), H. reflexivity.
  - intros c0 fs sect_id user_id F G.
    unfold remove_sect_member, try_sqlite, bind, update, execute, rollback,
      next_fault.
    rewrite F. simpl.
    destruct fs as [| [|] fs']; [reflexivity | discriminate G | reflexivity].
  - intros c0 fs tournament_id participant_id F G.
    unfold remove_tournament_participant, try_sqlite, bind, update, execute,
      rollback, next_fault.
    rewrite F. simpl.
    destruct fs as [| [|] fs']; [reflexivity | discriminate G | reflexivity].
Qed.

End Removals.

(** ** Inventory *)

Section Inventory.
Context {RT : PyRuntime}.

Lemma bind_value_int (z : Z) c :
  in_int64 z = true -> bind_value (PInt z) c = Ret (CInt z) c.
Proof. intros H. unfold bind_value; simpl. rewrite H. reflexivity. Qed.

Lemma bind_value_overflow (z : Z) c :
  in_int64 z = false -> bind_value (PInt z) c = Raise OverflowError c.
Proof. intros H. unfold bind_value; simpl. rewrite H. reflexivity. Qed.

Lemma set_quantity_metadata id q r :
  i_metadata (set_quantity id q r) = i_metadata r.
Proof. unfold set_quantity. destruct (_ =? _); reflexivity. Qed.

(** What [add_inventory_item] does once the user row is known to exist or
    has been created: [c1] is the connection after [get_user]. *)
Lemma add_inventory_item_after_get_user user_id item_name quantity rarity
      metadata (c c1 : conn) (r : pydict) :
  get_user (PStr (py_str user_id)) c = Ret r c1 ->
  quiet c1 ->
  add_inventory_item user_id item_name quantity rarity metadata c =
  match find (inventory_match (py_str user_id) item_name (Some rarity))
             (inventory (working c1)) with
  | Some it =>
      if in_int64 (i_quantity it + quantity) then
        Ret true
          (committed_conn
             (mk_conn (committed c1)
                (with_inventory (working c1)
                   (map (set_quantity (i_id it) (i_quantity it + quantity))
                        (inventory (working c1)))
                   (inventory_seq (working c1)))
                (faults c1) (now c1)))
      else Raise OverflowError c1
  | None =>
      if in_int64 quantity then
        Ret true
          (committed_conn
             (mk_conn (committed c1)
                (with_inventory (working c1)
                   (inventory (working c1) ++
                    [mk_inventory (inventory_seq (working c1) + 1)
                       (py_str user_id) item_name quantity rarity
                       (match metadata with
                        | Some m => m
                        | None => PDict []
                        end)])
                   (inventory_seq (working c1) + 1))
                (faults c1) (now c1)))
      else Raise OverflowError c1
  end.
Proof.
  intros E Q. unfold add_inventory_item, try_sqlite.
  unfold bind at 1. rewrite E.
  unfold bind at 1. rewrite (query_quiet _ c1 Q).
  destruct (find _ (inventory (working c1))) as [it |].
  - unfold bind.
    destruct (in_int64 (i_quantity it + quantity)) eqn:Hq.
    + rewrite (bind_value_int _ c1 Hq), (update_quiet _ c1 Q).
      rewrite commit_quiet by exact Q. reflexivity.
    + rewrite (bind_value_overflow _ c1 Hq). reflexivity.
  - unfold bind.
    destruct (in_int64 quantity) eqn:Hq.
    + rewrite (bind_value_int _ c1 Hq), (update_quiet _ c1 Q).
      rewrite commit_quiet by exact Q. reflexivity.
    + rewrite (bind_value_overflow _ c1 Hq). reflexivity.
Qed.

Lemma get_user_quiet_inventory user_id c :
  quiet c ->
  exists r c1, get_user user_id c = Ret r c1 /\ quiet c1 /\
    inventory (working c1) = inventory (working c) /\
    inventory_seq (working c1) = inventory_seq (working c).
Proof.
  intros Q. rewrite (get_user_quiet _ c Q).
  destruct (find_user _ _); eauto 8.
Qed.

(** C10.  Without storage faults, a call of [add_inventory_item] for a
    triple (user, item name, rarity) that already has a row returns true and
    changes the inventory only by setting the quantity of the row with the
    found id to the old quantity plus the given one; the stored metadata of
    every row is what it was, and the outcome is the same whatever metadata
    argument is passed.  When the triple has no row, a row is appended that
    stores the metadata argument (an empty dictionary when it is omitted). *)
Theorem add_inventory_item_keeps_metadata
        (user_id : pyval) (item_name : string) (quantity : Z)
        (rarity : string) (metadata : option pyval) (c : conn)
        (Q : quiet c) :
  (forall it,
     find (inventory_match (py_str user_id) item_name (Some rarity))
          (inventory (working c)) = Some it ->
     in_int64 (i_quantity it + quantity) = true ->
     exists c',
       add_inventory_item user_id item_name quantity rarity metadata c
       = Ret true c' /\
       inventory (working c')
       = map (set_quantity (i_id it) (i_quantity it + quantity))
             (inventory (working c)) /\
       map i_metadata (inventory (working c'))
       = map i_metadata (inventory (working c)) /\
       forall metadata',
         add_inventory_item user_id item_name quantity rarity metadata' c
         = Ret true c') /\
  (find (inventory_match (py_str user_id) item_name (Some rarity))
        (inventory (working c)) = None ->
   in_int64 quantity = true ->
   exists c',
     add_inventory_item user_id item_name quantity rarity metadata c
     = Ret true c' /\
     inventory (working c')
     = inventory (working c) ++
       [mk_inventory (inventory_seq (working c) + 1) (py_str user_id)
          item_name quantity rarity
          (match metadata with Some m => m | None => PDict [] end)]).
Proof.
  destruct (get_user_quiet_inventory (PStr (py_str user_id)) c Q)
    as (r & c1 & E & Q1 & Hi & Hs).
  split.
  - intros it F Hq.
    pose proof (fun m => add_inventory_item_after_get_user
                  user_id item_name quantity rarity m c c1 r E Q1) as A.
    rewrite Hi, F, Hq in A.
    eexists. split; [apply A |]. split; [reflexivity |].
    split; [| intros m; apply A].
    simpl. rewrite map_map.
    apply map_ext. intros x. apply set_quantity_metadata.
  - intros F Hq.
    rewrite (add_inventory_item_after_get_user _ _ _ _ _ c c1 r E Q1).
    rewrite Hi, F, Hq, Hs.
    eexists. split; reflexivity.
Qed.

End Inventory.

(** ** Job progress *)


Lemma dict_get_in k (d : pydict) :
  In k (map fst d) -> dict_get k d <> None.
Proof.
  induction d as [| [k' v'] d IH]; simpl; [intros [] |].
  destruct (k' =? k)%string eqn:E; [discriminate |].
  intros [Heq | Hin]; [| exact (IH Hin)].
  subst k'. rewrite String.eqb_refl in E. discriminate.
Qed.








Section Job_progress.
Context {RT : PyRuntime}.

Lemma bound_of_bind_param (v : pyval) (c : cell) :
  bind_param v = inr c -> bound v = c.
Proof. intros H. unfold bound. rewrite H. reflexivity. Qed.

(** A value that is not a text is stored in a numeric column as it is
    bound. *)
Lemma aff_numeric_bound (v : pyval) :
  (forall s, v <> PStr s) -> aff_numeric (bound v) = bound v.
Proof.
  intros H. unfold bound.
  destruct v as [| b | z | s | l | d]; simpl; try reflexivity.
  - destruct (in_int64 z); reflexivity.
  - exfalso. exact (H s eq_refl).
Qed.




(** The insert branch of [update_user_job], from the connection [c1] that
    [get_user] leaves. *)
Lemma update_user_job_insert user_id job_name data cells2 row r c c1 :
  get_user (PStr (py_str user_id)) c = Ret r c1 ->
  quiet c1 ->
  existsb (user_job_match (py_str user_id) job_name) (user_jobs (working c1))
  = false ->
  bind_params (map snd (with_job_defaults data)) = inr cells2 ->
  set_cols insert_user_job_col
           (combine (map fst (with_job_defaults data)) cells2)
           (default_user_job (py_str user_id) job_name) = Some row ->
  update_user_job user_id job_name data c =
  Ret true
    (committed_conn
       (mk_conn (committed c1)
          (with_user_jobs (working c1) (user_jobs (working c1) ++ [row]))
          (faults c1) (now c1))).
Proof.
  intros E Q Ha Hb Hs. unfold update_user_job, try_sqlite.
  unfold bind at 1. rewrite E.
  unfold bind at 1. rewrite (query_quiet _ c1 Q), Ha.
  fold (with_job_defaults data).
  unfold bind, bind_values. rewrite Hb. unfold ret.
  rewrite (execute_quiet _ c1 Q), Hs.
  rewrite commit_quiet by exact Q. reflexivity.
Qed.



End Job_progress.

(** ** The migration run *)

Section Migration_run.
Context {RT : PyRuntime}.

(** C3, as amended.  The five steps run in order inside one [try]: the run
    returns true exactly when every step returned, and an exception that
    escapes a step ends the run there, with false and with the connection
    as that step left it, so that no later step is executed. *)
Theorem migrate_json_to_db_stops_at_first_exception
        (docs : legacy_docs) (c : conn) :
  migrate_json_to_db docs c =
  Ret (fst (run_steps (migration_steps docs) c))
      (snd (run_steps (migration_steps docs) c)).
Proof.
  unfold migrate_json_to_db, try_exception, bind, migration_steps, run_steps.
  destruct (migrate_economy docs c) as [[] c1 | e c1]; [| reflexivity].
  destruct (migrate_jobs docs c1) as [[] c2 | e c2]; [| reflexivity].
  destruct (migrate_store docs c2) as [[] c3 | e c3]; [| reflexivity].
  destruct (migrate_sects docs c3) as [[] c4 | e c4]; [| reflexivity].
  destruct (migrate_tournaments docs c4) as [[] c5 | e c5]; reflexivity.
Qed.

End Migration_run.

(** ** Sects: what each store method does without storage faults *)

Lemma update_where_map {P R} (matches : R -> bool)
      (set_col : string -> P -> R -> option R) fields (g : R -> R) rows :
  (forall r, set_cols set_col fields r = Some (g r)) ->
  update_where matches set_col fields rows
  = Some (map (fun r => if matches r then g r else r) rows).
Proof.
  intros Hg. induction rows as [| r rows IH]; simpl; [reflexivity |].
  rewrite IH. destruct (matches r); [rewrite Hg |]; reflexivity.
Qed.

Lemma bind_params_cons v vs cs :
  bind_params (v :: vs) = inr cs ->
  exists c cs', cs = c :: cs' /\ bind_param v = inr c /\
                bind_params vs = inr cs'.
Proof.
  simpl. destruct (bind_param v) as [e | c]; [discriminate |].
  destruct (bind_params vs) as [e | cs']; [discriminate |].
  intros H; inversion H; subst. eauto.
Qed.

Section Sect_methods.
Context {RT : PyRuntime}.

Lemma steady_committed_conn c : steady c -> committed_conn c = c.
Proof.
  intros [_ H]. unfold committed_conn. destruct c as [cm w fs ts].
  simpl in *. subst. reflexivity.
Qed.

Lemma steady_stored c d : quiet c -> steady (stored c d).
Proof. intros Q. split; [exact Q | reflexivity]. Qed.

Lemma get_sect_quiet sect_id c :
  quiet c ->
  get_sect sect_id c
  = Ret (option_map sect_dict (find_sect sect_id (working c))) c.
Proof.
  intros Q. unfold get_sect, try_sqlite, bind.
  rewrite (query_quiet _ c Q).
  destruct (find_sect sect_id (working c)); reflexivity.
Qed.

Lemma get_sect_members_quiet sect_id c :
  quiet c ->
  get_sect_members sect_id c
  = Ret (select_sect_members sect_id (working c)) c.
Proof.
  intros Q. unfold get_sect_members, try_sqlite.
  rewrite (query_quiet _ c Q). reflexivity.
Qed.

(** [update_sect] with the fields built by [save_sects_data], when the
    sect exists and the values can be bound. *)
Lemma update_sect_quiet sect_id sect_data cells row c :
  steady c ->
  find_sect sect_id (working c) = Some row ->
  bind_params (map snd (sect_update_data sect_id sect_data)) = inr cells ->
  update_sect sect_id (sect_update_data sect_id sect_data) c
  = Ret true
      (stored c (with_sects (working c)
                   (map (write_sect_where sect_id cells) (sects (working c))))).
Proof.
  intros [Q _] F B. unfold update_sect, try_sqlite.
  unfold bind at 1. rewrite (get_sect_quiet _ c Q), F.
  cbn [option_map].
  change (filter _ (sect_update_data sect_id sect_data))
    with (sect_update_data sect_id sect_data).
  cbv beta iota.
  unfold sect_update_data in B |- *. cbn [map snd fst] in B |- *.
  apply bind_params_cons in B. destruct B as (a & cs1 & -> & Ba & B).
  apply bind_params_cons in B. destruct B as (b & cs2 & -> & Bb & B).
  apply bind_params_cons in B. destruct B as (x & cs3 & -> & Bx & B).
  apply bind_params_cons in B. destruct B as (d & cs4 & -> & Bd & B).
  apply bind_params_cons in B. destruct B as (e & cs5 & -> & Be & B).
  simpl in B. inversion B; subst cs5. clear B.
  unfold bind, bind_values. cbn [bind_params].
  rewrite Ba, Bb, Bx, Bd, Be. unfold ret.
  rewrite (execute_quiet _ c Q).
  cbn [combine].
  change (known_cols set_sect_col blank_sect
            [("name", a); ("leader_id", b); ("description", x);
             ("level", d); ("wealth", e)]) with true.
  cbv iota.
  rewrite (update_where_map _ _ _ (write_sect a b x d e)) by reflexivity.
  rewrite commit_quiet by exact Q. reflexivity.
Qed.

Lemma get_user_after user_id c :
  quiet c ->
  exists r, get_user (PStr user_id) c = Ret r (after_get_user user_id c).
Proof.
  intros Q. rewrite (get_user_quiet _ c Q). unfold after_get_user. simpl py_str.
  destruct (find_user user_id (working c)); eauto.
Qed.

Lemma after_get_user_frame user_id c :
  quiet c ->
  quiet (after_get_user user_id c) /\
  now (after_get_user user_id c) = now c /\
  sects (working (after_get_user user_id c)) = sects (working c) /\
  sect_members (working (after_get_user user_id c))
  = sect_members (working c) /\
  find_user user_id (working (after_get_user user_id c)) <> None /\
  (forall u, find_user u (working c) <> None ->
             find_user u (working (after_get_user user_id c)) <> None) /\
  (steady c -> steady (after_get_user user_id c)).
Proof.
  intros Q. unfold after_get_user.
  destruct (find_user user_id (working c)) as [row |] eqn:E.
  - split; [exact Q |]. do 3 (split; [reflexivity |]).
    split; [rewrite E; discriminate |]. split; auto.
  - split; [exact Q |]. do 3 (split; [reflexivity |]).
    split; [rewrite (find_user_created _ c E); discriminate |].
    split; [| intros _; split; [exact Q | reflexivity]].
    intros u Hu. clear E. unfold find_user, created_user_conn in *. simpl.
    induction (users (working c)) as [| a l IH]; simpl in *;
      [contradiction |].
    destruct (u_user_id a =? u)%string; [discriminate | auto].
Qed.

Lemma add_sect_member_quiet sect_id user_id role c :
  quiet c ->
  add_sect_member sect_id user_id role c =
  let c1 := after_get_user (py_str user_id) c in
  match find_sect sect_id (working c1) with
  | None => Ret false c1
  | Some _ =>
      Ret true
        (stored c1
           (with_sect_members (working c1)
              (filter (fun r => negb (sect_member_match sect_id
                                        (py_str user_id) r))
                      (sect_members (working c1))
               ++ [mk_sect_member sect_id (py_str user_id) role (now c1)])))
  end.
Proof.
  intros Q. unfold add_sect_member, try_sqlite.
  destruct (get_user_after (py_str user_id) c Q) as (r & E).
  destruct (after_get_user_frame (py_str user_id) c Q) as (Q1 & _).
  unfold bind at 1. rewrite E.
  unfold bind at 1. rewrite (get_sect_quiet _ _ Q1).
  cbv zeta.
  destruct (find_sect sect_id (working (after_get_user (py_str user_id) c)));
    [| reflexivity].
  cbn [option_map]. unfold bind, current_timestamp.
  rewrite (update_quiet _ _ Q1). rewrite commit_quiet by exact Q1.
  reflexivity.
Qed.

Lemma for_each_unchanged {A} (xs : list A) (body : A -> M unit) c :
  (forall x, In x xs -> body x c = Ret tt c) ->
  for_each xs body c = Ret tt c.
Proof.
  induction xs as [| x xs IH]; intros H; simpl; [reflexivity |].
  unfold bind. rewrite (H x (or_introl eq_refl)).
  apply IH. intros y Hy. apply H. right. exact Hy.
Qed.

End Sect_methods.

(** ** Document round trip *)

Lemma str_mem_In s xs : str_mem s xs = true <-> In s xs.
Proof.
  unfold str_mem. rewrite existsb_exists. split.
  - intros (x & Hx & E). apply String.eqb_eq in E. subst. exact Hx.
  - intros H. exists s. split; [exact H | apply String.eqb_refl].
Qed.

Lemma str_in_list_strings s xs : str_in_list s (map PStr xs) = str_mem s xs.
Proof.
  unfold str_in_list, str_mem.
  induction xs as [| x xs IH]; [reflexivity |].
  cbn [existsb map]. rewrite IH. reflexivity.
Qed.

Section Round_trip.
Context {RT : PyRuntime}.

Lemma text_cell_round_trip c :
  text_cell c = true -> bind_param (cell_to_py c) = inr c /\ aff_text c = c.
Proof. destruct c; simpl; intros H; try discriminate; auto. Qed.

Lemma numeric_cell_round_trip c :
  numeric_cell c = true ->
  bind_param (cell_to_py c) = inr c /\ aff_numeric c = c.
Proof.
  destruct c as [| z | s]; simpl; intros H; auto.
  - rewrite H. auto.
  - destruct (numeric_text s); [discriminate | auto].
Qed.

Lemma sect_id_unique (rows : list sect_row) r r' :
  NoDup (map s_sect_id rows) -> In r rows -> In r' rows ->
  s_sect_id r = s_sect_id r' -> r = r'.
Proof.
  induction rows as [| a rows IH]; simpl; intros N H H' E; [destruct H |].
  inversion N as [| ? ? Hn N']; subst.
  destruct H as [-> | H], H' as [-> | H']; auto.
  - exfalso. apply Hn. rewrite E. apply in_map, H'.
  - exfalso. apply Hn. rewrite <- E. apply in_map, H.
Qed.

Lemma find_sect_of_row (d : db) r :
  NoDup (map s_sect_id (sects d)) -> In r (sects d) ->
  find_sect (s_sect_id r) d = Some r.
Proof.
  intros N H. unfold find_sect.
  destruct (find _ (sects d)) as [r' |] eqn:E.
  - destruct (find_some _ _ E) as [Hin Heq]. apply String.eqb_eq in Heq.
    f_equal. apply (sect_id_unique (sects d)); auto.
  - exfalso. pose proof (find_none _ _ E r H) as Hf. simpl in Hf.
    rewrite String.eqb_refl in Hf. discriminate.
Qed.

Lemma write_sect_same r :
  sect_row_wf r = true ->
  write_sect (s_name r) (s_leader_id r) (s_description r) (s_level r)
             (s_wealth r) r = r.
Proof.
  unfold sect_row_wf. rewrite !andb_true_iff.
  intros ((((H1 & H2) & H3) & H4) & H5).
  unfold write_sect.
  rewrite (proj2 (text_cell_round_trip _ H1)),
    (proj2 (text_cell_round_trip _ H2)),
    (proj2 (text_cell_round_trip _ H3)),
    (proj2 (numeric_cell_round_trip _ H4)),
    (proj2 (numeric_cell_round_trip _ H5)).
  destruct r; reflexivity.
Qed.

Lemma with_sects_same d : with_sects d (sects d) = d.
Proof. destruct d; reflexivity. Qed.

(** Absorbing the projected entry of a stored sect changes nothing. *)
Lemma save_sect_projected c r :
  steady c -> sects_wf (working c) -> In r (sects (working c)) ->
  save_sect (select_sect_ids (working c)) (projected_sect (working c) r) c
  = Ret tt c.
Proof.
  intros S [N W] Hin. pose proof S as [Q _].
  assert (Wr : sect_row_wf r = true).
  { rewrite forallb_forall in W. exact (W r Hin). }
  pose proof Wr as Wr'. unfold sect_row_wf in Wr'.
  rewrite !andb_true_iff in Wr'.
  destruct Wr' as ((((H1 & H2) & H3) & H4) & H5).
  unfold save_sect, projected_sect.
  assert (Hm : str_mem (s_sect_id r) (select_sect_ids (working c)) = true).
  { apply str_mem_In. unfold select_sect_ids. apply in_map, Hin. }
  rewrite Hm. unfold as_dict.
  unfold bind at 1. unfold ret at 1.
  unfold bind at 1.
  rewrite (update_sect_quiet (s_sect_id r) _
             [s_name r; s_leader_id r; s_description r; s_level r; s_wealth r]
             r c S (find_sect_of_row _ r N Hin)).
  2:{ unfold sect_update_data, sect_entry, sect_dict. cbn.
      rewrite (proj1 (text_cell_round_trip _ H1)),
        (proj1 (text_cell_round_trip _ H2)),
        (proj1 (text_cell_round_trip _ H3)),
        (proj1 (numeric_cell_round_trip _ H4)),
        (proj1 (numeric_cell_round_trip _ H5)).
      reflexivity. }
  assert (Hsame : map (write_sect_where (s_sect_id r)
                         [s_name r; s_leader_id r; s_description r;
                          s_level r; s_wealth r]) (sects (working c))
                  = sects (working c)).
  { rewrite <- (map_id (sects (working c))) at 2.
    apply map_ext_in. intros x Hx. unfold write_sect_where.
    destruct (s_sect_id x =? s_sect_id r)%string eqn:E; [| reflexivity].
    apply String.eqb_eq in E.
    rewrite (sect_id_unique _ x r N Hx Hin E). apply write_sect_same, Wr. }
  rewrite Hsame, with_sects_same.
  replace (stored c (working c)) with c
    by (symmetry; apply (steady_committed_conn c S)).
  change (dict_get "members"
            (sect_entry (s_sect_id r) (sect_dict r)
               (select_sect_members (s_sect_id r) (working c))))
    with (Some (PList (map (fun m : sect_member_row * user_row =>
                              PStr (sm_user_id (fst m)))
                           (select_sect_members (s_sect_id r) (working c))))).
  cbv iota. unfold reconcile_sect_members.
  unfold bind at 1. rewrite (get_sect_members_quiet _ c Q).
  unfold bind.
  rewrite for_each_unchanged.
  - apply for_each_unchanged. intros m Hmem.
    rewrite <- (map_map (fun m => sm_user_id (fst m)) PStr).
    rewrite str_in_list_strings.
    assert (Hs : str_mem (sm_user_id (fst m))
                   (map (fun m => sm_user_id (fst m))
                        (select_sect_members (s_sect_id r) (working c)))
                 = true).
    { apply str_mem_In. apply (in_map (fun m => sm_user_id (fst m))), Hmem. }
    rewrite Hs. reflexivity.
  - intros v Hv. apply in_map_iff in Hv. destruct Hv as (m & <- & Hmem).
    unfold not_in_str_set.
    assert (Hs : str_mem (sm_user_id (fst m))
                   (map (fun m => sm_user_id (fst m))
                        (select_sect_members (s_sect_id r) (working c)))
                 = true).
    { apply str_mem_In. apply (in_map (fun m => sm_user_id (fst m))), Hmem. }
    rewrite Hs. reflexivity.
Qed.

Lemma dict_set_fresh k v (d : pydict) :
  ~ In k (map fst d) -> dict_set k v d = d ++ [(k, v)].
Proof.
  induction d as [| [k' v'] d IH]; simpl; intros H; [reflexivity |].
  destruct (k' =? k)%string eqn:E.
  - apply String.eqb_eq in E. exfalso. apply H. left. exact E.
  - rewrite IH; [reflexivity |]. intros Hin. apply H. right. exact Hin.
Qed.

Lemma project_sects_quiet c (rows : list sect_row) :
  quiet c -> NoDup (map s_sect_id (sects (working c))) ->
  forall acc,
    (forall r, In r rows -> In r (sects (working c))) ->
    NoDup (map fst acc ++ map s_sect_id rows) ->
    project_sects (map s_sect_id rows) acc c
    = Ret (acc ++ map (projected_sect (working c)) rows) c.
Proof.
  intros Q N. induction rows as [| r rows IH]; intros acc Hin Hn; simpl.
  - rewrite app_nil_r. reflexivity.
  - unfold bind.
    rewrite (get_sect_quiet _ c Q), (get_sect_members_quiet _ c Q).
    rewrite (find_sect_of_row _ r N (Hin r (or_introl eq_refl))).
    cbn [option_map].
    rewrite dict_set_fresh.
    + rewrite IH.
      * rewrite <- app_assoc. reflexivity.
      * intros x Hx. apply Hin. right. exact Hx.
      * rewrite map_app. simpl. rewrite <- app_assoc. exact Hn.
    + apply NoDup_remove_2 in Hn. intros Hk. apply Hn.
      apply in_or_app. left. exact Hk.
Qed.

Lemma projected_sects_keys d :
  map fst (projected_sects d) = map s_sect_id (sects d).
Proof. unfold projected_sects. rewrite map_map. reflexivity. Qed.

(** C6.  On a connection with nothing pending, whose [sects] table is as
    SQLite keeps it, [get_sects_data] returns the projection of every
    stored sect, and [save_sects_data] of that document returns with the
    connection exactly as it was: no row of any table is added, removed or
    changed. *)
Theorem absorb_of_projection_is_noop (c : conn)
        (S : steady c) (W : sects_wf (working c)) :
  get_sects_data c = Ret (projected_sects (working c)) c /\
  save_sects_data (projected_sects (working c)) c = Ret tt c.
Proof.
  pose proof S as [Q _]. pose proof W as [N _].
  split.
  - unfold get_sects_data, try_exception, bind.
    rewrite (query_quiet _ c Q). unfold select_sect_ids.
    rewrite (project_sects_quiet c (sects (working c)) Q N []); auto.
  - unfold save_sects_data, try_exception, absorb_sects.
    unfold bind at 1. rewrite (query_quiet _ c Q).
    unfold bind at 1.
    rewrite for_each_unchanged.
    + unfold bind at 1. rewrite for_each_unchanged.
      * rewrite commit_quiet by exact Q.
        fold (committed_conn c). rewrite (steady_committed_conn c S).
        reflexivity.
      * intros sect_id Hid.
        assert (Hh : dict_has sect_id (projected_sects (working c)) = true).
        { unfold dict_has.
          destruct (dict_get sect_id (projected_sects (working c))) eqn:E;
            [reflexivity |].
          exfalso. apply (dict_get_in sect_id (projected_sects (working c)));
            [| exact E].
          rewrite projected_sects_keys. exact Hid. }
        rewrite Hh. reflexivity.
    + intros entry He. unfold projected_sects in He.
      apply in_map_iff in He. destruct He as (r & <- & Hr).
      apply save_sect_projected; assumption.
Qed.

End Round_trip.

(** ** Reconciliation: what an absorb leaves alone *)

Section Frame.
Context {RT : PyRuntime}.
Variable s : string.

Lemma frame_db_refl d : frame_db s d d.
Proof. repeat split; auto. Qed.

Lemma frame_db_trans d0 d1 d2 :
  frame_db s d0 d1 -> frame_db s d1 d2 -> frame_db s d0 d2.
Proof.
  intros (A1 & B1 & C1) (A2 & B2 & C2). repeat split.
  - rewrite A2. exact A1.
  - auto.
  - auto.
Qed.

Lemma keeps_ret {A} (a : A) : keeps s (ret a).
Proof. intros d0 c H. exact H. Qed.

Lemma keeps_raise {A} (e : exn) : keeps s (@raise A e).
Proof. intros d0 c H. exact H. Qed.

Lemma keeps_bind {A B} (m : M A) (k : A -> M B) :
  keeps s m -> (forall a, keeps s (k a)) -> keeps s (bind m k).
Proof.
  intros Hm Hk d0 c H. unfold bind. specialize (Hm d0 c H).
  destruct (m c) as [a c1 | e c1]; simpl in *; [apply Hk, Hm | exact Hm].
Qed.

Lemma keeps_try_sqlite {A} (body handler : M A) :
  keeps s body -> keeps s handler -> keeps s (try_sqlite body handler).
Proof.
  intros Hb Hh d0 c H. unfold try_sqlite. specialize (Hb d0 c H).
  destruct (body c) as [a c1 | e c1]; simpl in *; [exact Hb |].
  destruct (is_sqlite e); [apply Hh, Hb | exact Hb].
Qed.

Lemma keeps_try_exception {A} (body handler : M A) :
  keeps s body -> keeps s handler -> keeps s (try_exception body handler).
Proof.
  intros Hb Hh d0 c H. unfold try_exception. specialize (Hb d0 c H).
  destruct (body c) as [a c1 | e c1]; simpl in *; [exact Hb | apply Hh, Hb].
Qed.

Lemma keeps_for_each {A} (xs : list A) (body : A -> M unit) :
  (forall x, In x xs -> keeps s (body x)) -> keeps s (for_each xs body).
Proof.
  induction xs as [| x xs IH]; intros H; simpl.
  - apply keeps_ret.
  - apply keeps_bind.
    + apply H. left. reflexivity.
    + intros _. apply IH. intros y Hy. apply H. right. exact Hy.
Qed.

Lemma keeps_execute {A} (stmt : db -> option (A * db)) :
  (forall d a d', stmt d = Some (a, d') -> frame_db s d d') ->
  keeps s (execute stmt).
Proof.
  intros Hs d0 c (Q & Hw & Hc). rewrite (execute_quiet _ c Q).
  destruct (stmt (working c)) as [[a d'] |] eqn:E; simpl.
  - split; [exact Q |]. split; [| exact Hc].
    apply (frame_db_trans _ _ _ Hw), (Hs _ _ _ E).
  - repeat split; auto; apply Hw || apply Hc.
Qed.

Lemma keeps_query {A} (q : db -> A) : keeps s (query q).
Proof.
  apply keeps_execute. intros d a d' H. inversion H; subst.
  apply frame_db_refl.
Qed.

Lemma keeps_update (f : db -> db) :
  (forall d, frame_db s d (f d)) -> keeps s (update f).
Proof.
  intros Hf. apply keeps_execute. intros d a d' H. inversion H; subst.
  apply Hf.
Qed.

Lemma keeps_commit : keeps s commit.
Proof.
  intros d0 c (Q & Hw & Hc). rewrite (commit_quiet c Q). simpl.
  repeat split; auto; apply Hw.
Qed.

Lemma keeps_rollback : keeps s rollback.
Proof.
  intros d0 c (Q & Hw & Hc). rewrite (rollback_quiet c Q). simpl.
  repeat split; auto; apply Hc.
Qed.

Lemma keeps_current_timestamp : keeps s current_timestamp.
Proof. intros d0 c H. exact H. Qed.

Lemma keeps_bind_value v : keeps s (bind_value v).
Proof.
  unfold bind_value. destruct (bind_param v);
    [apply keeps_raise | apply keeps_ret].
Qed.

Lemma keeps_bind_values vs : keeps s (bind_values vs).
Proof.
  unfold bind_values. destruct (bind_params vs);
    [apply keeps_raise | apply keeps_ret].
Qed.

Lemma keeps_as_dict v : keeps s (as_dict v).
Proof. destruct v; simpl; apply keeps_raise || apply keeps_ret. Qed.

Lemma find_sect_iff sect_id d :
  find_sect sect_id d <> None <-> In sect_id (map s_sect_id (sects d)).
Proof.
  unfold find_sect. induction (sects d) as [| r rows IH]; simpl.
  - split; [intros H; contradiction | intros []].
  - destruct (s_sect_id r =? sect_id)%string eqn:E.
    + apply String.eqb_eq in E. split; [auto | discriminate].
    + rewrite IH. split; [auto | intros [H | H]; [| exact H]].
      subst. rewrite String.eqb_refl in E. discriminate.
Qed.

Lemma find_user_iff user_id d :
  find_user user_id d <> None <-> In user_id (map u_user_id (users d)).
Proof.
  unfold find_user. induction (users d) as [| r rows IH]; simpl.
  - split; [intros H; contradiction | intros []].
  - destruct (u_user_id r =? user_id)%string eqn:E.
    + apply String.eqb_eq in E. split; [auto | discriminate].
    + rewrite IH. split; [auto | intros [H | H]; [| exact H]].
      subst. rewrite String.eqb_refl in E. discriminate.
Qed.

Lemma frame_add_user d x :
  frame_db s d (with_users d (users d ++ [x])).
Proof.
  split; [reflexivity |]. split; [auto |].
  intros u. rewrite !find_user_iff. simpl. rewrite map_app.
  intros H. apply in_or_app. left. exact H.
Qed.

Lemma frame_same_sect_ids d rows :
  map s_sect_id rows = map s_sect_id (sects d) ->
  frame_db s d (with_sects d rows).
Proof.
  intros H. split; [reflexivity |]. split; [| auto].
  rewrite !find_sect_iff. simpl. rewrite H. auto.
Qed.

Lemma frame_add_sect d x :
  frame_db s d (with_sects d (sects d ++ [x])).
Proof.
  split; [reflexivity |]. split; [| auto].
  rewrite !find_sect_iff. simpl. rewrite map_app.
  intros H. apply in_or_app. left. exact H.
Qed.

Lemma frame_delete_sect d sect_id :
  sect_id <> s ->
  frame_db s d
    (with_sects d
       (filter (fun r => negb (s_sect_id r =? sect_id)%string) (sects d))).
Proof.
  intros Hne. split; [reflexivity |]. split; [| auto].
  rewrite !find_sect_iff. simpl. rewrite !in_map_iff.
  intros (r & E & Hin). exists r. split; [exact E |].
  apply filter_In. split; [exact Hin |].
  destruct (s_sect_id r =? sect_id)%string eqn:E'; [| reflexivity].
  apply String.eqb_eq in E'. congruence.
Qed.

Lemma filter_filter_implied {A} (f g : A -> bool) (l : list A) :
  (forall x, f x = true -> g x = true) ->
  filter f (filter g l) = filter f l.
Proof.
  intros H. induction l as [| a l IH]; simpl; [reflexivity |].
  destruct (g a) eqn:Eg; simpl.
  - rewrite IH. reflexivity.
  - destruct (f a) eqn:Ef; [| exact IH].
    rewrite (H a Ef) in Eg. discriminate.
Qed.

(** Replacing, adding or deleting memberships of another sect. *)
Lemma frame_other_members d sect_id user_id (extra : list sect_member_row) :
  sect_id <> s ->
  (forall x, In x extra -> sm_sect_id x = sect_id) ->
  frame_db s d
    (with_sect_members d
       (filter (fun r => negb (sect_member_match sect_id user_id r))
               (sect_members d) ++ extra)).
Proof.
  intros Hne Hx. split; [| split; auto].
  unfold rows_of. simpl. rewrite filter_app.
  rewrite filter_filter_implied.
  - replace (filter _ extra) with (@nil sect_member_row);
      [apply app_nil_r |].
    symmetry. induction extra as [| x extra IH]; simpl; [reflexivity |].
    rewrite (Hx x (or_introl eq_refl)).
    destruct (sect_id =? s)%string eqn:E.
    + apply String.eqb_eq in E. contradiction.
    + apply IH. intros y Hy. apply Hx. right. exact Hy.
  - intros m Hm. apply String.eqb_eq in Hm. unfold sect_member_match.
    destruct (sm_sect_id m =? sect_id)%string eqn:E; [| reflexivity].
    apply String.eqb_eq in E. congruence.
Qed.

Lemma set_cols_sect_id fields r r' :
  set_cols set_sect_col fields r = Some r' -> s_sect_id r' = s_sect_id r.
Proof.
  revert r. induction fields as [| [k v] fields IH]; simpl; intros r H.
  - inversion H; reflexivity.
  - destruct (set_sect_col k v r) as [r1 |] eqn:E; [| discriminate].
    rewrite (IH r1 H). clear - E. unfold set_sect_col in E.
    repeat match type of E with
           | (if ?b then _ else _) = _ =>
               destruct b; [inversion E; reflexivity || discriminate |]
           end.
    discriminate.
Qed.

Lemma update_where_sect_ids matches fields rows rows' :
  update_where matches set_sect_col fields rows = Some rows' ->
  map s_sect_id rows' = map s_sect_id rows.
Proof.
  revert rows'. induction rows as [| r rows IH]; simpl; intros rows' H.
  - inversion H; reflexivity.
  - destruct (update_where matches set_sect_col fields rows) as [rest |];
      [| discriminate].
    destruct (matches r).
    + destruct (set_cols set_sect_col fields r) as [r1 |] eqn:E;
        [| discriminate].
      inversion H; subst. simpl.
      rewrite (set_cols_sect_id _ _ _ E), (IH rest eq_refl). reflexivity.
    + inversion H; subst. simpl. rewrite (IH rest eq_refl). reflexivity.
Qed.

Ltac keeps_step :=
  first
    [ apply keeps_ret | apply keeps_raise | apply keeps_commit
    | apply keeps_rollback | apply keeps_query | apply keeps_current_timestamp
    | apply keeps_bind_value | apply keeps_bind_values | apply keeps_as_dict
    | apply keeps_try_sqlite | apply keeps_try_exception
    | apply keeps_bind; [| intros ?]
    | match goal with
      | |- keeps s (match ?x with _ => _ end) => destruct x
      end ].

Lemma keeps_get_user user_id : keeps s (get_user user_id).
Proof.
  unfold get_user. repeat keeps_step.
  apply keeps_update. intros d. apply frame_add_user.
Qed.

Lemma keeps_get_sect sect_id : keeps s (get_sect sect_id).
Proof. unfold get_sect. repeat keeps_step. Qed.

Lemma keeps_get_sect_members sect_id : keeps s (get_sect_members sect_id).
Proof. unfold get_sect_members. repeat keeps_step. Qed.

Lemma keeps_update_sect sect_id data : keeps s (update_sect sect_id data).
Proof.
  unfold update_sect. apply keeps_try_sqlite; [| repeat keeps_step].
  apply keeps_bind; [apply keeps_get_sect |]. intros sect.
  destruct sect; [| apply keeps_ret].
  destruct (filter _ data); [apply keeps_ret |].
  apply keeps_bind; [apply keeps_bind_values |]. intros values.
  apply keeps_bind; [| intros; repeat keeps_step].
  apply keeps_execute. intros d a d' H.
  destruct (known_cols _ _ _); [| discriminate].
  destruct (update_where _ _ _ _) as [rows |] eqn:E; [| discriminate].
  inversion H; subst. apply frame_same_sect_ids.
  exact (update_where_sect_ids _ _ _ _ E).
Qed.

Lemma keeps_add_sect_member sect_id user_id role :
  sect_id <> s -> keeps s (add_sect_member sect_id user_id role).
Proof.
  intros Hne. unfold add_sect_member. apply keeps_try_sqlite;
    [| repeat keeps_step].
  apply keeps_bind; [apply keeps_get_user |]. intros _.
  apply keeps_bind; [apply keeps_get_sect |]. intros sect.
  destruct sect; [| apply keeps_ret].
  apply keeps_bind; [apply keeps_current_timestamp |]. intros ts.
  apply keeps_bind; [| intros; repeat keeps_step].
  apply keeps_update. intros d. apply frame_other_members; [exact Hne |].
  intros x [<- | []]. reflexivity.
Qed.

Lemma keeps_remove_sect_member sect_id user_id :
  sect_id <> s -> keeps s (remove_sect_member sect_id user_id).
Proof.
  intros Hne. unfold remove_sect_member. apply keeps_try_sqlite;
    [| repeat keeps_step].
  apply keeps_bind; [| intros; repeat keeps_step].
  apply keeps_update. intros d.
  rewrite <- (app_nil_r (filter _ (sect_members d))).
  apply frame_other_members; [exact Hne | intros x []].
Qed.

Lemma keeps_create_sect sect_id name leader_id description level wealth :
  sect_id <> s ->
  keeps s (create_sect sect_id name leader_id description level wealth).
Proof.
  intros Hne. unfold create_sect. apply keeps_try_sqlite;
    [| repeat keeps_step].
  apply keeps_bind; [apply keeps_get_user |]. intros _.
  do 4 (apply keeps_bind; [apply keeps_bind_value |]; intros ?).
  apply keeps_bind; [apply keeps_current_timestamp |]. intros ts.
  apply keeps_bind.
  { apply keeps_execute. intros d u d' H.
    destruct (find_sect sect_id d); [discriminate |].
    inversion H; subst. apply frame_add_sect. }
  intros _. apply keeps_bind; [| intros; repeat keeps_step].
  apply keeps_execute. intros d u d' H.
  destruct (existsb _ _); [discriminate |].
  inversion H; subst.
  split; [| split; auto].
  unfold rows_of. simpl. rewrite filter_app. simpl.
  destruct (sect_id =? s)%string eqn:E; [| apply app_nil_r].
  apply String.eqb_eq in E. contradiction.
Qed.

Lemma keeps_delete_sect sect_id : sect_id <> s -> keeps s (delete_sect sect_id).
Proof.
  intros Hne. unfold delete_sect. apply keeps_update. intros d.
  apply frame_delete_sect, Hne.
Qed.

Lemma keeps_not_in_str_set v ids : keeps s (not_in_str_set v ids).
Proof. destruct v; simpl; keeps_step. Qed.

(** Absorbing the entry of another sect keeps s the frame of [s]. *)
Lemma keeps_save_sect existing sect_id v :
  sect_id <> s -> keeps s (save_sect existing (sect_id, v)).
Proof.
  intros Hne. unfold save_sect.
  destruct (str_mem sect_id existing).
  - apply keeps_bind; [apply keeps_as_dict |]. intros sect_data.
    apply keeps_bind; [apply keeps_update_sect |]. intros _.
    destruct (dict_get "members" sect_data) as [[| | | | members |] |];
      try apply keeps_ret.
    unfold reconcile_sect_members.
    apply keeps_bind; [apply keeps_get_sect_members |]. intros current.
    apply keeps_bind.
    + apply keeps_for_each. intros member_id _.
      apply keeps_bind; [apply keeps_not_in_str_set |]. intros absent.
      destruct absent; [| apply keeps_ret].
      apply keeps_bind; [apply keeps_add_sect_member, Hne |].
      intros _. apply keeps_ret.
    + intros _. apply keeps_for_each. intros member _.
      destruct (negb _); [| apply keeps_ret].
      apply keeps_bind; [apply keeps_remove_sect_member, Hne |].
      intros _. apply keeps_ret.
  - apply keeps_bind; [apply keeps_as_dict |]. intros sect_data.
    apply keeps_bind; [apply keeps_create_sect, Hne |]. intros _.
    destruct (dict_get "members" sect_data) as [[| | | | members |] |];
      try apply keeps_ret.
    unfold add_new_sect_members.
    apply keeps_for_each. intros member_id _.
    destruct (negb _); [| apply keeps_ret].
    apply keeps_bind; [apply keeps_add_sect_member, Hne |].
    intros _. apply keeps_ret.
Qed.

(** *** The reconciliation of the sect [s] itself *)

Lemma rows_of_replace d u (x : sect_member_row) :
  sm_sect_id x = s ->
  rows_of s (with_sect_members d
             (filter (fun r => negb (sect_member_match s u r))
                     (sect_members d) ++ [x]))
  = filter (not_user u) (rows_of s d) ++ [x].
Proof.
  intros Hx. unfold rows_of. simpl. rewrite filter_app. simpl.
  rewrite Hx, String.eqb_refl. f_equal.
  induction (sect_members d) as [| m l IH]; simpl; [reflexivity |].
  unfold sect_member_match, not_user in *.
  destruct (sm_sect_id m =? s)%string eqn:E1,
           (sm_user_id m =? u)%string eqn:E2; simpl;
    rewrite ?E1, ?E2; simpl; rewrite IH; reflexivity.
Qed.

Lemma rows_of_delete d u :
  rows_of s (with_sect_members d
             (filter (fun r => negb (sect_member_match s u r))
                     (sect_members d)))
  = filter (not_user u) (rows_of s d).
Proof.
  unfold rows_of. simpl.
  induction (sect_members d) as [| m l IH]; simpl; [reflexivity |].
  unfold sect_member_match, not_user in *.
  destruct (sm_sect_id m =? s)%string eqn:E1,
           (sm_user_id m =? u)%string eqn:E2; simpl;
    rewrite ?E1, ?E2; simpl; rewrite IH; reflexivity.
Qed.

Lemma In_filter_not_user u m rows :
  In m (filter (not_user u) rows) <-> In m rows /\ sm_user_id m <> u.
Proof.
  rewrite filter_In. unfold not_user. split; intros [H1 H2]; split; auto.
  - intros E. rewrite E, String.eqb_refl in H2. discriminate.
  - destruct (sm_user_id m =? u)%string eqn:E; [| reflexivity].
    apply String.eqb_eq in E. contradiction.
Qed.

(** The rows the join of [get_sect_members] returns. *)
Lemma select_sect_members_In d p :
  In p (select_sect_members s d) -> In (fst p) (rows_of s d).
Proof.
  unfold select_sect_members, rows_of. rewrite in_flat_map.
  intros (m & Hm & Hp).
  destruct (sm_sect_id m =? s)%string eqn:E; [| destruct Hp].
  apply in_map_iff in Hp. destruct Hp as (u & <- & _). simpl.
  apply filter_In. auto.
Qed.

Lemma select_sect_members_joined d m :
  In m (rows_of s d) -> find_user (sm_user_id m) d <> None ->
  exists u, In (m, u) (select_sect_members s d).
Proof.
  unfold select_sect_members, rows_of. rewrite filter_In.
  intros [Hm E] Hu.
  unfold find_user in Hu.
  destruct (find _ (users d)) as [u |] eqn:Eu; [| contradiction].
  destruct (find_some _ _ Eu) as [Hin Hid].
  exists u. apply in_flat_map. exists m. split; [exact Hm |].
  rewrite E. apply in_map. apply filter_In. auto.
Qed.

(** The loop that adds the listed members that are not current members. *)
Lemma add_loop_spec (L : list sect_member_row) (new : list string)
      (sect_data : pydict) (ids : list string) :
  (forall u, In u ids <-> In u (users_of L)) ->
  forall (news : list string) (c c' : conn),
    (forall u, In u news -> In u new) ->
    recon_inv s L new c ->
    for_each (map PStr news) (fun member_id =>
      absent <- not_in_str_set member_id ids ;;
      if absent then
        let role :=
          if py_eqb member_id (dict_get_none "leader" sect_data)
          then "leader" else "member" in
        add_sect_member s member_id role ;;; ret tt
      else ret tt) c = Ret tt c' ->
    recon_inv s L new c' /\
    (forall u, In u (users_of (rows_of s (working c))) ->
               In u (users_of (rows_of s (working c')))) /\
    (forall u, In u news -> In u (users_of L) \/
                            In u (users_of (rows_of s (working c')))).
Proof.
  intros Hids. induction news as [| u news IH]; intros c c' Hsub Hinv H.
  - simpl in H. inversion H; subst. split; [exact Hinv |].
    split; [auto | intros u []].
  - simpl in H. apply bind_Ret_inv in H. destruct H as ([] & c1 & H1 & H).
    assert (Hstep : recon_inv s L new c1 /\
              (forall v, In v (users_of (rows_of s (working c))) ->
                         In v (users_of (rows_of s (working c1)))) /\
              (In u (users_of L) \/ In u (users_of (rows_of s (working c1))))).
    { unfold bind, not_in_str_set, ret in H1.
      destruct (str_mem u ids) eqn:Eu; simpl in H1.
      - inversion H1; subst. split; [exact Hinv |]. split; [auto |].
        left. apply Hids, str_mem_In, Eu.
      - destruct Hinv as ((Q & Hst) & Hsect & Ha & Hb).
        rewrite (add_sect_member_quiet _ _ _ c Q) in H1. cbv zeta in H1.
        simpl py_str in H1.
        destruct (after_get_user_frame u c Q)
          as (Q1 & _ & Es & Em & _ & _ & _).
        assert (Hsect1 : find_sect s (working (after_get_user u c)) <> None).
        { apply find_sect_iff. rewrite Es. apply find_sect_iff, Hsect. }
        destruct (find_sect s (working (after_get_user u c)));
          [| contradiction].
        inversion H1; subst c1. clear H1.
        assert (Hnot : ~ In u (users_of L)).
        { intros Hin. apply Hids, str_mem_In in Hin. congruence. }
        assert (Hrows : rows_of s (working (after_get_user u c))
                        = rows_of s (working c)).
        { unfold rows_of. rewrite Em. reflexivity. }
        split; [| split].
        + split; [apply steady_stored, Q1 |]. split.
          * apply find_sect_iff. simpl. rewrite Es. apply find_sect_iff, Hsect.
          * simpl working. rewrite rows_of_replace by reflexivity.
            rewrite Hrows. split.
            -- intros m Hm Hnew. apply in_or_app. left.
               apply In_filter_not_user. split; [auto |].
               intros E. apply Hnot. rewrite <- E. apply in_map, Hm.
            -- intros m Hm. apply in_app_or in Hm. destruct Hm as [Hm | Hm].
               ++ apply In_filter_not_user in Hm. apply Hb, Hm.
               ++ destruct Hm as [<- | []]. right. simpl. split; [| exact Hnot].
                  apply Hsub. left. reflexivity.
        + intros v Hv. simpl working. rewrite rows_of_replace by reflexivity.
          rewrite Hrows. unfold users_of in *. rewrite map_app. simpl.
          apply in_map_iff in Hv. destruct Hv as (m & <- & Hm).
          destruct (sm_user_id m =? u)%string eqn:E.
          * apply String.eqb_eq in E. apply in_or_app. right. left.
            symmetry. exact E.
          * apply in_or_app. left. apply in_map.
            apply In_filter_not_user. split; [exact Hm |].
            intros E'. rewrite E', String.eqb_refl in E. discriminate.
        + right. simpl working. rewrite rows_of_replace by reflexivity.
          unfold users_of. rewrite map_app. apply in_or_app. right.
          left. reflexivity. }
    destruct Hstep as (Hinv1 & Hmono1 & Hu).
    destruct (IH c1 c' (fun v Hv => Hsub v (or_intror Hv)) Hinv1 H)
      as (Hinv' & Hmono' & Hnews).
    split; [exact Hinv' |]. split; [auto |].
    intros v [<- | Hv]; [| auto].
    destruct Hu as [Hu | Hu]; auto.
Qed.

(** The loop that removes the current members the document does not
    list. *)
Lemma remove_loop_spec (L : list sect_member_row) (new : list string) :
  forall (current : list (sect_member_row * user_row)) (c c' : conn),
    recon_inv s L new c ->
    for_each current (fun member =>
      if negb (str_in_list (sm_user_id (fst member)) (map PStr new)) then
        remove_sect_member s (PStr (sm_user_id (fst member))) ;;; ret tt
      else ret tt) c = Ret tt c' ->
    recon_inv s L new c' /\
    (forall u, In u new -> In u (users_of (rows_of s (working c))) ->
               In u (users_of (rows_of s (working c')))) /\
    (forall m, In m (rows_of s (working c')) -> In m (rows_of s (working c))) /\
    (forall p, In p current -> ~ In (sm_user_id (fst p)) new ->
               ~ In (sm_user_id (fst p)) (users_of (rows_of s (working c')))).
Proof.
  induction current as [| p current IH]; intros c c' Hinv H.
  - simpl in H. inversion H; subst. split; [exact Hinv |].
    split; [auto |]. split; [auto | intros p []].
  - simpl in H. apply bind_Ret_inv in H. destruct H as ([] & c1 & H1 & H).
    set (u := sm_user_id (fst p)) in *.
    assert (Hstep : recon_inv s L new c1 /\
              (forall v, In v new -> In v (users_of (rows_of s (working c))) ->
                         In v (users_of (rows_of s (working c1)))) /\
              (forall m, In m (rows_of s (working c1)) ->
                         In m (rows_of s (working c))) /\
              (~ In u new -> ~ In u (users_of (rows_of s (working c1))))).
    { rewrite str_in_list_strings in H1.
      destruct (str_mem u new) eqn:Eu; simpl in H1.
      - inversion H1; subst. split; [exact Hinv |]. split; [auto |].
        split; [auto |]. intros Hn. exfalso. apply Hn, str_mem_In, Eu.
      - assert (Hnot : ~ In u new).
        { intros Hin. apply str_mem_In in Hin. congruence. }
        destruct Hinv as ((Q & Hst) & Hsect & Ha & Hb).
        unfold bind in H1.
        rewrite (remove_sect_member_quiet _ _ c Q) in H1.
        simpl py_str in H1. unfold ret in H1.
        injection H1 as Hc1.
        assert (Hr : rows_of s (working c1)
                     = filter (not_user u) (rows_of s (working c))).
        { rewrite <- Hc1. apply rows_of_delete. }
        assert (Hs1 : find_sect s (working c1) = find_sect s (working c)).
        { rewrite <- Hc1. reflexivity. }
        assert (St1 : steady c1).
        { rewrite <- Hc1. split; [exact Q | reflexivity]. }
        clear Hc1. unfold recon_inv. rewrite Hr, Hs1.
        split; [| split; [| split]].
        + split; [exact St1 |]. split; [exact Hsect |].
          split.
          * intros m Hm Hnew. apply In_filter_not_user. split; [auto |].
            intros E. apply Hnot. rewrite <- E. exact Hnew.
          * intros m Hm. apply In_filter_not_user in Hm. apply Hb, Hm.
        + intros v Hv Hin. unfold users_of in *.
          apply in_map_iff in Hin. destruct Hin as (m & <- & Hm).
          apply in_map. apply In_filter_not_user. split; [exact Hm |].
          intros E. apply Hnot. rewrite <- E. exact Hv.
        + intros m Hm. apply In_filter_not_user in Hm. apply Hm.
        + intros _ Hin. unfold users_of in Hin.
          apply in_map_iff in Hin. destruct Hin as (m & E & Hm).
          apply In_filter_not_user in Hm. apply (proj2 Hm). exact E. }
    destruct Hstep as (Hinv1 & Hkeep1 & Hsub1 & Hgone1).
    destruct (IH c1 c' Hinv1 H) as (Hinv' & Hkeep' & Hsub' & Hgone').
    split; [exact Hinv' |]. split; [auto |]. split; [auto |].
    intros q [<- | Hq] Hn.
    + intros Hin. apply (Hgone1 Hn). unfold u, users_of in *.
      apply in_map_iff in Hin. destruct Hin as (m & E & Hm).
      rewrite <- E. apply in_map, Hsub', Hm.
    + apply Hgone'; assumption.
Qed.

(** After [update_sect] has returned for an existing sect, nothing is
    pending. *)
Lemma update_sect_settles sect_data c b c1 :
  quiet c -> find_sect s (working c) <> None ->
  update_sect s (sect_update_data s sect_data) c = Ret b c1 ->
  committed c1 = working c1.
Proof.
  intros Q Hs H. unfold update_sect in H.
  apply try_sqlite_Ret_inv in H. destruct H as [H | (c2 & _ & H)].
  - apply bind_Ret_inv in H. destruct H as (sect & c2 & Hg & H).
    rewrite (get_sect_quiet _ c Q) in Hg. inversion Hg; subst sect c2.
    destruct (find_sect s (working c)); [| contradiction].
    cbn [option_map] in H.
    change (filter _ (sect_update_data s sect_data))
      with (sect_update_data s sect_data) in H.
    unfold sect_update_data in H. cbv beta iota in H.
    apply bind_Ret_inv in H. destruct H as (values & c2 & _ & H).
    apply bind_Ret_inv in H. destruct H as ([] & c3 & _ & H).
    apply bind_Ret_inv in H. destruct H as ([] & c4 & Hc & H).
    inversion H; subst c4.
    apply commit_Ret_inv in Hc. destruct Hc as (Hw & Hc & _).
    rewrite Hw, Hc. reflexivity.
  - unfold bind, rollback, ret in H.
    destruct (next_fault c2) as [[|] c3]; inversion H; subst. reflexivity.
Qed.

(** Absorbing the entry of [s] reconciles its members. *)
Lemma save_sect_target d0 existing sect_data new c c' :
  framed s d0 c ->
  find_sect s d0 <> None ->
  (forall m, In m (rows_of s d0) -> find_user (sm_user_id m) d0 <> None) ->
  str_mem s existing = true ->
  dict_get "members" sect_data = Some (PList (map PStr new)) ->
  save_sect existing (s, PDict sect_data) c = Ret tt c' ->
  steady c' /\ find_sect s (working c') <> None /\
  members_reconciled (rows_of s d0) new (rows_of s (working c')).
Proof.
  intros F Hs Hfk He Hm H.
  unfold save_sect in H. rewrite He in H.
  apply bind_Ret_inv in H. destruct H as (sd & c0 & Ha & H).
  inversion Ha; subst sd c0. clear Ha.
  apply bind_Ret_inv in H. destruct H as (b & c1 & Hu & H).
  rewrite Hm in H.
  pose proof (keeps_update_sect s (sect_update_data s sect_data) d0 c F)
    as F1.
  rewrite Hu in F1. simpl in F1.
  destruct F as (Q & (_ & Hsw & _) & _).
  pose proof (update_sect_settles _ _ _ _ Q (Hsw Hs) Hu) as St1.
  destruct F1 as (Q1 & (Hrows & Hsect & Husers) & _).
  unfold reconcile_sect_members in H.
  apply bind_Ret_inv in H. destruct H as (current & c2 & Hg & H).
  rewrite (get_sect_members_quiet _ c1 Q1) in Hg.
  inversion Hg; subst current c2. clear Hg.
  apply bind_Ret_inv in H. destruct H as ([] & c2 & H1 & H2).
  set (L := rows_of s d0) in *.
  assert (Hinv : recon_inv s L new c1).
  { split; [split; assumption |]. split; [auto |].
    rewrite Hrows. split; auto. }
  assert (Hids : forall u,
             In u (map (fun m : sect_member_row * user_row =>
                          sm_user_id (fst m))
                       (select_sect_members s (working c1)))
             <-> In u (users_of L)).
  { intros u. unfold users_of. rewrite !in_map_iff. split.
    - intros (p & <- & Hp). exists (fst p). split; [reflexivity |].
      rewrite <- Hrows. apply select_sect_members_In, Hp.
    - intros (m & <- & Hin).
      destruct (select_sect_members_joined (working c1) m) as (usr & Hj).
      + rewrite Hrows. exact Hin.
      + apply Husers, Hfk, Hin.
      + exists (m, usr). split; [reflexivity | exact Hj]. }
  destruct (add_loop_spec L new sect_data _ Hids new c1 c2
              (fun u Hu' => Hu') Hinv H1) as (Hinv2 & Hmono & Hadded).
  destruct (remove_loop_spec L new _ c2 c' Hinv2 H2)
    as (Hinv3 & Hkept & Hsub & Hgone).
  destruct Hinv3 as (St3 & Hs3 & Ha3 & Hb3).
  split; [exact St3 |]. split; [exact Hs3 |].
  split; [| split].
  - intros u. split.
    + intros Hin. unfold users_of in Hin. apply in_map_iff in Hin.
      destruct Hin as (m & <- & Hmem).
      destruct (Hb3 m Hmem) as [HL | [Hnew _]]; [| exact Hnew].
      destruct (str_mem (sm_user_id m) new) eqn:E;
        [apply str_mem_In, E |].
      exfalso.
      destruct (select_sect_members_joined (working c1) m) as (usr & Hj).
      * rewrite Hrows. exact HL.
      * apply Husers, Hfk, HL.
      * apply (Hgone (m, usr) Hj).
        -- simpl. intros Hin. apply str_mem_In in Hin. congruence.
        -- simpl. apply in_map, Hmem.
    + intros Hin. apply Hkept; [exact Hin |].
      destruct (Hadded u Hin) as [HL | Hrow]; [| exact Hrow].
      apply Hmono. rewrite Hrows. exact HL.
  - exact Ha3.
  - intros m Hmem. destruct (Hb3 m Hmem) as [HL | [_ Hn]]; auto.
Qed.

End Frame.

Lemma for_each_app_Ret {A} (xs ys : list A) (body : A -> M unit) c c' :
  for_each (xs ++ ys) body c = Ret tt c' ->
  exists c1, for_each xs body c = Ret tt c1 /\ for_each ys body c1 = Ret tt c'.
Proof.
  revert c. induction xs as [| x xs IH]; simpl; intros c H.
  - exists c. split; [reflexivity | exact H].
  - apply bind_Ret_inv in H. destruct H as ([] & c0 & Hx & H).
    destruct (IH c0 H) as (c1 & H1 & H2).
    exists c1. split; [| exact H2].
    unfold bind. rewrite Hx. exact H1.
Qed.

Lemma dict_get_split k v (d : pydict) :
  NoDup (map fst d) -> dict_get k d = Some v ->
  exists pre post, d = pre ++ (k, v) :: post /\
                   ~ In k (map fst pre) /\ ~ In k (map fst post).
Proof.
  induction d as [| [k' v'] d IH]; simpl; intros N H; [discriminate |].
  inversion N as [| ? ? Hn N']; subst.
  destruct (k' =? k)%string eqn:E.
  - apply String.eqb_eq in E. subst k'. inversion H; subst v'.
    exists [], d. split; [reflexivity |]. split; [intros [] | exact Hn].
  - destruct (IH N' H) as (pre & post & -> & Hp & Hq).
    exists ((k', v') :: pre), post. split; [reflexivity |].
    split; [| exact Hq].
    simpl. intros [Heq | Hin]; [| exact (Hp Hin)].
    subst. rewrite String.eqb_refl in E. discriminate.
Qed.

(** ** Documents whose absorb raises no exception *)

Section Returning.
Context {RT : PyRuntime}.

Lemma returns_bind_ret {A B} (a : A) (k : A -> M B) :
  returns (k a) -> returns (bind (ret a) k).
Proof. intros H c Q. exact (H c Q). Qed.

Lemma returns_safe {A} (m : M A) : returns m -> safe m.
Proof.
  intros H c Q. destruct (H c Q) as (a & c' & E & Q'). rewrite E. exact Q'.
Qed.

Lemma returns_ret {A} (a : A) : returns (ret a).
Proof. intros c Q. exists a, c. auto. Qed.

Lemma returns_bind {A B} (m : M A) (k : A -> M B) :
  returns m -> (forall a, returns (k a)) -> returns (bind m k).
Proof.
  intros Hm Hk c Q. destruct (Hm c Q) as (a & c1 & E & Q1).
  unfold bind. rewrite E. apply Hk, Q1.
Qed.

Lemma safe_bind {A B} (m : M A) (k : A -> M B) :
  safe m -> (forall a, safe (k a)) -> safe (bind m k).
Proof.
  intros Hm Hk c Q. unfold bind. specialize (Hm c Q).
  destruct (m c) as [a c1 | e c1]; [apply Hk, Hm | exact Hm].
Qed.

Lemma returns_try_sqlite {A} (body handler : M A) :
  safe body -> returns handler -> returns (try_sqlite body handler).
Proof.
  intros Hb Hh c Q. unfold try_sqlite. specialize (Hb c Q).
  destruct (body c) as [a c1 | e c1]; [eauto |].
  destruct Hb as [-> Q1]. apply Hh, Q1.
Qed.

Lemma returns_for_each {A} (xs : list A) (body : A -> M unit) :
  (forall x, In x xs -> returns (body x)) -> returns (for_each xs body).
Proof.
  induction xs as [| x xs IH]; intros H; simpl.
  - apply returns_ret.
  - apply returns_bind; [apply H; left; reflexivity |].
    intros _. apply IH. intros y Hy. apply H. right. exact Hy.
Qed.

Lemma safe_execute {A} (stmt : db -> option (A * db)) : safe (execute stmt).
Proof.
  intros c Q. rewrite (execute_quiet _ c Q).
  destruct (stmt (working c)) as [[a d] |]; simpl; auto.
Qed.

Lemma returns_query {A} (q : db -> A) : returns (query q).
Proof. intros c Q. rewrite (query_quiet _ c Q). eauto. Qed.

Lemma returns_update (f : db -> db) : returns (update f).
Proof. intros c Q. rewrite (update_quiet _ c Q). eauto. Qed.

Lemma returns_commit : returns commit.
Proof. intros c Q. rewrite (commit_quiet c Q). eauto. Qed.

Lemma returns_rollback : returns rollback.
Proof. intros c Q. rewrite (rollback_quiet c Q). eauto. Qed.

Lemma returns_current_timestamp : returns current_timestamp.
Proof. intros c Q. unfold current_timestamp. eauto. Qed.

Lemma returns_failure_handler : returns (rollback ;;; ret false).
Proof.
  apply returns_bind; [apply returns_rollback |]. intros _. apply returns_ret.
Qed.

Lemma safe_bind_value v : no_overflow v = true -> safe (bind_value v).
Proof.
  intros H c Q. unfold bind_value.
  destruct v; simpl in *; try rewrite H; simpl; auto.
Qed.

Lemma safe_bind_values vs :
  forallb no_overflow vs = true -> safe (bind_values vs).
Proof.
  intros H c Q. unfold bind_values.
  assert (E : (exists cs, bind_params vs = inr cs)
              \/ bind_params vs = inl SqliteError).
  { induction vs as [| v vs IH]; simpl in *; [eauto |].
    apply andb_true_iff in H. destruct H as [Hv Hvs].
    destruct v; simpl in *; try rewrite Hv;
      try (destruct (IH Hvs) as [(cs & ->) | ->]; eauto); auto. }
  destruct E as [(cs & ->) | ->]; simpl; auto.
Qed.

Lemma returns_get_user user_id : returns (get_user user_id).
Proof.
  intros c Q. rewrite (get_user_quiet _ c Q).
  destruct (find_user _ _); eauto.
Qed.

Lemma returns_get_sect sect_id : returns (get_sect sect_id).
Proof. intros c Q. rewrite (get_sect_quiet _ c Q). eauto. Qed.

Lemma returns_get_sect_members sect_id : returns (get_sect_members sect_id).
Proof. intros c Q. rewrite (get_sect_members_quiet _ c Q). eauto. Qed.

Lemma returns_add_sect_member sect_id user_id role :
  returns (add_sect_member sect_id user_id role).
Proof.
  intros c Q. rewrite (add_sect_member_quiet _ _ _ c Q). cbv zeta.
  destruct (after_get_user_frame (py_str user_id) c Q) as (Q1 & _).
  destruct (find_sect _ _); eauto.
Qed.

Lemma returns_remove_sect_member sect_id user_id :
  returns (remove_sect_member sect_id user_id).
Proof. intros c Q. rewrite (remove_sect_member_quiet _ _ c Q). eauto. Qed.

Lemma returns_delete_sect sect_id : returns (delete_sect sect_id).
Proof. apply returns_update. Qed.

Lemma forallb_filter_sub {A} (f g : A -> bool) (l : list A) :
  forallb f l = true -> forallb f (filter g l) = true.
Proof.
  induction l as [| a l IH]; simpl; [auto |].
  rewrite andb_true_iff. intros [Ha Hl].
  destruct (g a); simpl; [rewrite Ha |]; auto.
Qed.

Lemma returns_update_sect sect_id data :
  forallb no_overflow (map snd data) = true ->
  returns (update_sect sect_id data).
Proof.
  intros H. unfold update_sect.
  apply returns_try_sqlite; [| apply returns_failure_handler].
  apply safe_bind; [apply returns_safe, returns_get_sect |]. intros sect.
  destruct sect; [| apply returns_safe, returns_ret].
  assert (Hf : forallb no_overflow
                 (map snd (filter (fun kv : string * pyval =>
                                     negb (fst kv =? "sect_id")%string) data))
               = true).
  { rewrite forallb_forall in *. intros v Hv. apply H.
    apply in_map_iff in Hv. destruct Hv as (kv & <- & Hkv).
    apply filter_In in Hkv. apply in_map, Hkv. }
  destruct (filter _ data) as [| f fields];
    [apply returns_safe, returns_ret |].
  apply safe_bind; [apply safe_bind_values, Hf |]. intros values.
  apply safe_bind; [apply safe_execute |]. intros _.
  apply safe_bind; [apply returns_safe, returns_commit |]. intros _.
  apply returns_safe, returns_ret.
Qed.

Lemma returns_create_sect sect_id name leader_id description level wealth :
  no_overflow name = true -> no_overflow description = true ->
  no_overflow level = true -> no_overflow wealth = true ->
  returns (create_sect sect_id name leader_id description level wealth).
Proof.
  intros H1 H2 H3 H4. unfold create_sect.
  apply returns_try_sqlite; [| apply returns_failure_handler].
  apply safe_bind; [apply returns_safe, returns_get_user |]. intros _.
  apply safe_bind; [apply safe_bind_value, H1 |]. intros c_name.
  apply safe_bind; [apply safe_bind_value, H2 |]. intros c_description.
  apply safe_bind; [apply safe_bind_value, H3 |]. intros c_level.
  apply safe_bind; [apply safe_bind_value, H4 |]. intros c_wealth.
  apply safe_bind; [apply returns_safe, returns_current_timestamp |].
  intros ts.
  apply safe_bind; [apply safe_execute |]. intros _.
  apply safe_bind; [apply safe_execute |]. intros _.
  apply safe_bind; [apply returns_safe, returns_commit |]. intros _.
  apply returns_safe, returns_ret.
Qed.

Lemma returns_not_in_str_set v ids :
  hashable v = true -> returns (not_in_str_set v ids).
Proof.
  intros H. destruct v; simpl in *; try discriminate; apply returns_ret.
Qed.

Lemma returns_save_sect existing entry :
  plain_sect_entry entry = true -> returns (save_sect existing entry).
Proof.
  destruct entry as [sect_id v]. unfold plain_sect_entry. simpl.
  destruct v as [| | | | | sect_data]; try discriminate.
  rewrite andb_true_iff. intros [Hf Hm].
  assert (Hvals : no_overflow (dict_get_default "name"
                      (PStr ("Sect " ++ sect_id)%string) sect_data) = true /\
                  no_overflow (dict_get_default "description" (PStr "")
                                 sect_data) = true /\
                  no_overflow (dict_get_default "level" (PInt 1) sect_data)
                  = true /\
                  no_overflow (dict_get_default "wealth" (PInt 0) sect_data)
                  = true).
  { unfold sect_update_data in Hf. cbn [map snd forallb] in Hf.
    rewrite !andb_true_iff in Hf. tauto. }
  destruct Hvals as (V1 & V2 & V3 & V4).
  unfold save_sect. destruct (str_mem sect_id existing).
  - change (as_dict (PDict sect_data)) with (ret (A:=pydict) sect_data).
    apply returns_bind_ret.
    apply returns_bind; [apply returns_update_sect, Hf |]. intros _.
    destruct (dict_get "members" sect_data) as [[| | | | members |] |];
      try apply returns_ret.
    unfold reconcile_sect_members.
    apply returns_bind; [apply returns_get_sect_members |]. intros current.
    apply returns_bind.
    + apply returns_for_each. intros member_id Hin.
      apply returns_bind.
      * apply returns_not_in_str_set.
        rewrite forallb_forall in Hm. apply Hm, Hin.
      * intros absent. destruct absent; [| apply returns_ret].
        apply returns_bind; [apply returns_add_sect_member |].
        intros _. apply returns_ret.
    + intros _. apply returns_for_each. intros member _.
      destruct (negb _); [| apply returns_ret].
      apply returns_bind; [apply returns_remove_sect_member |].
      intros _. apply returns_ret.
  - change (as_dict (PDict sect_data)) with (ret (A:=pydict) sect_data).
    apply returns_bind_ret.
    apply returns_bind.
    { unfold create_sect_from. apply returns_create_sect; assumption. }
    intros _.
    destruct (dict_get "members" sect_data) as [[| | | | members |] |];
      try apply returns_ret.
    unfold add_new_sect_members.
    apply returns_for_each. intros member_id _.
    destruct (negb _); [| apply returns_ret].
    apply returns_bind; [apply returns_add_sect_member |].
    intros _. apply returns_ret.
Qed.

Lemma returns_absorb_sects data :
  plain_sects_doc data = true -> returns (absorb_sects data).
Proof.
  intros H. unfold absorb_sects.
  apply returns_bind; [apply returns_query |]. intros existing.
  apply returns_bind.
  { apply returns_for_each. intros entry Hin. apply returns_save_sect.
    unfold plain_sects_doc in H. rewrite forallb_forall in H. apply H, Hin. }
  intros _. apply returns_bind; [| intros _; apply returns_commit].
  apply returns_for_each. intros sect_id _.
  destruct (negb _); [apply returns_delete_sect | apply returns_ret].
Qed.

End Returning.

Section Reconciliation.
Context {RT : PyRuntime}.

(** C7.  Take a connection with nothing pending, a stored sect [s] whose
    members all have a user row, and a document (a dictionary, so without
    repeated keys, whose entries are objects with storable fields) that
    lists [s] with the members [new], given as strings.  The absorb
    returns, and afterwards the users of the stored membership rows of [s]
    are exactly [new]; every old row of a user that is still listed is
    there unchanged, role and join timestamp included; and every row is an
    old row or the row of a user that was not a member.  The call commits
    its last transaction. *)
Theorem absorb_reconciles_members
        (s : string) (data sect_data : pydict) (new : list string)
        (c : conn)
        (S : steady c)
        (Hkeys : NoDup (map fst data))
        (Hplain : plain_sects_doc data = true)
        (Hentry : dict_get s data = Some (PDict sect_data))
        (Hmembers : dict_get "members" sect_data
                    = Some (PList (map PStr new)))
        (Hsect : find_sect s (working c) <> None)
        (Hfk : forall m, In m (rows_of s (working c)) ->
                         find_user (sm_user_id m) (working c) <> None) :
  exists c',
    save_sects_data data c = Ret tt c' /\
    committed c' = working c' /\
    members_reconciled (rows_of s (working c)) new (rows_of s (working c')).
Proof.
  destruct (returns_absorb_sects data Hplain c (proj1 S))
    as ([] & c' & Hrun & _).
  exists c'.
  split; [unfold save_sects_data, try_exception; rewrite Hrun; reflexivity |].
  pose proof S as [Q St].
  unfold absorb_sects in Hrun.
  apply bind_Ret_inv in Hrun. destruct Hrun as (existing & c0 & Hq & H).
  rewrite (query_quiet _ c Q) in Hq. inversion Hq; subst existing c0. clear Hq.
  apply bind_Ret_inv in H. destruct H as ([] & c3 & Hloop & H).
  apply bind_Ret_inv in H. destruct H as ([] & c4 & Hdel & Hcommit).
  destruct (dict_get_split _ _ _ Hkeys Hentry)
    as (pre & post & Hdata & Hpre & Hpost).
  rewrite Hdata in Hloop.
  apply for_each_app_Ret in Hloop. destruct Hloop as (c1 & Hloop1 & Hloop).
  cbn [for_each] in Hloop. apply bind_Ret_inv in Hloop.
  destruct Hloop as ([] & c2 & Htarget & Hloop2).
  (* the entries before [s] *)
  assert (F0 : framed s (working c) c).
  { split; [exact Q |]. split; [apply frame_db_refl |].
    rewrite St. apply frame_db_refl. }
  assert (K1 : keeps s (for_each pre
                          (save_sect (select_sect_ids (working c))))).
  { apply keeps_for_each. intros [k v] Hx. apply keeps_save_sect.
    intros E. apply Hpre. rewrite <- E.
    apply (in_map fst) in Hx. exact Hx. }
  pose proof (K1 _ _ F0) as F1. rewrite Hloop1 in F1. simpl in F1.
  (* the entry of [s] *)
  assert (Hex : str_mem s (select_sect_ids (working c)) = true).
  { apply str_mem_In. apply find_sect_iff, Hsect. }
  destruct (save_sect_target s (working c) _ sect_data new c1 c2
              F1 Hsect Hfk Hex Hmembers Htarget) as (St2 & Hs2 & Hrec).
  (* the entries after [s], the deletions and the commit *)
  assert (F2 : framed s (working c2) c2).
  { destruct St2 as [Q2 E2]. split; [exact Q2 |].
    split; [apply frame_db_refl |]. rewrite E2. apply frame_db_refl. }
  assert (K2 : keeps s (for_each post
                          (save_sect (select_sect_ids (working c))))).
  { apply keeps_for_each. intros [k v] Hx. apply keeps_save_sect.
    intros E. apply Hpost. rewrite <- E.
    apply (in_map fst) in Hx. exact Hx. }
  pose proof (K2 _ _ F2) as F3. rewrite Hloop2 in F3. simpl in F3.
  assert (K3 : keeps s (for_each (select_sect_ids (working c))
                          (fun sect_id =>
                             if negb (dict_has sect_id data)
                             then delete_sect sect_id else ret tt))).
  { apply keeps_for_each. intros x _.
    destruct (dict_has x data) eqn:E; simpl; [apply keeps_ret |].
    apply keeps_delete_sect. intros ->.
    unfold dict_has in E. rewrite Hentry in E. discriminate. }
  pose proof (K3 _ _ F3) as F4. rewrite Hdel in F4. simpl in F4.
  apply commit_Ret_inv in Hcommit. destruct Hcommit as (Hw & Hc & _).
  split; [rewrite Hw, Hc; reflexivity |].
  destruct F4 as (_ & (Hrows & _) & _).
  rewrite Hw, Hrows. exact Hrec.
Qed.

End Reconciliation.

(** * Scenarios *)

Section Scenarios.

#[local] Existing Instance decimal_runtime.

(** C1.  An error during an absorb does not undo the writes of that call.
    (a) When the storage layer fails on the statement that deletes the
    membership of [A] (the twelfth statement or commit of the call),
    [save_sects_data] completes with [D] added and [A] still a member.
    (b) When the second entry of the document raises, the handler of
    [save_sects_data] rolls back, yet the reconciliation of [s1] stays
    committed.  (c) The same holds for [save_tournaments_data]. *)
Theorem absorb_error_keeps_partial_write :
  (exists c',
     save_sects_data iron_sect_doc
       (with_faults iron_sect (repeat false 11 ++ [true])) = Ret tt c' /\
     map sm_user_id (sect_members (committed iron_sect)) = ["A"; "B"; "C"] /\
     map sm_user_id (sect_members (committed c')) = ["A"; "B"; "C"; "D"]) /\
  (exists c1 c',
     absorb_sects iron_sect_doc_then_junk iron_sect
     = Raise AttributeError c1 /\
     save_sects_data iron_sect_doc_then_junk iron_sect = Ret tt c' /\
     map sm_user_id (sect_members (committed c')) = ["B"; "C"; "D"]) /\
  (exists c1 c',
     absorb_tournaments cup_doc_then_junk cup = Raise TypeError c1 /\
     save_tournaments_data cup_doc_then_junk cup = Ret tt c' /\
     map tp_participant_id (tournament_participants (committed cup))
     = ["200"; "201"] /\
     map tp_participant_id (tournament_participants (committed c'))
     = ["201"; "202"]).
Proof.
  split; [| split].
  - eexists. split; [vm_compute; reflexivity |]. split; reflexivity.
  - do 2 eexists. split; [vm_compute; reflexivity |].
    split; [vm_compute; reflexivity |]. reflexivity.
  - do 2 eexists. split; [vm_compute; reflexivity |].
    split; [vm_compute; reflexivity |]. split; reflexivity.
Qed.



(** C3, counterexample: the economy step raises, the run returns false and
    the sect of the document is not migrated, although the sect step alone
    migrates it. *)
Lemma failed_step_skips_later_steps :
  exists c1 c2 c3,
    migrate_economy broken_economy_docs fresh = Raise AttributeError c1 /\
    migrate_json_to_db broken_economy_docs fresh = Ret false c2 /\
    sects (working c2) = [] /\
    migrate_sects broken_economy_docs fresh = Ret tt c3 /\
    map s_sect_id (sects (working c3)) = ["s1"].
Proof.
  do 3 eexists. split; [vm_compute; reflexivity |].
  split; [vm_compute; reflexivity |]. split; [reflexivity |].
  split; [vm_compute; reflexivity | reflexivity].
Qed.

(** C4, counterexample: removing an inventory item that is not there
    returns false. *)
Lemma remove_absent_inventory_item_fails :
  remove_inventory_item (PStr "u1") "Sword" 1 None fresh = Ret false fresh.
Proof. reflexivity. Qed.

Lemma removals_of_absent_targets_witness :
  quiet fresh /\
  remove_sect_member "s1" (PStr "u1") fresh = Ret true (committed_conn fresh).
Proof.
  split; [reflexivity |].
  apply (proj1 (proj2 (proj2 (removals_of_absent_targets fresh eq_refl)))).
  reflexivity.
Defined.

(** C5.  Migrating participants [200, -1, -2] with the bot name of [-1]
    stores the three rows the specification lists, but the projection gives
    the unnamed bot [-2] back as the string ["-2"], not as a number. *)
Theorem unnamed_bot_id_is_projected_as_text :
  exists c1 doc c2,
    migrate_json_to_db golem_docs fresh = Ret true c1 /\
    map (fun p => (tp_participant_id p, tp_is_bot p, tp_bot_name p))
        (tournament_participants (committed c1))
    = [ ("200", false, CNull);
        ("-1", true, CText "Iron Golem");
        ("-2", true, CNull) ] /\
    get_tournaments_data c1 = Ret doc c2 /\
    dict_get "t1" doc
    = Some (PDict
        [ ("title", PStr "Cup"); ("host", PStr "100");
          ("description", PStr ""); ("status", PStr "recruiting");
          ("participants", PList [PStr "200"; PInt (-1); PStr "-2"]);
          ("bot_names", PDict [("-1", PStr "Iron Golem")]) ]).
Proof.
  do 3 eexists. split; [vm_compute; reflexivity |].
  split; [reflexivity |]. split; [vm_compute; reflexivity | reflexivity].
Qed.

(** C8, counterexample: when the first statement of [get_user] fails and
    the rollback of its handler fails too, the call raises; and for a user
    without a row, the record of the second call is not that of the
    first. *)
Lemma get_user_raises_when_rollback_fails :
  get_user (PInt 42) (with_faults fresh [true; true])
  = Raise SqliteError fresh /\
  exists r1 c1 r2,
    get_user (PInt 42) fresh = Ret r1 c1 /\
    get_user (PInt 42) c1 = Ret r2 c1 /\
    dict_get "created_at" r1 = None /\
    dict_get "created_at" r2 = Some (PStr t0).
Proof.
  split; [reflexivity |].
  do 3 eexists. split; [vm_compute; reflexivity |].
  split; [vm_compute; reflexivity |]. split; reflexivity.
Qed.

Lemma get_or_create_user_idempotent_witness :
  quiet fresh /\
  exists r1 c1 r2,
    get_user (PInt 42) fresh = Ret r1 c1 /\
    get_user (PInt 42) c1 = Ret r2 c1 /\
    (forall k v, dict_get k r1 = Some v -> dict_get k r2 = Some v) /\
    (forall row, find_user (py_str (PInt 42)) (working fresh) = Some row ->
                 r1 = user_dict row /\ r2 = r1 /\ c1 = fresh) /\
    (find_user (py_str (PInt 42)) (working fresh) = None ->
     r1 = zero_user (py_str (PInt 42)) /\
     r2 = r1 ++ [("created_at", PStr (now fresh));
                 ("updated_at", PStr (now fresh))]) /\
    exists row, find_user (py_str (PInt 42)) (working c1) = Some row.
Proof.
  split; [reflexivity |].
  apply (proj2 (proj2 (get_or_create_user_idempotent (PInt 42) fresh
                         eq_refl))).
Defined.

Lemma add_inventory_item_keeps_metadata_witness :
  quiet two_swords /\
  exists c',
    add_inventory_item (PStr "u1") "Sword" 3 "common"
                       (Some (PDict [("forged", PStr "south")])) two_swords
    = Ret true c' /\
    map (fun r => (i_quantity r, i_metadata r)) (inventory (working c'))
    = [(5, PDict [("forged", PStr "north")])].
Proof.
  split; [reflexivity |].
  destruct (proj1 (add_inventory_item_keeps_metadata
                     (PStr "u1") "Sword" 3 "common"
                     (Some (PDict [("forged", PStr "south")]))
                     two_swords eq_refl)
                  (mk_inventory 1 "u1" "Sword" 2 "common"
                                (PDict [("forged", PStr "north")]))
                  eq_refl eq_refl) as (c' & E & Hi & _).
  exists c'. split; [exact E |]. rewrite Hi. reflexivity.
Defined.



Lemma absorb_of_projection_is_noop_witness :
  steady iron_sect /\ sects_wf (working iron_sect) /\
  save_sects_data (projected_sects (working iron_sect)) iron_sect
  = Ret tt iron_sect.
Proof.
  assert (S : steady iron_sect) by (split; reflexivity).
  assert (W : sects_wf (working iron_sect)).
  { split; [| reflexivity]. repeat constructor. simpl. intros []. }
  split; [exact S |]. split; [exact W |].
  exact (proj2 (absorb_of_projection_is_noop iron_sect S W)).
Defined.

Lemma absorb_reconciles_members_witness :
  steady iron_sect /\
  exists c',
    save_sects_data iron_sect_doc iron_sect = Ret tt c' /\
    committed c' = working c' /\
    members_reconciled
      (rows_of "s1" (working iron_sect)) ["B"; "C"; "D"]
      (rows_of "s1" (working c')).
Proof.
  assert (S : steady iron_sect) by (split; reflexivity).
  split; [exact S |].
  refine (absorb_reconciles_members "s1" iron_sect_doc
            [ ("name", PStr "Iron Sect"); ("leader", PStr "A");
              ("members", PList [PStr "B"; PStr "C"; PStr "D"]) ]
            ["B"; "C"; "D"] iron_sect S _ eq_refl eq_refl eq_refl _ _).
  - repeat constructor. simpl. intros [].
  - vm_compute. discriminate.
  - intros m Hm. vm_compute in Hm.
    destruct Hm as [<- | [<- | [<- | []]]]; vm_compute; discriminate.
Defined.

End Scenarios.

(** * Further properties *)

(** ** Inventory: merging, depletion, and the round trip *)

Section More_inventory.
Context {RT : PyRuntime}.

(** [add_inventory_item] without storage faults. *)
Lemma add_inventory_item_quiet user_id item_name quantity rarity metadata c :
  quiet c ->
  exists c1,
    quiet c1 /\ inventory (working c1) = inventory (working c) /\
    inventory_seq (working c1) = inventory_seq (working c) /\
    add_inventory_item user_id item_name quantity rarity metadata c =
    match find (inventory_match (py_str user_id) item_name (Some rarity))
               (inventory (working c)) with
    | Some it =>
        if in_int64 (i_quantity it + quantity) then
          Ret true
            (stored c1
               (with_inventory (working c1)
                  (map (set_quantity (i_id it) (i_quantity it + quantity))
                       (inventory (working c)))
                  (inventory_seq (working c))))
        else Raise OverflowError c1
    | None =>
        if in_int64 quantity then
          Ret true
            (stored c1
               (with_inventory (working c1)
                  (inventory (working c) ++
                   [mk_inventory (inventory_seq (working c) + 1)
                      (py_str user_id) item_name quantity rarity
                      (metadata_or_empty metadata)])
                  (inventory_seq (working c) + 1)))
        else Raise OverflowError c1
    end.
Proof.
  intros Q.
  destruct (get_user_quiet_inventory (PStr (py_str user_id)) c Q)
    as (r & c1 & E & Q1 & Hi & Hs).
  exists c1. split; [exact Q1 |]. split; [exact Hi |]. split; [exact Hs |].
  rewrite (add_inventory_item_after_get_user _ _ _ _ _ c c1 r E Q1).
  rewrite Hi, Hs. reflexivity.
Qed.

Lemma set_quantity_other id q (rows : list inventory_row) :
  (forall r, In r rows -> i_id r <> id) ->
  map (set_quantity id q) rows = rows.
Proof.
  intros H. rewrite <- (map_id rows) at 2. apply map_ext_in.
  intros r Hr. unfold set_quantity.
  destruct (i_id r =? id) eqn:E; [| reflexivity].
  apply Z.eqb_eq in E. exfalso. exact (H r Hr E).
Qed.

Lemma filter_other_id id (rows : list inventory_row) :
  (forall r, In r rows -> i_id r <> id) ->
  filter (fun r => negb (i_id r =? id)) rows = rows.
Proof.
  intros H. induction rows as [| r rows IH]; simpl; [reflexivity |].
  destruct (i_id r =? id) eqn:E; simpl.
  - apply Z.eqb_eq in E. exfalso. apply (H r); [left; reflexivity | exact E].
  - rewrite IH; [reflexivity |]. intros x Hx. apply H. right. exact Hx.
Qed.

Lemma ids_issued_below d :
  ids_issued d ->
  forall r, In r (inventory d) -> i_id r <> inventory_seq d + 1.
Proof. intros H r Hr. specialize (H r Hr). lia. Qed.

Lemma inventory_match_self user_id item_name rarity id q m :
  inventory_match user_id item_name (Some rarity)
    (mk_inventory id user_id item_name q rarity m) = true.
Proof. unfold inventory_match. simpl. rewrite !String.eqb_refl. reflexivity. Qed.

(** X1.  Two additions of the same (user, item, rarity) to a store that
    has no row for it leave one new row, whose quantity is the sum and
    whose metadata is that of the first call; an addition of the same item
    in another rarity that has no row gives a second row. *)
Theorem inventory_merge
        (user_id : pyval) (item_name rarity rarity' : string) (q1 q2 : Z)
        (m1 m2 : option pyval) (c : conn)
        (Q : quiet c) (Hids : ids_issued (working c))
        (Habsent : find (inventory_match (py_str user_id) item_name
                           (Some rarity)) (inventory (working c)) = None)
        (Habsent' : find (inventory_match (py_str user_id) item_name
                            (Some rarity')) (inventory (working c)) = None)
        (Hdiff : rarity' <> rarity)
        (H1 : in_int64 q1 = true) (H2 : in_int64 q2 = true)
        (H12 : in_int64 (q1 + q2) = true) :
  exists c1 c2 c3,
    add_inventory_item user_id item_name q1 rarity m1 c = Ret true c1 /\
    add_inventory_item user_id item_name q2 rarity m2 c1 = Ret true c2 /\
    inventory (working c2)
    = inventory (working c) ++
      [mk_inventory (inventory_seq (working c) + 1) (py_str user_id)
         item_name (q1 + q2) rarity (metadata_or_empty m1)] /\
    add_inventory_item user_id item_name q2 rarity' m2 c1 = Ret true c3 /\
    inventory (working c3)
    = inventory (working c) ++
      [mk_inventory (inventory_seq (working c) + 1) (py_str user_id)
         item_name q1 rarity (metadata_or_empty m1);
       mk_inventory (inventory_seq (working c) + 2) (py_str user_id)
         item_name q2 rarity' (metadata_or_empty m2)].
Proof.
  destruct (add_inventory_item_quiet user_id item_name q1 rarity m1 c Q)
    as (k1 & Qk1 & _ & _ & E1).
  rewrite Habsent, H1 in E1.
  set (row1 := mk_inventory (inventory_seq (working c) + 1) (py_str user_id)
                 item_name q1 rarity (metadata_or_empty m1)) in *.
  set (c1 := stored k1 (with_inventory (working k1)
                          (inventory (working c) ++ [row1])
                          (inventory_seq (working c) + 1))) in *.
  assert (Q1 : quiet c1) by exact Qk1.
  assert (F1 : find (inventory_match (py_str user_id) item_name (Some rarity))
                    (inventory (working c1)) = Some row1).
  { simpl. rewrite (find_app_last _ _ _ Habsent).
    unfold row1. rewrite inventory_match_self. reflexivity. }
  assert (F1' : find (inventory_match (py_str user_id) item_name
                        (Some rarity')) (inventory (working c1)) = None).
  { simpl. rewrite (find_app_last _ _ _ Habsent').
    unfold row1, inventory_match. simpl.
    rewrite !String.eqb_refl. simpl.
    destruct (rarity =? rarity')%string eqn:E; [| reflexivity].
    apply String.eqb_eq in E. congruence. }
  destruct (add_inventory_item_quiet user_id item_name q2 rarity m2 c1 Q1)
    as (k2 & _ & _ & _ & E2).
  rewrite F1 in E2. simpl i_quantity in E2. rewrite H12 in E2.
  destruct (add_inventory_item_quiet user_id item_name q2 rarity' m2 c1 Q1)
    as (k3 & _ & _ & _ & E3).
  rewrite F1', H2 in E3.
  do 3 eexists. split; [exact E1 |]. split; [exact E2 |].
  split; [| split; [exact E3 |]].
  - simpl. rewrite map_app. simpl.
    rewrite set_quantity_other by (apply ids_issued_below, Hids).
    unfold set_quantity. simpl. rewrite Z.eqb_refl. reflexivity.
  - simpl. rewrite <- app_assoc. simpl.
    replace (inventory_seq (working c) + 1 + 1)
      with (inventory_seq (working c) + 2) by lia.
    reflexivity.
Qed.

(** [remove_inventory_item] without storage faults. *)
Lemma remove_inventory_item_quiet user_id item_name quantity rarity c :
  quiet c ->
  remove_inventory_item user_id item_name quantity rarity c =
  match find (inventory_match (py_str user_id) item_name
                (rarity_filter rarity)) (inventory (working c)) with
  | None => Ret false c
  | Some it =>
      if i_quantity it <=? quantity then
        Ret true
          (stored c
             (with_inventory (working c)
                (filter (fun r => negb (i_id r =? i_id it))
                        (inventory (working c)))
                (inventory_seq (working c))))
      else if in_int64 (i_quantity it - quantity) then
        Ret true
          (stored c
             (with_inventory (working c)
                (map (set_quantity (i_id it) (i_quantity it - quantity))
                     (inventory (working c)))
                (inventory_seq (working c))))
      else Raise OverflowError c
  end.
Proof.
  intros Q. unfold remove_inventory_item, try_sqlite.
  unfold bind at 1. rewrite (query_quiet _ c Q).
  destruct (find _ (inventory (working c))) as [it |]; [| reflexivity].
  unfold bind. destruct (i_quantity it <=? quantity).
  - rewrite (update_quiet _ c Q). rewrite commit_quiet by exact Q.
    reflexivity.
  - destruct (in_int64 (i_quantity it - quantity)) eqn:Hq.
    + rewrite (bind_value_int _ c Hq), (update_quiet _ c Q).
      rewrite commit_quiet by exact Q. reflexivity.
    + rewrite (bind_value_overflow _ c Hq). reflexivity.
Qed.

(** X2.  Adding a quantity of an item to a store that has no row for the
    (user, item, rarity) and then removing at least that quantity, naming
    the rarity, restores the inventory rows; only the id counter has moved
    on.  Removing less leaves the row with the difference. *)
Theorem add_then_remove_inventory_item
        (user_id : pyval) (item_name rarity : string) (q q' : Z)
        (metadata : option pyval) (c : conn)
        (Q : quiet c) (Hids : ids_issued (working c))
        (Hrarity : rarity <> ""%string)
        (Habsent : find (inventory_match (py_str user_id) item_name
                           (Some rarity)) (inventory (working c)) = None)
        (Hq : in_int64 q = true) (Hq' : in_int64 (q - q') = true) :
  exists c1 c2,
    add_inventory_item user_id item_name q rarity metadata c = Ret true c1 /\
    remove_inventory_item user_id item_name q' (Some rarity) c1
    = Ret true c2 /\
    inventory_seq (working c2) = inventory_seq (working c) + 1 /\
    inventory (working c2)
    = if q <=? q' then inventory (working c)
      else inventory (working c) ++
           [mk_inventory (inventory_seq (working c) + 1) (py_str user_id)
              item_name (q - q') rarity (metadata_or_empty metadata)].
Proof.
  destruct (add_inventory_item_quiet user_id item_name q rarity metadata c Q)
    as (k1 & Qk1 & _ & _ & E1).
  rewrite Habsent, Hq in E1.
  set (row1 := mk_inventory (inventory_seq (working c) + 1) (py_str user_id)
                 item_name q rarity (metadata_or_empty metadata)) in *.
  set (c1 := stored k1 (with_inventory (working k1)
                          (inventory (working c) ++ [row1])
                          (inventory_seq (working c) + 1))) in *.
  assert (Q1 : quiet c1) by exact Qk1.
  assert (F1 : find (inventory_match (py_str user_id) item_name
                       (rarity_filter (Some rarity)))
                    (inventory (working c1)) = Some row1).
  { unfold rarity_filter.
    destruct (rarity =? "")%string eqn:E;
      [apply String.eqb_eq in E; contradiction |].
    simpl. rewrite (find_app_last _ _ _ Habsent).
    unfold row1. rewrite inventory_match_self. reflexivity. }
  pose proof (remove_inventory_item_quiet user_id item_name q' (Some rarity)
                c1 Q1) as E2.
  rewrite F1 in E2. simpl i_quantity in E2. simpl i_id in E2.
  exists c1. destruct (q <=? q') eqn:Hle.
  - eexists. split; [exact E1 |]. split; [exact E2 |]. split; [reflexivity |].
    simpl. rewrite filter_app. simpl. rewrite Z.eqb_refl. simpl.
    rewrite filter_other_id by (apply ids_issued_below, Hids).
    apply app_nil_r.
  - rewrite Hq' in E2.
    eexists. split; [exact E1 |]. split; [exact E2 |]. split; [reflexivity |].
    simpl. rewrite map_app. simpl.
    rewrite set_quantity_other by (apply ids_issued_below, Hids).
    unfold set_quantity. simpl. rewrite Z.eqb_refl. reflexivity.
Qed.

Lemma In_map_set_quantity id q rows r :
  In r (map (set_quantity id q) rows) ->
  exists r0, In r0 rows /\
    (r = r0 \/ (i_id r0 = id /\ i_quantity r = q)).
Proof.
  intros H. apply in_map_iff in H. destruct H as (r0 & <- & Hr0).
  exists r0. split; [exact Hr0 |]. unfold set_quantity.
  destruct (i_id r0 =? id) eqn:E; [| left; reflexivity].
  right. split; [apply Z.eqb_eq, E | reflexivity].
Qed.

(** X3.  Stored quantities stay positive: on a store whose inventory
    quantities are all positive, an addition of a positive quantity and a
    removal of any quantity leave them all positive, and the ids stay
    below the counter.  A removal of the stored quantity or more deletes
    the row instead of storing zero or less. *)
Theorem inventory_quantities_stay_positive
        (user_id : pyval) (item_name rarity : string) (q q' : Z)
        (filter_rarity : option string) (metadata : option pyval)
        (c c1 c2 : conn) (b1 b2 : bool)
        (Q : quiet c)
        (Hpos : quantities_positive (working c))
        (Hids : ids_issued (working c))
        (Hq : 0 < q)
        (Hadd : add_inventory_item user_id item_name q rarity metadata c
                = Ret b1 c1)
        (Hrem : remove_inventory_item user_id item_name q' filter_rarity c
                = Ret b2 c2) :
  (quantities_positive (working c1) /\ ids_issued (working c1)) /\
  (quantities_positive (working c2) /\ ids_issued (working c2)).
Proof.
  split.
  - destruct (add_inventory_item_quiet user_id item_name q rarity metadata
                c Q) as (k1 & Qk1 & Hi & Hs & E1).
    rewrite Hadd in E1.
    destruct (find _ (inventory (working c))) as [it |] eqn:F.
    + destruct (in_int64 _); [| discriminate E1].
      injection E1 as _ Hc1. subst c1. simpl.
      apply find_some in F. destruct F as [Hit _].
      split.
      * intros r Hr. simpl in Hr.
        apply In_map_set_quantity in Hr. destruct Hr as (r0 & Hr0 & [-> | [_ ->]]).
        -- exact (Hpos r0 Hr0).
        -- specialize (Hpos it Hit). lia.
      * intros r Hr. simpl in Hr |- *.
        apply in_map_iff in Hr. destruct Hr as (r0 & <- & Hr0).
        unfold set_quantity. destruct (_ =? _); simpl; exact (Hids r0 Hr0).
    + destruct (in_int64 _); [| discriminate E1].
      injection E1 as _ Hc1. subst c1. simpl.
      split.
      * intros r Hr. simpl in Hr. apply in_app_iff in Hr.
        destruct Hr as [Hr | [<- | []]]; [exact (Hpos r Hr) | exact Hq].
      * intros r Hr. simpl in Hr |- *. apply in_app_iff in Hr.
        destruct Hr as [Hr | [<- | []]]; [specialize (Hids r Hr); lia |].
        simpl. lia.
  - rewrite (remove_inventory_item_quiet _ _ _ _ c Q) in Hrem.
    destruct (find _ (inventory (working c))) as [it |] eqn:F.
    + destruct (i_quantity it <=? q') eqn:Hle.
      * injection Hrem as _ Hc2. subst c2. simpl. split.
        -- intros r Hr. simpl in Hr. apply filter_In in Hr.
           exact (Hpos r (proj1 Hr)).
        -- intros r Hr. simpl in Hr |- *. apply filter_In in Hr.
           exact (Hids r (proj1 Hr)).
      * destruct (in_int64 _); [| discriminate Hrem].
        injection Hrem as _ Hc2. subst c2. simpl.
        apply Z.leb_gt in Hle. split.
        -- intros r Hr. simpl in Hr.
           apply In_map_set_quantity in Hr.
           destruct Hr as (r0 & Hr0 & [-> | [_ ->]]);
             [exact (Hpos r0 Hr0) | lia].
        -- intros r Hr. simpl in Hr |- *.
           apply in_map_iff in Hr. destruct Hr as (r0 & <- & Hr0).
           unfold set_quantity. destruct (_ =? _); simpl; exact (Hids r0 Hr0).
    + injection Hrem as _ Hc2. subst c2. split; assumption.
Qed.

End More_inventory.

(** ** Jobs *)

Lemma dict_get_dict_set_same k v (d : pydict) :
  dict_get k (dict_set k v d) = Some v.
Proof.
  induction d as [| [k' v'] d IH]; simpl.
  - rewrite String.eqb_refl. reflexivity.
  - destruct (k' =? k)%string eqn:E; simpl.
    + rewrite String.eqb_refl. reflexivity.
    + rewrite E. exact IH.
Qed.

Lemma dict_get_dict_set_other k k' v (d : pydict) :
  k' <> k -> dict_get k (dict_set k' v d) = dict_get k d.
Proof.
  intros Hk. induction d as [| [k0 v0] d IH]; simpl.
  - destruct (k' =? k)%string eqn:E; [| reflexivity].
    apply String.eqb_eq in E. contradiction.
  - destruct (k0 =? k')%string eqn:E0; simpl.
    + apply String.eqb_eq in E0. subst k0.
      destruct (k' =? k)%string eqn:E; [| reflexivity].
      apply String.eqb_eq in E. contradiction.
    + destruct (k0 =? k)%string; [reflexivity | exact IH].
Qed.

Lemma find_app_one {A} (f : A -> bool) (l : list A) (x : A) :
  find f (l ++ [x])
  = match find f l with
    | Some y => Some y
    | None => if f x then Some x else None
    end.
Proof.
  induction l as [| a l IH]; simpl; [reflexivity |].
  destruct (f a); [reflexivity | exact IH].
Qed.

Lemma find_filter_implied {A} (f g : A -> bool) (l : list A) :
  (forall x, f x = true -> g x = true) ->
  find f (filter g l) = find f l.
Proof.
  intros H. induction l as [| a l IH]; simpl; [reflexivity |].
  destruct (g a) eqn:Eg; simpl.
  - destruct (f a); [reflexivity | exact IH].
  - destruct (f a) eqn:Ef; [| exact IH].
    rewrite (H a Ef) in Eg. discriminate.
Qed.

Section More_jobs.
Context {RT : PyRuntime}.

(** The entry of a job name in the dictionary of [get_jobs] comes from the
    last row of that name. *)
Lemma jobs_dict_get (rows : list job_row) (acc : pydict) k :
  dict_get k
    (fold_left
       (fun acc job =>
          dict_set (j_job_name job)
            (PList [cell_to_py (j_min_pay job); cell_to_py (j_max_pay job)])
            acc) rows acc)
  = match find (fun r => (j_job_name r =? k)%string) (rev rows) with
    | Some r => Some (PList [cell_to_py (j_min_pay r);
                             cell_to_py (j_max_pay r)])
    | None => dict_get k acc
    end.
Proof.
  revert acc. induction rows as [| r rows IH]; intros acc; simpl;
    [reflexivity |].
  rewrite IH, find_app_one.
  destruct (find _ (rev rows)); [reflexivity |].
  destruct (j_job_name r =? k)%string eqn:E.
  - apply String.eqb_eq in E. subst k. apply dict_get_dict_set_same.
  - apply dict_get_dict_set_other. intros Hk.
    rewrite Hk, String.eqb_refl in E. discriminate.
Qed.

Lemma set_job_quiet job_name min_pay max_pay lo hi c :
  quiet c ->
  bind_param min_pay = inr lo -> bind_param max_pay = inr hi ->
  set_job job_name min_pay max_pay c
  = Ret true
      (stored c
         (with_jobs (working c)
            (filter (fun r => negb (j_job_name r =? job_name)%string)
                    (jobs (working c))
             ++ [mk_job job_name (aff_numeric lo) (aff_numeric hi)]))).
Proof.
  intros Q Hlo Hhi. unfold set_job, try_sqlite, bind, bind_value.
  rewrite Hlo, Hhi. unfold ret.
  rewrite (update_quiet _ c Q). rewrite commit_quiet by exact Q.
  reflexivity.
Qed.

Lemma get_jobs_quiet c :
  quiet c -> get_jobs c = Ret (jobs_dict (jobs (working c))) c.
Proof.
  intros Q. unfold get_jobs, try_sqlite. rewrite (query_quiet _ c Q).
  reflexivity.
Qed.

(** The dictionary of [get_jobs] after the INSERT OR REPLACE of a job. *)
Lemma jobs_dict_set_job (rows : list job_row) job_name lo hi k :
  dict_get k
    (jobs_dict
       (filter (fun r => negb (j_job_name r =? job_name)%string) rows
        ++ [mk_job job_name lo hi]))
  = if (job_name =? k)%string
    then Some (PList [cell_to_py lo; cell_to_py hi])
    else dict_get k (jobs_dict rows).
Proof.
  unfold jobs_dict. rewrite !jobs_dict_get, rev_app_distr. simpl.
  destruct (job_name =? k)%string eqn:E; [reflexivity |].
  rewrite <- filter_rev.
  rewrite find_filter_implied; [reflexivity |].
  intros x Hx. apply String.eqb_eq in Hx. rewrite Hx.
  rewrite String.eqb_sym, E. reflexivity.
Qed.

(** X4.  After [set_job] with pays that can be bound and are not texts
    (integers of 64 bits, booleans, [None]), the dictionary of [get_jobs]
    maps the job name to the two pays as they were bound, and every other
    job name to what it was mapped to before. *)
Theorem set_job_then_get_jobs
        (job_name : string) (min_pay max_pay : pyval) (lo hi : cell)
        (c : conn)
        (Q : quiet c)
        (Hlo : bind_param min_pay = inr lo)
        (Hhi : bind_param max_pay = inr hi)
        (Tlo : forall s, min_pay <> PStr s)
        (Thi : forall s, max_pay <> PStr s) :
  exists c' d,
    set_job job_name min_pay max_pay c = Ret true c' /\
    get_jobs c' = Ret d c' /\
    dict_get job_name d = Some (PList [cell_to_py lo; cell_to_py hi]) /\
    forall other, other <> job_name ->
      dict_get other d = dict_get other (jobs_dict (jobs (working c))).
Proof.
  eexists. eexists.
  split; [exact (set_job_quiet job_name _ _ lo hi c Q Hlo Hhi) |].
  split; [apply get_jobs_quiet; exact Q |].
  cbn [working stored jobs with_jobs]. split.
  - rewrite jobs_dict_set_job, String.eqb_refl.
    rewrite <- (bound_of_bind_param _ _ Hlo), <- (bound_of_bind_param _ _ Hhi).
    rewrite (aff_numeric_bound _ Tlo), (aff_numeric_bound _ Thi).
    reflexivity.
  - intros other Hother. rewrite jobs_dict_set_job.
    destruct (job_name =? other)%string eqn:E; [| reflexivity].
    apply String.eqb_eq in E. congruence.
Qed.

(** The loop of [save_jobs_data] over integer pay ranges. *)
Lemma save_jobs_loop (data : pydict) :
  forallb int_pay_range data = true ->
  NoDup (map fst data) ->
  forall c, quiet c ->
  exists c',
    for_each data (fun entry =>
      match snd entry with
      | PList (lo :: hi :: _) => set_job (fst entry) lo hi ;;; ret tt
      | _ => ret tt
      end) c = Ret tt c' /\
    quiet c' /\
    forall k,
      dict_get k (jobs_dict (jobs (working c')))
      = match dict_get k data with
        | Some v => Some v
        | None => dict_get k (jobs_dict (jobs (working c)))
        end.
Proof.
  induction data as [| [name v] data IH]; intros Hp Hn c Q.
  - exists c. simpl. auto.
  - simpl in Hp. apply andb_true_iff in Hp. destruct Hp as [Hv Hp].
    inversion Hn as [| x xs Hnotin Hn']; subst.
    unfold int_pay_range in Hv. simpl in Hv.
    destruct v as [| | | | l |]; try discriminate.
    destruct l as [| [| | lo | | |] [| [| | hi | | |] [| ? ?]]];
      try discriminate.
    apply andb_true_iff in Hv. destruct Hv as [Hlo Hhi].
    cbn [for_each fst snd]. unfold bind at 1. unfold bind at 1.
    rewrite (set_job_quiet name (PInt lo) (PInt hi) (CInt lo) (CInt hi) c Q)
      by (simpl; rewrite ?Hlo, ?Hhi; reflexivity).
    unfold ret at 1. cbv beta iota.
    match goal with
    | |- exists c', for_each data _ ?k = _ /\ _ =>
        destruct (IH Hp Hn' k Q) as (c' & Hrun & Q' & Hget)
    end.
    exists c'. split; [exact Hrun |]. split; [exact Q' |].
    intros k. rewrite Hget. cbn [dict_get working stored jobs with_jobs].
    rewrite jobs_dict_set_job.
    destruct (name =? k)%string eqn:E.
    + apply String.eqb_eq in E. subst k.
      destruct (dict_get name data) eqn:G; [| reflexivity].
      exfalso. apply Hnotin.
      clear - G. induction data as [| [k0 v0] data IHd]; simpl in *;
        [discriminate |].
      destruct (k0 =? name)%string eqn:E0;
        [left; apply String.eqb_eq, E0 | right; auto].
    + reflexivity.
Qed.

(** X5.  [save_jobs_data] adds and replaces, and never deletes.  For a
    document without repeated keys whose values are pairs of integers,
    [get_jobs] afterwards maps every job of the document to its pair, and
    every other job to what it was mapped to. *)
Theorem save_jobs_data_then_get_jobs
        (data : pydict) (c : conn)
        (Q : quiet c)
        (Hpairs : forallb int_pay_range data = true)
        (Hkeys : NoDup (map fst data)) :
  exists c' d,
    save_jobs_data data c = Ret tt c' /\
    get_jobs c' = Ret d c' /\
    forall k,
      dict_get k d
      = match dict_get k data with
        | Some v => Some v
        | None => dict_get k (jobs_dict (jobs (working c)))
        end.
Proof.
  destruct (save_jobs_loop data Hpairs Hkeys c Q) as (c' & Hrun & Q' & Hget).
  exists c', (jobs_dict (jobs (working c'))).
  split; [unfold save_jobs_data, try_exception; rewrite Hrun; reflexivity |].
  split; [apply get_jobs_quiet, Q' | exact Hget].
Qed.

End More_jobs.

(** ** Readers *)

Section More_readers.
Context {RT : PyRuntime}.

(** A query guarded by a handler that only returns a default. *)
Lemma guarded_query_unchanged {A B} (q : db -> A) (k : A -> B) (dflt : B) c :
  exists b c',
    try_sqlite (a <- query q ;; ret (k a)) (ret dflt) c = Ret b c' /\
    working c' = working c /\ committed c' = committed c /\
    (b = dflt \/ (hd false (faults c) = false /\ b = k (q (working c)))).
Proof.
  unfold try_sqlite, bind, query, execute, ret, next_fault.
  destruct c as [cm w fs ts]; simpl.
  destruct fs as [| [|] fs]; simpl; eauto 8.
Qed.

(** X6.  The readers other than [get_user] and [get_tournament] never
    write and never raise: whatever storage faults are pending, each
    returns, leaves the working copy and the committed database as they
    were, and its result is either what the store holds or the method's
    default ([[]], [{}], [None], or the zero-valued job record). *)
Theorem readers_never_write (c : conn) :
  (forall user_id, exists r c',
     get_inventory user_id c = Ret r c' /\
     working c' = working c /\ committed c' = committed c /\
     (r = [] \/
      r = filter (fun x => (i_user_id x =? py_str user_id)%string)
                 (inventory (working c)))) /\
  (exists r c',
     get_jobs c = Ret r c' /\
     working c' = working c /\ committed c' = committed c /\
     (r = [] \/ r = jobs_dict (jobs (working c)))) /\
  (forall user_id job_name, exists r c',
     get_user_job user_id job_name c = Ret r c' /\
     working c' = working c /\ committed c' = committed c /\
     (r = zero_user_job (py_str user_id) job_name \/
      exists row,
        find (user_job_match (py_str user_id) job_name)
             (user_jobs (working c)) = Some row /\
        r = user_job_dict row)) /\
  (forall item_name, exists r c',
     get_store_item item_name c = Ret r c' /\
     working c' = working c /\ committed c' = committed c /\
     (r = None \/
      r = option_map store_item_dict (find_store_item item_name (working c))))
  /\
  (forall sect_id, exists r c',
     get_sect sect_id c = Ret r c' /\
     working c' = working c /\ committed c' = committed c /\
     (r = None \/ r = option_map sect_dict (find_sect sect_id (working c))))
  /\
  (forall sect_id, exists r c',
     get_sect_members sect_id c = Ret r c' /\
     working c' = working c /\ committed c' = committed c /\
     (r = [] \/ r = select_sect_members sect_id (working c))) /\
  (forall tournament_id, exists r c',
     get_tournament_participants tournament_id c = Ret r c' /\
     working c' = working c /\ committed c' = committed c /\
     (r = [] \/ r = select_participants tournament_id (working c))).
Proof.
  repeat split.
  - intros user_id.
    destruct (guarded_query_unchanged
                (fun d => filter (fun x => (i_user_id x =? py_str user_id)%string)
                                 (inventory d)) (fun x => x) [] c)
      as (b & c' & E & Hw & Hc & H).
    exists b, c'. split; [| intuition].
    rewrite <- E. unfold get_inventory, try_sqlite, bind, ret.
    destruct (query _ c); reflexivity.
  - destruct (guarded_query_unchanged (fun d => jobs_dict (jobs d))
                (fun x => x) [] c) as (b & c' & E & Hw & Hc & H).
    exists b, c'. split; [| intuition].
    rewrite <- E. unfold get_jobs, try_sqlite, bind, ret.
    destruct (query _ c); reflexivity.
  - intros user_id job_name.
    destruct (guarded_query_unchanged
                (fun d => find (user_job_match (py_str user_id) job_name)
                               (user_jobs d))
                (fun job => match job with
                            | Some r => user_job_dict r
                            | None => zero_user_job (py_str user_id) job_name
                            end)
                (zero_user_job (py_str user_id) job_name) c)
      as (b & c' & E & Hw & Hc & H).
    exists b, c'. split; [| split; [exact Hw | split; [exact Hc |]]].
    + rewrite <- E. unfold get_user_job, try_sqlite, bind, ret.
      destruct (query _ c) as [[r |] c1 | e c1]; reflexivity.
    + destruct H as [H | [_ H]]; [left; exact H |].
      destruct (find _ (user_jobs (working c))) as [row |];
        [right; exists row; auto | left; exact H].
  - intros item_name.
    destruct (guarded_query_unchanged (find_store_item item_name)
                (option_map store_item_dict) None c)
      as (b & c' & E & Hw & Hc & H).
    exists b, c'. split; [| intuition].
    rewrite <- E. unfold get_store_item, try_sqlite, bind, ret.
    destruct (query _ c) as [[r |] c1 | e c1]; reflexivity.
  - intros sect_id.
    destruct (guarded_query_unchanged (find_sect sect_id)
                (option_map sect_dict) None c)
      as (b & c' & E & Hw & Hc & H).
    exists b, c'. split; [| intuition].
    rewrite <- E. unfold get_sect, try_sqlite, bind, ret.
    destruct (query _ c) as [[r |] c1 | e c1]; reflexivity.
  - intros sect_id.
    destruct (guarded_query_unchanged (select_sect_members sect_id)
                (fun x => x) [] c) as (b & c' & E & Hw & Hc & H).
    exists b, c'. split; [| intuition].
    rewrite <- E. unfold get_sect_members, try_sqlite, bind, ret.
    destruct (query _ c); reflexivity.
  - intros tournament_id.
    destruct (guarded_query_unchanged (select_participants tournament_id)
                (fun x => x) [] c) as (b & c' & E & Hw & Hc & H).
    exists b, c'. split; [| intuition].
    rewrite <- E. unfold get_tournament_participants, try_sqlite, bind, ret.
    destruct (query _ c); reflexivity.
Qed.

End More_readers.

(** ** Job progress *)

Lemma find_map_matching {A} (f : A -> bool) (g : A -> A) (l : list A) :
  (forall x, f x = true -> f (g x) = true) ->
  find f (map (fun x => if f x then g x else x) l) = option_map g (find f l).
Proof.
  intros H. induction l as [| a l IH]; simpl; [reflexivity |].
  destruct (f a) eqn:E.
  - rewrite (H a E). reflexivity.
  - rewrite E. exact IH.
Qed.

Lemma existsb_find_some {A} (f : A -> bool) (l : list A) x :
  find f l = Some x -> existsb f l = true.
Proof.
  intros H. apply find_some in H. apply existsb_exists. exists x. exact H.
Qed.

Lemma existsb_find_none {A} (f : A -> bool) (l : list A) :
  find f l = None -> existsb f l = false.
Proof.
  intros H. destruct (existsb f l) eqn:E; [| reflexivity].
  apply existsb_exists in E. destruct E as (x & Hx & Hf).
  rewrite (find_none _ _ H x Hx) in Hf. discriminate.
Qed.

Section More_job_progress.
Context {RT : PyRuntime}.

Lemma get_user_quiet_user_jobs user_id c :
  quiet c ->
  exists r c1, get_user user_id c = Ret r c1 /\ quiet c1 /\
    user_jobs (working c1) = user_jobs (working c).
Proof.
  intros Q. rewrite (get_user_quiet _ c Q).
  destruct (find_user _ _); eauto 8.
Qed.

Lemma get_user_job_quiet user_id job_name c :
  quiet c ->
  get_user_job user_id job_name c
  = Ret (match find (user_job_match (py_str user_id) job_name)
                    (user_jobs (working c)) with
         | Some r => user_job_dict r
         | None => zero_user_job (py_str user_id) job_name
         end) c.
Proof.
  intros Q. unfold get_user_job, try_sqlite, bind.
  rewrite (query_quiet _ c Q).
  destruct (find _ (user_jobs (working c))); reflexivity.
Qed.

(** X7.  Recording experience and reading it back: after
    [update_user_job] with [{xp: n}], whether or not the (user, job) pair
    had a row, [get_user_job] gives [n] as the xp, and the rank and the
    last work time that [get_user_job] gave before ([apprentice] and none
    for a pair without a row). *)
Theorem update_user_job_then_get_user_job
        (user_id : pyval) (job_name : string) (n : Z) (c : conn) (old : pydict)
        (c0 : conn)
        (Q : quiet c) (Hn : in_int64 n = true)
        (Hold : get_user_job user_id job_name c = Ret old c0) :
  exists c' c'' r,
    update_user_job user_id job_name [("xp", PInt n)] c = Ret true c' /\
    get_user_job user_id job_name c' = Ret r c'' /\
    dict_get "xp" r = Some (PInt n) /\
    dict_get "rank" r = dict_get "rank" old /\
    dict_get "last_work" r = dict_get "last_work" old.
Proof.
  rewrite (get_user_job_quiet _ _ c Q) in Hold.
  injection Hold as Hold _. subst old.
  destruct (get_user_quiet_user_jobs (PStr (py_str user_id)) c Q)
    as (u & c1 & E & Q1 & Hj).
  destruct (find (user_job_match (py_str user_id) job_name)
                 (user_jobs (working c))) as [row0 |] eqn:F.
  - (* the pair has a row: UPDATE *)
    set (g := fun r : user_job_row =>
                mk_user_job (uj_user_id r) (uj_job_name r) (CInt n)
                            (uj_rank r) (uj_last_work r)).
    set (c' := stored c1
                 (with_user_jobs (working c1)
                    (map (fun r => if user_job_match (py_str user_id)
                                        job_name r
                                   then g r else r)
                         (user_jobs (working c))))).
    assert (Hrun : update_user_job user_id job_name [("xp", PInt n)] c
                   = Ret true c').
    { unfold update_user_job, try_sqlite.
      unfold bind at 1. rewrite E.
      unfold bind at 1. rewrite (query_quiet _ c1 Q1), Hj.
      rewrite (existsb_find_some _ _ _ F).
      cbn [filter fst snd String.eqb Ascii.eqb Bool.eqb orb negb map].
      unfold bind, bind_values. cbn [bind_params bind_param].
      rewrite Hn. unfold ret. cbn [combine].
      rewrite (execute_quiet _ c1 Q1).
      change (known_cols set_user_job_col
                (default_user_job (py_str user_id) job_name)
                [("xp", CInt n)]) with true.
      cbv iota.
      rewrite (update_where_map _ _ _ g) by reflexivity.
      rewrite Hj. rewrite commit_quiet by exact Q1. reflexivity. }
    exists c', c', (user_job_dict (g row0)).
    split; [exact Hrun |]. split; [| repeat split].
    rewrite (get_user_job_quiet _ _ c' Q1). simpl.
    rewrite find_map_matching by (intros x Hx; exact Hx).
    rewrite F. reflexivity.
  - (* the pair has no row: INSERT *)
    set (row := mk_user_job (py_str user_id) job_name (CInt n)
                            (CText "apprentice") CNull).
    assert (Hrun : update_user_job user_id job_name [("xp", PInt n)] c
                   = Ret true
                       (stored c1
                          (with_user_jobs (working c1)
                             (user_jobs (working c1) ++ [row])))).
    { apply (update_user_job_insert user_id job_name [("xp", PInt n)]
               [CInt n; CText "apprentice"] row u c c1 E Q1).
      - rewrite Hj. apply existsb_find_none, F.
      - simpl. rewrite Hn. reflexivity.
      - reflexivity. }
    eexists. eexists. exists (user_job_dict row).
    split; [exact Hrun |]. split; [| repeat split].
    rewrite get_user_job_quiet by exact Q1. simpl.
    rewrite Hj, (find_app_last _ _ _ F). unfold row, user_job_match. simpl.
    rewrite !String.eqb_refl. reflexivity.
Qed.

End More_job_progress.

(** ** Store items *)

Lemma find_filter_rejected {A} (f : A -> bool) (l : list A) :
  find f (filter (fun x => negb (f x)) l) = None.
Proof.
  induction l as [| a l IH]; simpl; [reflexivity |].
  destruct (f a) eqn:E; simpl; [exact IH |]. rewrite E. exact IH.
Qed.

Lemma find_map_elsewhere {A} (f : A -> bool) (h : A -> A) (l : list A) :
  (forall x, f (h x) = f x) -> (forall x, f x = true -> h x = x) ->
  find f (map h l) = find f l.
Proof.
  intros H1 H2. induction l as [| a l IH]; simpl; [reflexivity |].
  rewrite H1. destruct (f a) eqn:E; [rewrite (H2 a E); reflexivity | exact IH].
Qed.

Section More_store_items.
Context {RT : PyRuntime}.

Lemma get_store_item_quiet item_name c :
  quiet c ->
  get_store_item item_name c
  = Ret (option_map store_item_dict (find_store_item item_name (working c))) c.
Proof.
  intros Q. unfold get_store_item, try_sqlite, bind.
  rewrite (query_quiet _ c Q).
  destruct (find_store_item item_name (working c)); reflexivity.
Qed.

Lemma set_store_item_quiet item_name price description stock min_rank rarity
      metadata c_price c_description c_stock c_min_rank c_rarity c :
  quiet c ->
  bind_param price = inr c_price ->
  bind_param description = inr c_description ->
  bind_param stock = inr c_stock ->
  bind_param min_rank = inr c_min_rank ->
  bind_param rarity = inr c_rarity ->
  set_store_item item_name price description stock min_rank rarity metadata c
  = Ret true
      (stored c
         (with_store_items (working c)
            (filter (fun r => negb (si_item_name r =? item_name)%string)
                    (store_items (working c))
             ++ [mk_store_item item_name (aff_numeric c_price)
                   (aff_text c_description) (aff_numeric c_stock)
                   (aff_numeric c_min_rank) (aff_text c_rarity)
                   (metadata_or_empty metadata)]))).
Proof.
  intros Q H1 H2 H3 H4 H5. unfold set_store_item, try_sqlite, bind, bind_value.
  rewrite H1, H2, H3, H4, H5. unfold ret.
  rewrite (update_quiet _ c Q). rewrite commit_quiet by exact Q.
  reflexivity.
Qed.

(** X8.  After [set_store_item] with values that can be bound, the price,
    the stock and the minimal rank not being texts, [get_store_item] of
    that name gives the price, the stock and the minimal rank as they were
    bound, the description and the rarity as texts, and the metadata that
    was passed (an empty dictionary when it was omitted); the record of
    every other item is what it was. *)
Theorem set_store_item_then_get_store_item
        (item_name : string) (price description stock min_rank rarity : pyval)
        (metadata : option pyval)
        (c_price c_description c_stock c_min_rank c_rarity : cell) (c : conn)
        (Q : quiet c)
        (H1 : bind_param price = inr c_price)
        (H2 : bind_param description = inr c_description)
        (H3 : bind_param stock = inr c_stock)
        (H4 : bind_param min_rank = inr c_min_rank)
        (H5 : bind_param rarity = inr c_rarity)
        (T1 : forall s, price <> PStr s)
        (T3 : forall s, stock <> PStr s)
        (T4 : forall s, min_rank <> PStr s) :
  exists c',
    set_store_item item_name price description stock min_rank rarity
                   metadata c = Ret true c' /\
    get_store_item item_name c'
    = Ret (Some [ ("item_name", PStr item_name);
                  ("price", cell_to_py c_price);
                  ("description", cell_to_py (aff_text c_description));
                  ("stock", cell_to_py c_stock);
                  ("min_rank", cell_to_py c_min_rank);
                  ("rarity", cell_to_py (aff_text c_rarity));
                  ("metadata", metadata_or_empty metadata) ]) c' /\
    forall other, other <> item_name ->
      get_store_item other c'
      = Ret (option_map store_item_dict (find_store_item other (working c)))
            c'.
Proof.
  eexists.
  split; [exact (set_store_item_quiet item_name _ _ _ _ _ metadata _ _ _ _ _
                   c Q H1 H2 H3 H4 H5) |].
  split.
  - rewrite get_store_item_quiet by exact Q.
    unfold find_store_item. simpl. rewrite find_app_one.
    rewrite find_filter_rejected. simpl.
    rewrite String.eqb_refl. cbn [option_map]. unfold store_item_dict.
    cbn [si_item_name si_price si_description si_stock si_min_rank
         si_rarity si_metadata].
    pose proof (aff_numeric_bound _ T1) as A1.
    pose proof (aff_numeric_bound _ T3) as A3.
    pose proof (aff_numeric_bound _ T4) as A4.
    rewrite (bound_of_bind_param _ _ H1) in A1.
    rewrite (bound_of_bind_param _ _ H3) in A3.
    rewrite (bound_of_bind_param _ _ H4) in A4.
    rewrite A1, A3, A4. reflexivity.
  - intros other Hother. rewrite get_store_item_quiet by exact Q.
    unfold find_store_item. simpl. rewrite find_app_one.
    rewrite find_filter_implied.
    + destruct (find _ (store_items (working c))); [reflexivity |].
      simpl. destruct (item_name =? other)%string eqn:E; [| reflexivity].
      apply String.eqb_eq in E. congruence.
    + intros x Hx. apply String.eqb_eq in Hx. rewrite Hx.
      destruct (other =? item_name)%string eqn:E; [| reflexivity].
      apply String.eqb_eq in E. contradiction.
Qed.

Lemma update_store_item_stock_quiet item_name change c :
  quiet c ->
  update_store_item_stock item_name change c
  = match find_store_item item_name (working c) with
    | None => Ret false c
    | Some row =>
        match si_stock row with
        | CInt z =>
            if z =? -1 then Ret true c
            else if in_int64 (Z.max 0 (z + change)) then
              Ret true
                (stored c
                   (with_store_items (working c)
                      (map (set_stock item_name
                              (CInt (Z.max 0 (z + change))))
                           (store_items (working c)))))
            else Raise OverflowError c
        | _ => Raise TypeError c
        end
    end.
Proof.
  intros Q. unfold update_store_item_stock, try_sqlite.
  unfold bind at 1. rewrite (get_store_item_quiet _ c Q).
  destruct (find_store_item item_name (working c)) as [row |] eqn:F;
    [| reflexivity].
  cbn [option_map].
  change (dict_get_none "stock" (store_item_dict row))
    with (cell_to_py (si_stock row)).
  destruct (si_stock row) as [| z | s] eqn:Es; try reflexivity.
  cbn [cell_to_py py_eqb].
  destruct (z =? -1) eqn:Ez; [reflexivity |].
  cbn [negb]. unfold bind.
  destruct (in_int64 (Z.max 0 (z + change))) eqn:Hn.
  - rewrite (bind_value_int _ c Hn), (update_quiet _ c Q).
    rewrite commit_quiet by exact Q. reflexivity.
  - rewrite (bind_value_overflow _ c Hn). reflexivity.
Qed.

(** X9.  [update_store_item_stock] without storage faults.  A missing
    item gives false.  An item with unlimited stock (-1) is left as it is.
    Otherwise the stock becomes the sum clamped at zero, the other columns
    and the other items staying as they are.  An item whose stock is NULL
    or a text makes the call raise [TypeError], which its handler does not
    catch. *)
Theorem update_store_item_stock_cases
        (item_name : string) (change : Z) (c : conn) (Q : quiet c) :
  match find_store_item item_name (working c) with
  | None => update_store_item_stock item_name change c = Ret false c
  | Some row =>
      match si_stock row with
      | CInt z =>
          if z =? -1 then
            update_store_item_stock item_name change c = Ret true c
          else
            in_int64 (Z.max 0 (z + change)) = true ->
            exists c',
              update_store_item_stock item_name change c = Ret true c' /\
              committed c' = working c' /\
              find_store_item item_name (working c')
              = Some (mk_store_item (si_item_name row) (si_price row)
                        (si_description row) (CInt (Z.max 0 (z + change)))
                        (si_min_rank row) (si_rarity row) (si_metadata row))
              /\
              forall other, other <> item_name ->
                find_store_item other (working c')
                = find_store_item other (working c)
      | _ => update_store_item_stock item_name change c = Raise TypeError c
      end
  end.
Proof.
  rewrite (update_store_item_stock_quiet item_name change c Q).
  destruct (find_store_item item_name (working c)) as [row |] eqn:F;
    [| reflexivity].
  destruct (si_stock row) as [| z | s] eqn:Es; try reflexivity.
  destruct (z =? -1) eqn:Ez; [reflexivity |].
  intros Hn. rewrite Hn.
  eexists. split; [reflexivity |]. split; [reflexivity |].
  unfold find_store_item in *. simpl. split.
  - unfold set_stock.
    rewrite (find_map_matching
               (fun r => (si_item_name r =? item_name)%string)
               (fun r => mk_store_item (si_item_name r) (si_price r)
                           (si_description r)
                           (aff_numeric (CInt (Z.max 0 (z + change))))
                           (si_min_rank r) (si_rarity r) (si_metadata r)))
      by (intros x Hx; exact Hx).
    rewrite F. simpl. reflexivity.
  - intros other Hother. apply find_map_elsewhere.
    + intros x. unfold set_stock.
      destruct (si_item_name x =? item_name)%string; reflexivity.
    + intros x Hx. unfold set_stock.
      destruct (si_item_name x =? item_name)%string eqn:E; [| reflexivity].
      apply String.eqb_eq in Hx. apply String.eqb_eq in E. congruence.
Qed.

End More_store_items.

(** ** Users: keys that are not written, and balances read back *)

Lemma filter_filter_and {A} (f g : A -> bool) (l : list A) :
  filter (fun x => f x && g x) (filter g l) = filter (fun x => f x && g x) l.
Proof.
  induction l as [| a l IH]; simpl; [reflexivity |].
  destruct (g a) eqn:Eg; simpl.
  - rewrite Eg, IH. reflexivity.
  - rewrite andb_false_r. exact IH.
Qed.

Lemma filter_all_rejected {A} (f : A -> bool) (l : list A) :
  (forall x, In x l -> f x = false) -> filter f l = [].
Proof.
  intros H. induction l as [| a l IH]; simpl; [reflexivity |].
  rewrite (H a (or_introl eq_refl)). apply IH.
  intros x Hx. apply H. right. exact Hx.
Qed.

Section More_users.
Context {RT : PyRuntime}.

Lemma user_dict_keys r k :
  dict_has k (user_dict r) = str_mem k user_columns.
Proof.
  unfold dict_has, user_dict, str_mem, user_columns.
  cbn [dict_get existsb].
  rewrite !(String.eqb_sym k).
  repeat match goal with
         | |- context [(?a =? k)%string] => destruct (a =? k)%string
         end; reflexivity.
Qed.

Lemma zero_user_keys user_id k :
  dict_has k (zero_user user_id) = true ->
  str_mem k user_columns = true /\ k <> "created_at"%string /\
  k <> "updated_at"%string.
Proof.
  unfold dict_has, zero_user, str_mem, user_columns.
  cbn [dict_get existsb].
  intros H. split.
  - rewrite !(String.eqb_sym k).
    repeat match type of H with
           | context [(?a =? k)%string] =>
               destruct (a =? k)%string; [reflexivity |]
           end.
    discriminate H.
  - split; intros ->; vm_compute in H; discriminate H.
Qed.

(** X10.  Keys that [update_user] does not write, whatever storage faults
    are pending.  (a) The key [user_id] is never written: a call is the
    call without that key.  (b) With only keys that are not columns of
    [users], the call is the call with no key at all; whenever [get_user]
    returns, as it does unless the storage layer fails twice in a row, the
    call returns true and does what [get_user] does, nothing more.  (c) For
    a user that has no row yet, the keys [created_at] and [updated_at] are
    dropped as well, since the record of a user that has just been created
    lacks them: the call only creates the row. *)
Theorem update_user_unwritten_keys (user_id : pyval) (data : pydict) (c : conn) :
  update_user user_id data c
  = update_user user_id
      (filter (fun kv => negb (fst kv =? "user_id")%string) data) c /\
  ((forall kv, In kv data -> str_mem (fst kv) user_columns = false) ->
   update_user user_id data c = update_user user_id [] c /\
   (forall r c', get_user (PStr (py_str user_id)) c = Ret r c' ->
                 update_user user_id data c = Ret true c') /\
   (double_fault (faults c) = false ->
    exists r c',
      get_user (PStr (py_str user_id)) c = Ret r c' /\
      update_user user_id data c = Ret true c')) /\
  (quiet c ->
   find_user (py_str user_id) (working c) = None ->
   (forall kv, In kv data ->
      str_mem (fst kv) ["created_at"; "updated_at"] = true) ->
   update_user user_id data c
   = Ret true (created_user_conn (py_str user_id) c)).
Proof.
  split; [| split].
  - unfold update_user, try_sqlite. unfold bind.
    destruct (get_user (PStr (py_str user_id)) c) as [user c1 | e c1];
      [| reflexivity].
    rewrite (filter_filter_and
               (fun kv : string * pyval => dict_has (fst kv) user)
               (fun kv => negb (fst kv =? "user_id")%string)).
    reflexivity.
  - intros Hkeys.
    assert (Hret : forall r c',
               get_user (PStr (py_str user_id)) c = Ret r c' ->
               update_user user_id data c = Ret true c').
    { intros r c' E.
      unfold update_user, try_sqlite. unfold bind at 1. rewrite E.
      rewrite filter_all_rejected; [reflexivity |].
      intros kv Hkv. specialize (Hkeys kv Hkv).
      destruct (dict_has (fst kv) r) eqn:Eh; [| reflexivity].
      destruct (get_user_Ret _ _ _ _ E) as [-> | (row & _ & _ & ->)].
      + apply zero_user_keys in Eh. destruct Eh as [Eh _]. congruence.
      + rewrite user_dict_keys in Eh. congruence. }
    split; [| split; [exact Hret |]].
    + destruct (get_user (PStr (py_str user_id)) c) as [r c' | e c'] eqn:E.
      * rewrite (Hret r c' eq_refl).
        unfold update_user, try_sqlite. unfold bind at 1. rewrite E.
        reflexivity.
      * unfold update_user, try_sqlite. unfold bind. rewrite E.
        reflexivity.
    + intros D.
      pose proof (get_user_outcome (PStr (py_str user_id)) c) as H.
      destruct (get_user (PStr (py_str user_id)) c) as [r c' | e c'] eqn:E.
      * exists r, c'. split; [reflexivity | exact (Hret r c' eq_refl)].
      * destruct H as [_ H]. congruence.
  - intros Q Habsent Hkeys.
    unfold update_user, try_sqlite. unfold bind at 1.
    rewrite (get_user_quiet _ c Q). simpl py_str. rewrite Habsent.
    rewrite filter_all_rejected; [reflexivity |].
    intros kv Hkv. specialize (Hkeys kv Hkv).
    destruct (dict_has (fst kv) (zero_user (py_str user_id))) eqn:Eh;
      [| reflexivity].
    apply zero_user_keys in Eh. destruct Eh as (_ & N1 & N2).
    unfold str_mem in Hkeys. simpl in Hkeys.
    rewrite orb_false_r in Hkeys. apply orb_true_iff in Hkeys.
    destruct Hkeys as [H | H]; apply String.eqb_eq in H; contradiction.
Qed.

(** A single-balance [update_user] without storage faults. *)
Lemma update_user_balance_quiet (cash : bool) user_id (n : Z) c :
  quiet c -> in_int64 n = true ->
  update_user user_id [(balance_key cash, PInt n)] c
  = let c1 := after_get_user (py_str user_id) c in
    Ret true
      (stored c1
         (with_users (working c1)
            (map (set_balance cash (py_str user_id) n (now c1))
                 (users (working c1))))).
Proof.
  intros Q Hn. cbv zeta.
  destruct (get_user_after (py_str user_id) c Q) as (r & E).
  destruct (after_get_user_frame (py_str user_id) c Q) as (Q1 & _).
  destruct (get_user_has_balances _ _ _ _ E) as [Hc Hb].
  unfold update_user, try_sqlite. unfold bind at 1. rewrite E.
  assert (F : filter (fun kv : string * pyval =>
                dict_has (fst kv) r && negb (fst kv =? "user_id")%string)
                [(balance_key cash, PInt n)] = [(balance_key cash, PInt n)]).
  { destruct cash; cbn [filter fst balance_key];
      [rewrite Hc | rewrite Hb]; reflexivity. }
  rewrite F. clear F.
  unfold bind, bind_values. cbn [map snd fst bind_params bind_param].
  rewrite Hn. unfold ret, current_timestamp. cbn [combine].
  rewrite (execute_quiet _ _ Q1).
  assert (K : known_cols set_user_col blank_user [(balance_key cash, CInt n)]
              = true) by (destruct cash; reflexivity).
  rewrite K.
  rewrite (update_where_map _ _ _
             (fun r => mk_user (u_user_id r)
                         (if cash then CInt n else u_cash r)
                         (if cash then u_bank r else CInt n)
                         (u_job r) (u_last_cultivate r) (u_last_collect r)
                         (u_message_count r) (u_created_at r)
                         (u_updated_at r)))
    by (intros x; destruct cash; reflexivity).
  rewrite commit_quiet by exact Q1.
  unfold stored. cbn [working committed faults now with_users].
  rewrite map_map.
  rewrite (map_ext _ (set_balance cash (py_str user_id) n
                        (now (after_get_user (py_str user_id) c))));
    [reflexivity |].
  intros x. unfold touch_user, set_balance.
  destruct (u_user_id x =? py_str user_id)%string eqn:Ex;
    cbn [u_user_id]; rewrite Ex; reflexivity.
Qed.

Lemma get_balance_quiet user_id c :
  quiet c ->
  get_balance user_id c
  = let c1 := after_get_user (py_str user_id) c in
    match find_user (py_str user_id) (working c1) with
    | Some r =>
        Ret (balance_of (Some (cell_to_py (u_cash r))),
             balance_of (Some (cell_to_py (u_bank r)))) c1
    | None => Ret (0, 0) c1
    end.
Proof.
  intros Q. unfold get_balance, bind. rewrite (get_user_quiet _ c Q).
  unfold after_get_user.
  destruct (find_user (py_str user_id) (working c)) as [r |] eqn:F.
  - rewrite F. reflexivity.
  - rewrite (find_user_created _ c F). reflexivity.
Qed.

Lemma after_get_user_again user_id c :
  after_get_user user_id (after_get_user user_id c) = after_get_user user_id c.
Proof.
  unfold after_get_user at 1.
  destruct (find_user user_id (working (after_get_user user_id c))) eqn:F;
    [reflexivity |].
  exfalso. revert F. unfold after_get_user.
  destruct (find_user user_id (working c)) eqn:F0.
  - rewrite F0. discriminate.
  - rewrite (find_user_created _ c F0). discriminate.
Qed.

Lemma after_get_user_stored user_id c d :
  find_user user_id d <> None ->
  after_get_user user_id (stored c d) = stored c d.
Proof.
  intros H. unfold after_get_user. simpl.
  destruct (find_user user_id d); [reflexivity | contradiction].
Qed.

(** Reading the balances after one of them has been set. *)
Lemma get_balance_after_set (cash : bool) user_id (n : Z) c a b c0 :
  quiet c ->
  get_balance user_id c = Ret (a, b) c0 ->
  get_balance user_id
    (stored (after_get_user (py_str user_id) c)
       (with_users (working (after_get_user (py_str user_id) c))
          (map (set_balance cash (py_str user_id) n
                  (now (after_get_user (py_str user_id) c)))
               (users (working (after_get_user (py_str user_id) c))))))
  = Ret (if cash then n else a, if cash then b else n)
      (stored (after_get_user (py_str user_id) c)
         (with_users (working (after_get_user (py_str user_id) c))
            (map (set_balance cash (py_str user_id) n
                    (now (after_get_user (py_str user_id) c)))
                 (users (working (after_get_user (py_str user_id) c)))))).
Proof.
  intros Q Hold.
  rewrite (get_balance_quiet _ c Q) in Hold. cbv zeta in Hold.
  destruct (after_get_user_frame (py_str user_id) c Q)
    as (Q1 & _ & _ & _ & Hu & _).
  set (c1 := after_get_user (py_str user_id) c) in *.
  destruct (find_user (py_str user_id) (working c1)) as [r |] eqn:F;
    [| contradiction].
  injection Hold as Ha Hb _.
  assert (F' : find_user (py_str user_id)
                 (with_users (working c1)
                    (map (set_balance cash (py_str user_id) n (now c1))
                         (users (working c1))))
               = Some (set_balance cash (py_str user_id) n (now c1) r)).
  { unfold find_user in *. simpl.
    unfold set_balance at 1.
    rewrite (find_map_matching
               (fun x => (u_user_id x =? py_str user_id)%string)
               (fun x => mk_user (u_user_id x)
                           (if cash then CInt n else u_cash x)
                           (if cash then u_bank x else CInt n)
                           (u_job x) (u_last_cultivate x) (u_last_collect x)
                           (u_message_count x) (u_created_at x)
                           (CText (now c1))))
      by (intros x Hx; exact Hx).
    rewrite F. simpl. unfold set_balance.
    apply find_some in F. destruct F as [_ F]. rewrite F. reflexivity. }
  rewrite get_balance_quiet by exact Q1. cbv zeta.
  rewrite after_get_user_stored by (rewrite F'; discriminate).
  cbn [working stored]. rewrite F'.
  unfold set_balance. apply find_some in F. destruct F as [_ F].
  rewrite F. subst a b. destruct cash; reflexivity.
Qed.

(** X11.  Balances are read back as written.  When [get_balance] gives
    [(cash, bank)], then after [add_cash] it gives the sum clamped at zero
    and the same bank, after [set_cash] the amount clamped at zero and the
    same bank, and likewise for [add_bank] and [set_bank] with the cash
    unchanged. *)
Theorem balance_writers_then_get_balance
        (user_id amount : pyval) (cash bank : Z) (c c0 : conn)
        (Q : quiet c)
        (Hold : get_balance user_id c = Ret (cash, bank) c0) :
  (in_int64 (Z.max 0 (cash + amount_of amount)) = true ->
   exists c' c'',
     add_cash user_id amount c = Ret true c' /\
     get_balance user_id c'
     = Ret (Z.max 0 (cash + amount_of amount), bank) c'') /\
  (in_int64 (Z.max 0 (bank + amount_of amount)) = true ->
   exists c' c'',
     add_bank user_id amount c = Ret true c' /\
     get_balance user_id c'
     = Ret (cash, Z.max 0 (bank + amount_of amount)) c'') /\
  (in_int64 (Z.max 0 (amount_of amount)) = true ->
   (exists c' c'',
      set_cash user_id amount c = Ret true c' /\
      get_balance user_id c' = Ret (Z.max 0 (amount_of amount), bank) c'') /\
   (exists c' c'',
      set_bank user_id amount c = Ret true c' /\
      get_balance user_id c' = Ret (cash, Z.max 0 (amount_of amount)) c'')).
Proof.
  destruct (get_user_after (py_str user_id) c Q) as (r & E).
  destruct (after_get_user_frame (py_str user_id) c Q) as (Q1 & _).
  assert (Hr : balance_of (dict_get "cash" r) = cash /\
               balance_of (dict_get "bank" r) = bank).
  { unfold get_balance, bind in Hold.
    assert (E' : get_user user_id c
                 = Ret r (after_get_user (py_str user_id) c)).
    { rewrite (get_user_quiet _ c Q).
      rewrite (get_user_quiet _ c Q) in E. exact E. }
    rewrite E' in Hold. injection Hold as H1 H2 _. auto. }
  destruct Hr as [Hcash Hbank].
  split; [| split; [| intros Hn; split]].
  - intros Hn. eexists. eexists. split.
    + unfold add_cash, try_exception. unfold bind at 1. rewrite E.
      rewrite Hcash.
      rewrite (update_user_balance_quiet true (PStr (py_str user_id)) _ _
                 Q1 Hn).
      cbv zeta. simpl py_str. rewrite after_get_user_again. reflexivity.
    + exact (get_balance_after_set true user_id _ c cash bank c0 Q Hold).
  - intros Hn. eexists. eexists. split.
    + unfold add_bank, try_exception. unfold bind at 1. rewrite E.
      rewrite Hbank.
      rewrite (update_user_balance_quiet false (PStr (py_str user_id)) _ _
                 Q1 Hn).
      cbv zeta. simpl py_str. rewrite after_get_user_again. reflexivity.
    + exact (get_balance_after_set false user_id _ c cash bank c0 Q Hold).
  - eexists. eexists. split.
    + unfold set_cash.
      exact (update_user_balance_quiet true user_id _ c Q Hn).
    + exact (get_balance_after_set true user_id _ c cash bank c0 Q Hold).
  - eexists. eexists. split.
    + unfold set_bank.
      exact (update_user_balance_quiet false user_id _ c Q Hn).
    + exact (get_balance_after_set false user_id _ c cash bank c0 Q Hold).
Qed.

End More_users.

(** ** Sects: creation and membership *)

Section More_sects.
Context {RT : PyRuntime}.

Lemma steady_rolled_back c :
  steady c -> mk_conn (committed c) (committed c) (faults c) (now c) = c.
Proof.
  intros [_ H]. destruct c as [cm w fs ts]. simpl in *. subst. reflexivity.
Qed.

(** [create_sect] on a connection with nothing pending, for values that
    can be bound. *)
Lemma create_sect_quiet sect_id name leader_id description level wealth
      c_name c_description c_level c_wealth c :
  steady c ->
  bind_param name = inr c_name ->
  bind_param description = inr c_description ->
  bind_param level = inr c_level ->
  bind_param wealth = inr c_wealth ->
  create_sect sect_id name leader_id description level wealth c
  = let c1 := after_get_user (py_str leader_id) c in
    match find_sect sect_id (working c1) with
    | Some _ => Ret false c1
    | None =>
        if existsb (sect_member_match sect_id (py_str leader_id))
                   (sect_members (working c1))
        then Ret false c1
        else
          Ret true
            (stored c1
               (with_sect_members
                  (with_sects (working c1)
                     (sects (working c1) ++
                      [mk_sect sect_id (aff_text c_name)
                         (CText (py_str leader_id))
                         (aff_text c_description) (CText (now c1))
                         (aff_numeric c_level) (aff_numeric c_wealth)
                         (CInt 10)]))
                  (sect_members (working c1) ++
                   [mk_sect_member sect_id (py_str leader_id) "leader"
                      (now c1)])))
    end.
Proof.
  intros S H1 H2 H3 H4. cbv zeta.
  destruct (get_user_after (py_str leader_id) c (proj1 S)) as (r & E).
  destruct (after_get_user_frame (py_str leader_id) c (proj1 S))
    as (Q1 & _ & _ & _ & _ & _ & S1).
  specialize (S1 S).
  set (c1 := after_get_user (py_str leader_id) c) in *.
  unfold create_sect, try_sqlite. unfold bind at 1. rewrite E.
  unfold bind, bind_value. rewrite H1, H2, H3, H4.
  unfold ret, current_timestamp.
  rewrite (execute_quiet _ c1 Q1).
  destruct (find_sect sect_id (working c1)) as [row |] eqn:F.
  - simpl. rewrite (rollback_quiet _ Q1). simpl.
    rewrite (steady_rolled_back c1 S1). reflexivity.
  - rewrite execute_quiet by exact Q1.
    cbn [working with_sects sect_members].
    destruct (existsb _ (sect_members (working c1))).
    + simpl. rewrite rollback_quiet by exact Q1. simpl.
      rewrite (steady_rolled_back c1 S1). reflexivity.
    + rewrite commit_quiet by exact Q1. reflexivity.
Qed.

(** X12.  [create_sect] on a connection with nothing pending, for values
    that can be bound.  When the id is taken, or when a membership row of
    the leader for that id is still stored, the call returns false and the
    sects and memberships are as before; yet the user row of the leader
    has been created and committed.  Otherwise the call returns true, and
    appends the sect and the membership of the leader, with the role
    [leader]. *)
Theorem create_sect_cases
        (sect_id : string) (name leader_id description level wealth : pyval)
        (c_name c_description c_level c_wealth : cell) (c : conn)
        (S : steady c)
        (H1 : bind_param name = inr c_name)
        (H2 : bind_param description = inr c_description)
        (H3 : bind_param level = inr c_level)
        (H4 : bind_param wealth = inr c_wealth) :
  exists b c',
    create_sect sect_id name leader_id description level wealth c
    = Ret b c' /\
    committed c' = working c' /\
    find_user (py_str leader_id) (working c') <> None /\
    if b then
      find_sect sect_id (working c) = None /\
      existsb (sect_member_match sect_id (py_str leader_id))
              (sect_members (working c)) = false /\
      sects (working c')
      = sects (working c) ++
        [mk_sect sect_id (aff_text c_name) (CText (py_str leader_id))
           (aff_text c_description) (CText (now c))
           (aff_numeric c_level) (aff_numeric c_wealth) (CInt 10)] /\
      sect_members (working c')
      = sect_members (working c) ++
        [mk_sect_member sect_id (py_str leader_id) "leader" (now c)]
    else
      (find_sect sect_id (working c) <> None \/
       existsb (sect_member_match sect_id (py_str leader_id))
               (sect_members (working c)) = true) /\
      sects (working c') = sects (working c) /\
      sect_members (working c') = sect_members (working c).
Proof.
  rewrite (create_sect_quiet sect_id name leader_id description level wealth
             c_name c_description c_level c_wealth c S H1 H2 H3 H4).
  cbv zeta.
  destruct (after_get_user_frame (py_str leader_id) c (proj1 S))
    as (Q1 & Hnow & Hs & Hm & Hu & _ & S1).
  specialize (S1 S). destruct S1 as [_ S1].
  set (c1 := after_get_user (py_str leader_id) c) in *.
  assert (Hf : find_sect sect_id (working c1) = find_sect sect_id (working c))
    by (unfold find_sect; rewrite Hs; reflexivity).
  rewrite Hf, Hm.
  destruct (find_sect sect_id (working c)) as [row |] eqn:F.
  - exists false, c1. split; [reflexivity |]. split; [exact S1 |].
    split; [exact Hu |]. split; [left; discriminate |]. auto.
  - destruct (existsb _ (sect_members (working c))) eqn:Em.
    + exists false, c1. split; [reflexivity |]. split; [exact S1 |].
      split; [exact Hu |]. split; [right; reflexivity |]. auto.
    + eexists true, _. split; [reflexivity |]. split; [reflexivity |].
      split; [exact Hu |]. rewrite Hnow, Hs. auto.
Qed.

Lemma sect_member_match_self sect_id user_id role ts :
  sect_member_match sect_id user_id
    (mk_sect_member sect_id user_id role ts) = true.
Proof. unfold sect_member_match. simpl. rewrite !String.eqb_refl. reflexivity. Qed.

(** X13.  [add_sect_member] without storage faults.  For a sect that is
    not stored the call returns false, and the memberships are as before,
    yet the user row has been created.  For a stored sect, adding the same
    user twice leaves one membership row of the pair, the last in the
    table, with the role of the second call; the rows of other pairs keep
    their order. *)
Theorem add_sect_member_cases
        (sect_id : string) (user_id : pyval) (role role' : string) (c : conn)
        (Q : quiet c) :
  match find_sect sect_id (working c) with
  | None =>
      exists c',
        add_sect_member sect_id user_id role c = Ret false c' /\
        sect_members (working c') = sect_members (working c) /\
        find_user (py_str user_id) (working c') <> None
  | Some _ =>
      exists c' c'',
        add_sect_member sect_id user_id role c = Ret true c' /\
        add_sect_member sect_id user_id role' c' = Ret true c'' /\
        find_user (py_str user_id) (working c'') <> None /\
        sect_members (working c'')
        = filter (fun r => negb (sect_member_match sect_id
                                   (py_str user_id) r))
                 (sect_members (working c))
          ++ [mk_sect_member sect_id (py_str user_id) role' (now c)]
  end.
Proof.
  pose proof (add_sect_member_quiet sect_id user_id role c Q) as E1.
  cbv zeta in E1.
  destruct (after_get_user_frame (py_str user_id) c Q)
    as (Q1 & Hnow & Hs & Hm & Hu & _ & _).
  set (c1 := after_get_user (py_str user_id) c) in *.
  assert (Hf : find_sect sect_id (working c1) = find_sect sect_id (working c))
    by (unfold find_sect; rewrite Hs; reflexivity).
  rewrite Hf in E1.
  destruct (find_sect sect_id (working c)) as [row |] eqn:F.
  - set (c' := stored c1
                 (with_sect_members (working c1)
                    (filter (fun r => negb (sect_member_match sect_id
                                              (py_str user_id) r))
                            (sect_members (working c1))
                     ++ [mk_sect_member sect_id (py_str user_id) role
                           (now c1)]))) in *.
    assert (Q' : quiet c') by exact Q1.
    assert (Hu' : find_user (py_str user_id) (working c') <> None)
      by exact Hu.
    pose proof (add_sect_member_quiet sect_id user_id role' c' Q') as E2.
    cbv zeta in E2.
    assert (A : after_get_user (py_str user_id) c' = c').
    { unfold after_get_user.
      destruct (find_user (py_str user_id) (working c'));
        [reflexivity | contradiction]. }
    rewrite A in E2.
    assert (Hf' : find_sect sect_id (working c') = Some row).
    { unfold find_sect in *. simpl. rewrite Hs. exact F. }
    rewrite Hf' in E2.
    eexists. eexists. split; [exact E1 |]. split; [exact E2 |].
    split; [exact Hu |].
    simpl. rewrite filter_app. simpl.
    rewrite sect_member_match_self. simpl.
    rewrite app_nil_r, Hm, Hnow.
    f_equal. clear. induction (sect_members (working c)) as [| a l IH];
      simpl; [reflexivity |].
    destruct (sect_member_match sect_id (py_str user_id) a) eqn:Ea; simpl;
      [exact IH |]. rewrite Ea. simpl. rewrite IH. reflexivity.
  - exists c1. split; [exact E1 |]. split; [exact Hm | exact Hu].
Qed.

End More_sects.

(** ** Invariants of the sect tables *)

Section Leads.
Context {RT : PyRuntime}.
Variables W C : db -> Prop.

Lemma leads_ret {A} (a : A) : leads W C (ret a) W.
Proof. intros c Q Hw Hc. auto. Qed.

Lemma leads_raise {A} (e : exn) : leads W C (@raise A e) W.
Proof. intros c Q Hw Hc. auto. Qed.

Lemma leads_weaken {A} (m : M A) (W1 W2 : db -> Prop) :
  leads W C m W1 -> (forall d, W1 d -> W2 d) -> leads W C m W2.
Proof.
  intros H Hi c Q Hw Hc. destruct (H c Q Hw Hc) as (Q' & Hw' & Hc'). auto.
Qed.

Lemma leads_bind {A B} (m : M A) (k : A -> M B) :
  leads W C m W -> (forall a, leads W C (k a) W) -> leads W C (bind m k) W.
Proof.
  intros Hm Hk c Q Hw Hc. unfold bind.
  destruct (Hm c Q Hw Hc) as (Q1 & Hw1 & Hc1).
  destruct (m c) as [a c1 | e c1]; simpl in *; [apply Hk |]; auto.
Qed.

Lemma leads_try_sqlite {A} (body handler : M A) :
  leads W C body W -> leads W C handler W ->
  leads W C (try_sqlite body handler) W.
Proof.
  intros Hb Hh c Q Hw Hc. unfold try_sqlite.
  destruct (Hb c Q Hw Hc) as (Q1 & Hw1 & Hc1).
  destruct (body c) as [a c1 | e c1]; simpl in *; [auto |].
  destruct (is_sqlite e); [apply Hh |]; auto.
Qed.

Lemma leads_try_exception {A} (body handler : M A) :
  leads W C body W -> leads W C handler W ->
  leads W C (try_exception body handler) W.
Proof.
  intros Hb Hh c Q Hw Hc. unfold try_exception.
  destruct (Hb c Q Hw Hc) as (Q1 & Hw1 & Hc1).
  destruct (body c) as [a c1 | e c1]; simpl in *; [| apply Hh]; auto.
Qed.

Lemma leads_for_each {A} (xs : list A) (body : A -> M unit) :
  (forall x, In x xs -> leads W C (body x) W) ->
  leads W C (for_each xs body) W.
Proof.
  induction xs as [| x xs IH]; intros H; simpl.
  - apply leads_ret.
  - apply leads_bind.
    + apply H. left. reflexivity.
    + intros _. apply IH. intros y Hy. apply H. right. exact Hy.
Qed.

Lemma leads_execute {A} (stmt : db -> option (A * db)) :
  (forall d a d', W d -> stmt d = Some (a, d') -> W d') ->
  leads W C (execute stmt) W.
Proof.
  intros Hs c Q Hw Hc. rewrite (execute_quiet _ c Q).
  destruct (stmt (working c)) as [[a d'] |] eqn:E; simpl; eauto.
Qed.

Lemma leads_query {A} (q : db -> A) : leads W C (query q) W.
Proof.
  apply leads_execute. intros d a d' Hd H. inversion H; subst. exact Hd.
Qed.

Lemma leads_update (f : db -> db) :
  (forall d, W d -> W (f d)) -> leads W C (update f) W.
Proof.
  intros Hf. apply leads_execute. intros d a d' Hd H. inversion H; subst.
  apply Hf, Hd.
Qed.

Lemma leads_commit : (forall d, W d -> C d) -> leads W C commit W.
Proof. intros H c Q Hw Hc. rewrite (commit_quiet c Q). simpl. auto. Qed.

Lemma leads_rollback : (forall d, C d -> W d) -> leads W C rollback W.
Proof. intros H c Q Hw Hc. rewrite (rollback_quiet c Q). simpl. auto. Qed.

Lemma leads_current_timestamp : leads W C current_timestamp W.
Proof. intros c Q Hw Hc. auto. Qed.

Lemma leads_bind_value v : leads W C (bind_value v) W.
Proof.
  unfold bind_value. destruct (bind_param v);
    [apply leads_raise | apply leads_ret].
Qed.

Lemma leads_bind_values vs : leads W C (bind_values vs) W.
Proof.
  unfold bind_values. destruct (bind_params vs);
    [apply leads_raise | apply leads_ret].
Qed.

Lemma leads_as_dict v : leads W C (as_dict v) W.
Proof. destruct v; simpl; apply leads_raise || apply leads_ret. Qed.

Lemma leads_not_in_str_set v ids : leads W C (not_in_str_set v ids) W.
Proof. destruct v; simpl; apply leads_raise || apply leads_ret. Qed.

Lemma leads_get_sect sect_id : leads W C (get_sect sect_id) W.
Proof.
  unfold get_sect. apply leads_try_sqlite; [| apply leads_ret].
  apply leads_bind; [apply leads_query |].
  intros [r |]; apply leads_ret.
Qed.

Lemma leads_get_sect_members sect_id :
  leads W C (get_sect_members sect_id) W.
Proof.
  unfold get_sect_members.
  apply leads_try_sqlite; [apply leads_query | apply leads_ret].
Qed.

Lemma leads_failure_handler :
  (forall d, C d -> W d) -> leads W C (rollback ;;; ret false) W.
Proof.
  intros H. apply leads_bind; [apply leads_rollback, H |].
  intros _. apply leads_ret.
Qed.

End Leads.

(** A step that strengthens what is known of the working copy. *)
Lemma leads_bind_strong {RT : PyRuntime} {A B} (W W1 C : db -> Prop)
      (m : M A) (k : A -> M B) :
  leads W C m W1 -> (forall d, W1 d -> W d) ->
  (forall a, leads W1 C (k a) W1) ->
  leads W C (bind m k) W.
Proof.
  intros Hm Hi Hk c Q Hw Hc. unfold bind.
  destruct (Hm c Q Hw Hc) as (Q1 & Hw1 & Hc1).
  destruct (m c) as [a c1 | e c1]; simpl in *; [| auto].
  destruct (Hk a c1 Q1 Hw1 Hc1) as (Q2 & Hw2 & Hc2). auto.
Qed.

Section Sect_invariant.
Context {RT : PyRuntime}.
Variable I : db -> Prop.
Variable allowed : string -> Prop.

Hypothesis I_add_user :
  forall d x, I d -> I (with_users d (users d ++ [x])).
Hypothesis I_set_sects :
  forall d rows, I d -> map s_sect_id rows = map s_sect_id (sects d) ->
                 I (with_sects d rows).
Hypothesis I_add_sect :
  forall d x, allowed (s_sect_id x) -> I d ->
              find_sect (s_sect_id x) d = None ->
              I (with_sects d (sects d ++ [x])).
Hypothesis I_del_sect :
  forall d sect_id, I d ->
    I (with_sects d
         (filter (fun r => negb (s_sect_id r =? sect_id)%string) (sects d))).
Hypothesis I_add_member :
  forall d sect_id user_id role ts,
    allowed sect_id -> I d -> find_user user_id d <> None ->
    I (with_sect_members d
         (filter (fun r => negb (sect_member_match sect_id user_id r))
                 (sect_members d)
          ++ [mk_sect_member sect_id user_id role ts])).
Hypothesis I_del_member :
  forall d sect_id user_id, allowed sect_id -> I d ->
    I (with_sect_members d
         (filter (fun r => negb (sect_member_match sect_id user_id r))
                 (sect_members d))).

(** [get_user] leaves the user stored. *)
Lemma get_user_leads user_id :
  leads I I (get_user user_id)
        (fun d => I d /\ find_user (py_str user_id) d <> None).
Proof.
  intros c Q Hw Hc. rewrite (get_user_quiet _ c Q).
  destruct (find_user (py_str user_id) (working c)) as [r |] eqn:F;
    cbn [conn_of].
  - repeat split; auto. rewrite F. discriminate.
  - split; [exact Q |]. split; [split |].
    + apply I_add_user, Hw.
    + rewrite (find_user_created _ c F). discriminate.
    + apply I_add_user, Hw.
Qed.

Lemma leads_get_user user_id : leads I I (get_user user_id) I.
Proof.
  apply (leads_weaken _ _ _ _ _ (get_user_leads user_id)). intros d [H _].
  exact H.
Qed.

Lemma leads_update_sect sect_id data : leads I I (update_sect sect_id data) I.
Proof.
  unfold update_sect.
  apply leads_try_sqlite; [| apply leads_failure_handler; auto].
  apply leads_bind; [apply leads_get_sect |]. intros [sect |];
    [| apply leads_ret].
  destruct (filter _ data) as [| f fields]; [apply leads_ret |].
  apply leads_bind; [apply leads_bind_values |]. intros values.
  apply leads_bind.
  - apply leads_execute. intros d a d' Hd H.
    destruct (known_cols _ _ _); [| discriminate].
    destruct (update_where _ _ _ _) as [rows |] eqn:E; [| discriminate].
    inversion H; subst. apply I_set_sects; [exact Hd |].
    exact (update_where_sect_ids _ _ _ _ E).
  - intros _. apply leads_bind; [apply leads_commit; auto |].
    intros _. apply leads_ret.
Qed.

Lemma leads_add_sect_member sect_id user_id role :
  allowed sect_id -> leads I I (add_sect_member sect_id user_id role) I.
Proof.
  intros Ha. unfold add_sect_member.
  apply leads_try_sqlite; [| apply leads_failure_handler; auto].
  apply (leads_bind_strong I
           (fun d => I d /\ find_user (py_str user_id) d <> None) I).
  - exact (get_user_leads (PStr (py_str user_id))).
  - intros d [H _]. exact H.
  - intros _. apply leads_bind; [apply leads_get_sect |].
    intros [sect |]; [| apply leads_ret].
    apply leads_bind; [apply leads_current_timestamp |]. intros ts.
    apply leads_bind.
    + apply leads_update. intros d [Hd Hu]. split.
      * apply I_add_member; assumption.
      * exact Hu.
    + intros _. apply leads_bind; [| intros _; apply leads_ret].
      apply leads_commit. intros d [H _]. exact H.
Qed.

Lemma leads_remove_sect_member sect_id user_id :
  allowed sect_id -> leads I I (remove_sect_member sect_id user_id) I.
Proof.
  intros Ha. unfold remove_sect_member.
  apply leads_try_sqlite; [| apply leads_failure_handler; auto].
  apply leads_bind; [apply leads_update; intros d Hd; apply I_del_member;
                     assumption |].
  intros _. apply leads_bind; [apply leads_commit; auto |].
  intros _. apply leads_ret.
Qed.

Lemma leads_create_sect sect_id name leader_id description level wealth :
  allowed sect_id ->
  leads I I (create_sect sect_id name leader_id description level wealth) I.
Proof.
  intros Ha. unfold create_sect.
  apply leads_try_sqlite; [| apply leads_failure_handler; auto].
  apply (leads_bind_strong I
           (fun d => I d /\ find_user (py_str leader_id) d <> None) I).
  - exact (get_user_leads (PStr (py_str leader_id))).
  - intros d [H _]. exact H.
  - intros _.
    apply leads_bind; [apply leads_bind_value |]. intros c_name.
    apply leads_bind; [apply leads_bind_value |]. intros c_description.
    apply leads_bind; [apply leads_bind_value |]. intros c_level.
    apply leads_bind; [apply leads_bind_value |]. intros c_wealth.
    apply leads_bind; [apply leads_current_timestamp |]. intros ts.
    apply leads_bind.
    { apply leads_execute. intros d a d' [Hd Hu] H.
      destruct (find_sect sect_id d) eqn:F; [discriminate |].
      inversion H; subst. split; [| exact Hu].
      apply I_add_sect; assumption. }
    intros _. apply leads_bind.
    { apply leads_execute. intros d a d' [Hd Hu] H.
      destruct (existsb _ (sect_members d)) eqn:E; [discriminate |].
      inversion H; subst. split; [| exact Hu].
      rewrite <- (filter_none_rejected _ _ E).
      apply I_add_member; assumption. }
    intros _. apply leads_bind; [| intros _; apply leads_ret].
    apply leads_commit. intros d [H _]. exact H.
Qed.

Lemma leads_delete_sect sect_id : leads I I (delete_sect sect_id) I.
Proof. apply leads_update. intros d Hd. apply I_del_sect, Hd. Qed.

Lemma leads_save_sect existing entry :
  allowed (fst entry) -> leads I I (save_sect existing entry) I.
Proof.
  destruct entry as [sect_id v]. simpl. intros Ha. unfold save_sect.
  destruct (str_mem sect_id existing).
  - apply leads_bind; [apply leads_as_dict |]. intros sect_data.
    apply leads_bind; [apply leads_update_sect |]. intros _.
    destruct (dict_get "members" sect_data) as [[| | | | members |] |];
      try apply leads_ret.
    unfold reconcile_sect_members.
    apply leads_bind; [apply leads_get_sect_members |]. intros current.
    apply leads_bind.
    + apply leads_for_each. intros member_id _.
      apply leads_bind; [apply leads_not_in_str_set |].
      intros [|]; [| apply leads_ret].
      apply leads_bind; [apply leads_add_sect_member, Ha |].
      intros _. apply leads_ret.
    + intros _. apply leads_for_each. intros member _.
      destruct (negb _); [| apply leads_ret].
      apply leads_bind; [apply leads_remove_sect_member, Ha |].
      intros _. apply leads_ret.
  - apply leads_bind; [apply leads_as_dict |]. intros sect_data.
    apply leads_bind; [apply leads_create_sect, Ha |]. intros _.
    destruct (dict_get "members" sect_data) as [[| | | | members |] |];
      try apply leads_ret.
    unfold add_new_sect_members.
    apply leads_for_each. intros member_id _.
    destruct (negb _); [| apply leads_ret].
    apply leads_bind; [apply leads_add_sect_member, Ha |].
    intros _. apply leads_ret.
Qed.

Lemma leads_save_loop existing data :
  (forall entry, In entry data -> allowed (fst entry)) ->
  leads I I (for_each data (save_sect existing)) I.
Proof.
  intros Ha. apply leads_for_each. intros entry He.
  apply leads_save_sect, Ha, He.
Qed.

Lemma leads_delete_loop existing (data : pydict) :
  leads I I
    (for_each existing (fun sect_id =>
       if negb (dict_has sect_id data) then delete_sect sect_id
       else ret tt)) I.
Proof.
  apply leads_for_each. intros sect_id _.
  destruct (negb _); [apply leads_delete_sect | apply leads_ret].
Qed.

Lemma leads_save_sects_data data :
  (forall entry, In entry data -> allowed (fst entry)) ->
  leads I I (save_sects_data data) I.
Proof.
  intros Ha. unfold save_sects_data, absorb_sects.
  apply leads_try_exception; [| apply leads_rollback; auto].
  apply leads_bind; [apply leads_query |]. intros existing.
  apply leads_bind; [apply leads_save_loop, Ha |]. intros _.
  apply leads_bind; [apply leads_delete_loop |]. intros _.
  apply leads_commit. auto.
Qed.

End Sect_invariant.

Lemma NoDup_map_filter {A B} (f : A -> B) (g : A -> bool) (l : list A) :
  NoDup (map f l) -> NoDup (map f (filter g l)).
Proof.
  induction l as [| a l IH]; simpl; intros H; [exact H |].
  inversion H as [| x xs Hn Hd]; subst.
  destruct (g a); simpl; [| auto].
  constructor; [| auto].
  intros Hin. apply Hn. apply in_map_iff in Hin.
  destruct Hin as (y & Hy & Hin). apply filter_In in Hin.
  apply in_map_iff. exists y. tauto.
Qed.

Lemma NoDup_app_one {A} (l : list A) (x : A) :
  NoDup l -> ~ In x l -> NoDup (l ++ [x]).
Proof.
  induction l as [| a l IH]; simpl; intros Hd Hn.
  - constructor; [intros [] | constructor].
  - inversion Hd; subst. constructor.
    + rewrite in_app_iff. simpl. intuition.
    + apply IH; [assumption | intuition].
Qed.

Section Consistency.
Context {RT : PyRuntime}.

Lemma ok_add_user d x :
  sect_store_ok d -> sect_store_ok (with_users d (users d ++ [x])).
Proof.
  intros (Hu & Hs & Hm). split; [| split; assumption].
  intros m Hin. specialize (Hu m Hin).
  apply find_user_iff. apply find_user_iff in Hu.
  simpl. rewrite map_app. apply in_or_app. left. exact Hu.
Qed.

Lemma ok_set_sects d rows :
  sect_store_ok d -> map s_sect_id rows = map s_sect_id (sects d) ->
  sect_store_ok (with_sects d rows).
Proof.
  intros (Hu & Hs & Hm) E. split; [exact Hu |]. split; [| exact Hm].
  unfold sect_ids_unique. simpl. rewrite E. exact Hs.
Qed.

Lemma ok_add_sect d x :
  sect_store_ok d -> find_sect (s_sect_id x) d = None ->
  sect_store_ok (with_sects d (sects d ++ [x])).
Proof.
  intros (Hu & Hs & Hm) F. split; [exact Hu |]. split; [| exact Hm].
  unfold sect_ids_unique. simpl. rewrite map_app. simpl.
  apply NoDup_app_one; [exact Hs |].
  intros Hin. apply find_sect_iff in Hin. contradiction.
Qed.

Lemma ok_del_sect d sect_id :
  sect_store_ok d ->
  sect_store_ok
    (with_sects d
       (filter (fun r => negb (s_sect_id r =? sect_id)%string) (sects d))).
Proof.
  intros (Hu & Hs & Hm). split; [exact Hu |]. split; [| exact Hm].
  unfold sect_ids_unique. simpl. apply NoDup_map_filter, Hs.
Qed.

Lemma ok_del_member d sect_id user_id :
  sect_store_ok d ->
  sect_store_ok
    (with_sect_members d
       (filter (fun r => negb (sect_member_match sect_id user_id r))
               (sect_members d))).
Proof.
  intros (Hu & Hs & Hm). split; [| split; [exact Hs |]].
  - intros m Hin. simpl in Hin. apply filter_In in Hin.
    exact (Hu m (proj1 Hin)).
  - unfold memberships_unique. simpl. apply NoDup_map_filter, Hm.
Qed.

Lemma ok_add_member d sect_id user_id role ts :
  sect_store_ok d -> find_user user_id d <> None ->
  sect_store_ok
    (with_sect_members d
       (filter (fun r => negb (sect_member_match sect_id user_id r))
               (sect_members d)
        ++ [mk_sect_member sect_id user_id role ts])).
Proof.
  intros (Hu & Hs & Hm) Hx. split; [| split; [exact Hs |]].
  - intros m Hin. simpl in Hin. apply in_app_iff in Hin.
    destruct Hin as [Hin | [<- | []]].
    + apply filter_In in Hin. exact (Hu m (proj1 Hin)).
    + exact Hx.
  - unfold memberships_unique. simpl. rewrite map_app. simpl.
    apply NoDup_app_one; [apply NoDup_map_filter, Hm |].
    intros Hin. apply in_map_iff in Hin. destruct Hin as (y & Hy & Hin).
    apply filter_In in Hin. destruct Hin as [_ Hin].
    unfold membership_key in Hy. simpl in Hy. inversion Hy as [[E1 E2]].
    unfold sect_member_match in Hin. rewrite E1, E2, !String.eqb_refl in Hin.
    discriminate Hin.
Qed.

(** X14.  The keys and the references of the sect tables are kept.  On a
    store in which every membership row names a stored user, no two sects
    share an id and no two membership rows share a (sect, user) pair,
    every sect method and the absorb of any sects document leave a store
    of that kind, in the working copy and in the committed database,
    however the call ends.  No storage fault is pending before or
    after. *)
Theorem sect_tables_stay_consistent
        (c : conn) (Q : quiet c)
        (Hw : sect_store_ok (working c)) (Hc : sect_store_ok (committed c)) :
  let ok (c' : conn) :=
    quiet c' /\ sect_store_ok (working c') /\ sect_store_ok (committed c') in
  (forall user_id, ok (conn_of (get_user user_id c))) /\
  (forall sect_id name leader_id description level wealth,
     ok (conn_of (create_sect sect_id name leader_id description level
                              wealth c))) /\
  (forall sect_id data, ok (conn_of (update_sect sect_id data c))) /\
  (forall sect_id user_id role,
     ok (conn_of (add_sect_member sect_id user_id role c))) /\
  (forall sect_id user_id,
     ok (conn_of (remove_sect_member sect_id user_id c))) /\
  (forall data, ok (conn_of (save_sects_data data c))).
Proof.
  cbv zeta.
  pose proof ok_add_user as A1. pose proof ok_set_sects as A2.
  assert (A3 : forall d x, True -> sect_store_ok d ->
                 find_sect (s_sect_id x) d = None ->
                 sect_store_ok (with_sects d (sects d ++ [x])))
    by (intros d x _; apply ok_add_sect).
  pose proof ok_del_sect as A4.
  assert (A5 : forall d sect_id user_id role ts, True -> sect_store_ok d ->
                 find_user user_id d <> None ->
                 sect_store_ok
                   (with_sect_members d
                      (filter (fun r => negb (sect_member_match sect_id
                                                user_id r))
                              (sect_members d)
                       ++ [mk_sect_member sect_id user_id role ts])))
    by (intros d sect_id user_id role ts _; apply ok_add_member).
  assert (A6 : forall d sect_id user_id, True -> sect_store_ok d ->
                 sect_store_ok
                   (with_sect_members d
                      (filter (fun r => negb (sect_member_match sect_id
                                                user_id r))
                              (sect_members d))))
    by (intros d sect_id user_id _; apply ok_del_member).
  refine (conj _ (conj _ (conj _ (conj _ (conj _ _))))).
  - intros user_id. exact (leads_get_user _ A1 user_id c Q Hw Hc).
  - intros sect_id name leader_id description level wealth.
    exact (leads_create_sect _ (fun _ => True) A1 A3 A5 sect_id name
             leader_id description level wealth Logic.I c Q Hw Hc).
  - intros sect_id data.
    exact (leads_update_sect _ A2 sect_id data c Q Hw Hc).
  - intros sect_id user_id role.
    exact (leads_add_sect_member _ (fun _ => True) A1 A5 sect_id user_id role
             Logic.I c Q Hw Hc).
  - intros sect_id user_id.
    exact (leads_remove_sect_member _ (fun _ => True) A6 sect_id user_id
             Logic.I c Q Hw Hc).
  - intros data.
    exact (leads_save_sects_data _ (fun _ => True) A1 A2 A3 A4 A5 A6 data
             (fun _ _ => Logic.I) c Q Hw Hc).
Qed.

End Consistency.

(** ** Sects that an absorbed document does not list *)

Lemma find_filter_none {A} (f g : A -> bool) (l : list A) :
  (forall x, f x = true -> g x = false) -> find f (filter g l) = None.
Proof.
  intros H. induction l as [| a l IH]; simpl; [reflexivity |].
  destruct (g a) eqn:Eg; simpl; [| exact IH].
  destruct (f a) eqn:Ef; [| exact IH].
  rewrite (H a Ef) in Eg. discriminate.
Qed.

Section Unlisted_sects.
Context {RT : PyRuntime}.

(** The deletion loop of [save_sects_data] without storage faults. *)
Lemma delete_loop_quiet (data : pydict) (existing : list string) c :
  quiet c ->
  for_each existing (fun sect_id =>
    if negb (dict_has sect_id data) then delete_sect sect_id else ret tt) c
  = Ret tt
      (mk_conn (committed c)
         (with_sects (working c)
            (filter (kept_sect existing data) (sects (working c))))
         (faults c) (now c)).
Proof.
  revert c. induction existing as [| x existing IH]; intros c Q.
  - simpl. unfold ret. f_equal.
    rewrite (filter_ext (kept_sect [] data) (fun _ => true)).
    + assert (E : forall l : list sect_row, filter (fun _ => true) l = l).
      { induction l as [| a l IHl]; simpl; [| rewrite IHl]; reflexivity. }
      rewrite E, with_sects_same. destruct c; reflexivity.
    + intros r. unfold kept_sect. simpl. apply orb_true_r.
  - cbn [for_each].
    destruct (dict_has x data) eqn:Ex; cbn [negb].
    + change ((ret tt ;;; for_each existing (fun sect_id =>
                 if negb (dict_has sect_id data) then delete_sect sect_id
                 else ret tt)) c)
        with (for_each existing (fun sect_id =>
                 if negb (dict_has sect_id data) then delete_sect sect_id
                 else ret tt) c).
      rewrite (IH c Q). do 3 f_equal.
      apply filter_ext. intros r. unfold kept_sect, str_mem. simpl.
      destruct (s_sect_id r =? x)%string eqn:E; [| reflexivity].
      apply String.eqb_eq in E. rewrite E, Ex. reflexivity.
    + unfold bind at 1. unfold delete_sect. rewrite (update_quiet _ c Q).
      rewrite IH by exact Q.
      assert (E : forall l : list sect_row,
                 filter (kept_sect existing data)
                   (filter (fun r => negb (s_sect_id r =? x)%string) l)
                 = filter (kept_sect (x :: existing) data) l).
      { induction l as [| a l IHl]; simpl; [reflexivity |].
        unfold kept_sect at 2. unfold str_mem. simpl.
        destruct (s_sect_id a =? x)%string eqn:E; simpl.
        - apply String.eqb_eq in E. rewrite E, Ex. simpl. exact IHl.
        - fold (str_mem (s_sect_id a) existing).
          fold (kept_sect existing data a).
          destruct (kept_sect existing data a); [rewrite IHl |]; auto. }
      destruct c as [cm w fs ts]. destruct w. simpl. rewrite E. reflexivity.
Qed.

Lemma unlisted_keys s (data : pydict) :
  dict_has s data = false ->
  forall entry, In entry data -> fst entry <> s.
Proof.
  intros H entry Hin E. unfold dict_has in H.
  destruct (dict_get s data) eqn:G; [discriminate |].
  apply (dict_get_in s data); [| exact G].
  rewrite <- E. apply in_map, Hin.
Qed.

(** X15.  A sect that the absorbed document does not list.  (a) Whatever
    the document holds and however the absorb ends, the membership rows of
    such a sect are untouched.  (b) When the document is plain, so that the
    absorb does not raise, the sect is deleted and its membership rows
    stay behind; (c) and a later [create_sect] for that id, led by a user
    who has such a row, returns false. *)
Theorem absorb_orphans_members_of_unlisted_sect
        (s : string) (data : pydict) (c : conn)
        (S : steady c)
        (Hunlisted : dict_has s data = false) :
  rows_of s (working (conn_of (save_sects_data data c)))
  = rows_of s (working c) /\
  (plain_sects_doc data = true ->
   find_sect s (working c) <> None ->
   exists c',
     save_sects_data data c = Ret tt c' /\
     committed c' = working c' /\
     find_sect s (working c') = None /\
     rows_of s (working c') = rows_of s (working c) /\
     forall m name description level wealth
            c_name c_description c_level c_wealth,
       In m (rows_of s (working c)) ->
       bind_param name = inr c_name ->
       bind_param description = inr c_description ->
       bind_param level = inr c_level ->
       bind_param wealth = inr c_wealth ->
       exists c'',
         create_sect s name (PStr (sm_user_id m)) description level wealth c'
         = Ret false c'' /\
         find_sect s (working c'') = None).
Proof.
  pose proof S as [Q St].
  set (I := fun d => rows_of s d = rows_of s (working c)).
  set (allowed := fun sect_id : string => sect_id <> s).
  assert (A1 : forall d x, I d -> I (with_users d (users d ++ [x])))
    by (intros d x H; exact H).
  assert (A2 : forall d rows, I d ->
                 map s_sect_id rows = map s_sect_id (sects d) ->
                 I (with_sects d rows)) by (intros d rows H _; exact H).
  assert (A3 : forall d x, allowed (s_sect_id x) -> I d ->
                 find_sect (s_sect_id x) d = None ->
                 I (with_sects d (sects d ++ [x])))
    by (intros d x _ H _; exact H).
  assert (A4 : forall d sect_id, I d ->
                 I (with_sects d
                      (filter (fun r => negb (s_sect_id r =? sect_id)%string)
                              (sects d)))) by (intros d x H; exact H).
  assert (A5 : forall d sect_id user_id role ts, allowed sect_id -> I d ->
                 find_user user_id d <> None ->
                 I (with_sect_members d
                      (filter (fun r => negb (sect_member_match sect_id
                                                user_id r))
                              (sect_members d)
                       ++ [mk_sect_member sect_id user_id role ts]))).
  { intros d sect_id user_id role ts Ha H _. unfold I in *.
    rewrite <- H.
    apply (frame_other_members s d sect_id user_id
             [mk_sect_member sect_id user_id role ts] Ha).
    intros x [<- | []]. reflexivity. }
  assert (A6 : forall d sect_id user_id, allowed sect_id -> I d ->
                 I (with_sect_members d
                      (filter (fun r => negb (sect_member_match sect_id
                                                user_id r))
                              (sect_members d)))).
  { intros d sect_id user_id Ha H. unfold I in *. rewrite <- H.
    pose proof (proj1 (frame_other_members s d sect_id user_id [] Ha
                         (fun x (Hx : In x []) => match Hx with end))) as F.
    rewrite app_nil_r in F. exact F. }
  assert (Hall : forall entry, In entry data -> allowed (fst entry))
    by (apply unlisted_keys, Hunlisted).
  assert (Iw : I (working c)) by reflexivity.
  assert (Ic : I (committed c)) by (unfold I; rewrite St; reflexivity).
  split.
  { exact (proj1 (proj2 (leads_save_sects_data I allowed A1 A2 A3 A4 A5 A6
                           data Hall c Q Iw Ic))). }
  intros Hplain Hstored.
  destruct (returns_absorb_sects data Hplain c Q) as ([] & c' & Hrun & Q').
  exists c'.
  split; [unfold save_sects_data, try_exception; rewrite Hrun; reflexivity |].
  unfold absorb_sects in Hrun.
  apply bind_Ret_inv in Hrun. destruct Hrun as (existing & c0 & Hq & H).
  rewrite (query_quiet _ c Q) in Hq. inversion Hq; subst existing c0. clear Hq.
  apply bind_Ret_inv in H. destruct H as ([] & c3 & Hloop & H).
  apply bind_Ret_inv in H. destruct H as ([] & c4 & Hdel & Hcommit).
  destruct (leads_save_loop I allowed A1 A2 A3 A5 A6
              (select_sect_ids (working c)) data Hall c Q Iw Ic)
    as (Q3 & I3 & _).
  rewrite Hloop in Q3, I3. simpl in Q3, I3.
  rewrite (delete_loop_quiet data _ c3 Q3) in Hdel.
  injection Hdel as Hc4.
  apply commit_Ret_inv in Hcommit. destruct Hcommit as (Hw & Hc & _).
  assert (Hgone : find_sect s (working c') = None).
  { rewrite Hw, <- Hc4. unfold find_sect. simpl.
    apply find_filter_none. intros r Hr. apply String.eqb_eq in Hr.
    unfold kept_sect. rewrite Hr, Hunlisted. simpl.
    apply negb_false_iff, str_mem_In.
    apply find_sect_iff, Hstored. }
  assert (Hrows : rows_of s (working c') = rows_of s (working c)).
  { rewrite Hw, <- Hc4. exact I3. }
  split; [rewrite Hw, Hc; reflexivity |].
  split; [exact Hgone |]. split; [exact Hrows |].
  intros m name description level wealth c_name c_description c_level
         c_wealth Hm B1 B2 B3 B4.
  assert (S' : steady c') by (split; [exact Q' | rewrite Hw, Hc; reflexivity]).
  rewrite (create_sect_quiet s name (PStr (sm_user_id m)) description level
             wealth c_name c_description c_level c_wealth c' S' B1 B2 B3 B4).
  cbv zeta. simpl py_str.
  destruct (after_get_user_frame (sm_user_id m) c' Q')
    as (_ & _ & Hs1 & Hm1 & _).
  set (c1 := after_get_user (sm_user_id m) c') in *.
  assert (F1 : find_sect s (working c1) = None).
  { unfold find_sect in *. rewrite Hs1. exact Hgone. }
  rewrite F1.
  assert (E1 : existsb (sect_member_match s (sm_user_id m))
                       (sect_members (working c1)) = true).
  { rewrite Hm1. apply existsb_exists. exists m.
    rewrite <- Hrows in Hm. unfold rows_of in Hm. apply filter_In in Hm.
    destruct Hm as [Hin Hs]. split; [exact Hin |].
    unfold sect_member_match. rewrite Hs, String.eqb_refl. reflexivity. }
  rewrite E1. exists c1. split; [reflexivity | exact F1].
Qed.

End Unlisted_sects.

(** ** Tournaments *)

Section More_tournaments.
Context {RT : PyRuntime}.

Lemma get_tournament_quiet tournament_id c :
  quiet c ->
  get_tournament tournament_id c
  = match find_tournament tournament_id (working c) with
    | None => Ret None c
    | Some r =>
        match loads_reward_data (t_reward_data r) with
        | inr v => Ret (Some (tournament_dict r v)) c
        | inl e => if is_sqlite e then Ret None c else Raise e c
        end
    end.
Proof.
  intros Q. unfold get_tournament, try_sqlite, bind.
  rewrite (query_quiet _ c Q).
  destruct (find_tournament tournament_id (working c)) as [r |];
    [| reflexivity].
  destruct (loads_reward_data (t_reward_data r)) as [e | v]; reflexivity.
Qed.

(** A stored [reward_data] that is not a text is the only one that cannot
    be read. *)
Lemma loads_reward_data_error j e :
  loads_reward_data j = inl e -> e = TypeError.
Proof.
  destruct j as [v | [| z | s]]; simpl; try discriminate;
    try (intros H; inversion H; reflexivity).
  destruct (json_loads s); discriminate.
Qed.

(** X16.  [add_tournament_participant] without storage faults, for a bot
    name that can be bound.  For a tournament that is not stored the call
    returns false and changes nothing: no user row is created.  For a
    stored tournament whose reward data can be read, the call returns
    true and leaves one participant row of the pair, the last of the
    table; a user row is created for a participant that is not a bot, and
    none for a bot. *)
Theorem add_tournament_participant_cases
        (tournament_id : string) (participant_id : pyval) (is_bot : bool)
        (bot_name : pyval) (c_bot_name : cell) (c : conn)
        (Q : quiet c) (B : bind_param bot_name = inr c_bot_name) :
  match find_tournament tournament_id (working c) with
  | None =>
      add_tournament_participant tournament_id participant_id is_bot
                                 bot_name c = Ret false c
  | Some row =>
      forall v, loads_reward_data (t_reward_data row) = inr v ->
      exists c',
        add_tournament_participant tournament_id participant_id is_bot
                                   bot_name c = Ret true c' /\
        committed c' = working c' /\
        tournament_participants (working c')
        = filter (fun r => negb (participant_match tournament_id
                                   (py_str participant_id) r))
                 (tournament_participants (working c))
          ++ [mk_participant tournament_id (py_str participant_id) (now c)
                is_bot (aff_text c_bot_name)] /\
        users (working c')
        = if is_bot then users (working c)
          else users (working (after_get_user (py_str participant_id) c))
  end.
Proof.
  destruct (find_tournament tournament_id (working c)) as [row |] eqn:F.
  2:{ unfold add_tournament_participant, try_sqlite.
      unfold bind at 1. rewrite (get_tournament_quiet _ c Q), F.
      reflexivity. }
  intros v Hv.
  unfold add_tournament_participant, try_sqlite.
  unfold bind at 1. rewrite (get_tournament_quiet _ c Q), F, Hv.
  destruct is_bot.
  - unfold bind, bind_value. rewrite B. unfold ret, current_timestamp.
    rewrite (update_quiet _ c Q). rewrite commit_quiet by exact Q.
    eexists. split; [reflexivity |]. repeat split.
  - destruct (get_user_after (py_str participant_id) c Q) as (r & E).
    destruct (after_get_user_frame (py_str participant_id) c Q)
      as (Q1 & Hnow & _).
    unfold bind at 1. unfold bind at 1. unfold bind at 1. rewrite E.
    unfold ret at 1.
    unfold bind, bind_value. rewrite B. unfold ret, current_timestamp.
    rewrite (update_quiet _ _ Q1). rewrite commit_quiet by exact Q1.
    eexists. split; [reflexivity |]. split; [reflexivity |].
    split; [| reflexivity].
    simpl. rewrite Hnow. f_equal.
    unfold after_get_user.
    destruct (find_user (py_str participant_id) (working c)); reflexivity.
Qed.

(** The helpers of the projection touch no storage. *)
Lemma copy_reward_keys_pure keys src dst c :
  (exists r, copy_reward_keys keys src dst c = Ret r c) \/
  (exists e, copy_reward_keys keys src dst c = Raise e c).
Proof.
  revert dst. induction keys as [| key keys IH]; intros dst; simpl.
  - left. eexists. reflexivity.
  - unfold bind.
    assert (P : (exists b, py_contains key src c = Ret b c) \/
                (exists e, py_contains key src c = Raise e c)).
    { destruct src; simpl; unfold ret, raise; eauto. }
    destruct P as [(b & ->) | (e & ->)]; [| eauto].
    destruct b; [| apply IH].
    assert (S : (exists x, py_subscript key src c = Ret x c) \/
                (exists e, py_subscript key src c = Raise e c)).
    { destruct src as [| | | | | d]; simpl; unfold ret, raise; eauto.
      destruct (dict_get key d); unfold ret, raise; eauto. }
    destruct S as [(x & ->) | (e & ->)]; [apply IH | eauto].
Qed.

(** One tournament that cannot be read makes the projection raise. *)
Lemma project_tournaments_raises tournament_id row c :
  quiet c ->
  find_tournament tournament_id (working c) = Some row ->
  loads_reward_data (t_reward_data row) = inl TypeError ->
  forall ids result,
    In tournament_id ids ->
    exists e, project_tournaments ids result c = Raise e c.
Proof.
  intros Q F L. induction ids as [| x ids IH]; intros result Hin;
    [destruct Hin |].
  cbn [project_tournaments]. unfold bind at 1.
  rewrite (get_tournament_quiet _ c Q).
  destruct (string_dec x tournament_id) as [-> | Hne].
  - rewrite F, L. simpl. eauto.
  - destruct Hin as [Hx | Hin]; [contradiction |].
    destruct (find_tournament x (working c)) as [r |].
    + destruct (loads_reward_data (t_reward_data r)) as [e | v] eqn:Lr.
      * rewrite (loads_reward_data_error _ _ Lr). simpl. eauto.
      * unfold bind at 1.
        assert (G : get_tournament_participants x c
                    = Ret (select_participants x (working c)) c).
        { unfold get_tournament_participants, try_sqlite.
          rewrite (query_quiet _ c Q). reflexivity. }
        rewrite G. unfold bind at 1.
        destruct (copy_reward_keys_pure reward_keys
                    (dict_get_default "reward_data" (PDict [])
                       (tournament_dict r v))
                    (tournament_entry x (tournament_dict r v)) c)
          as [(entry & ->) | (e & ->)]; [| eauto].
        destruct (project_participants _ [] []) as [ids' bot_names].
        apply IH, Hin.
    + unfold bind at 1.
      assert (G : get_tournament_participants x c
                  = Ret (select_participants x (working c)) c).
      { unfold get_tournament_participants, try_sqlite.
        rewrite (query_quiet _ c Q). reflexivity. }
      rewrite G. unfold raise. eauto.
Qed.

(** X17.  A tournament whose reward data has been set to [None] can no
    longer be read.  [update_tournament] stores the NULL and returns true;
    from then on [get_tournament], [update_tournament] and
    [add_tournament_participant] raise [TypeError] for that tournament,
    leaving the store as it is, and [get_tournaments_data] gives the empty
    document, whatever other tournaments are stored. *)
Theorem unreadable_reward_data
        (tournament_id : string) (row : tournament_row) (v : pyval) (c : conn)
        (Q : quiet c)
        (F : find_tournament tournament_id (working c) = Some row)
        (L : loads_reward_data (t_reward_data row) = inr v) :
  exists c',
    update_tournament tournament_id [("reward_data", PNone)] c = Ret true c' /\
    get_tournament tournament_id c' = Raise TypeError c' /\
    (forall data, update_tournament tournament_id data c'
                  = Raise TypeError c') /\
    (forall participant_id is_bot bot_name,
       add_tournament_participant tournament_id participant_id is_bot
                                  bot_name c' = Raise TypeError c') /\
    get_tournaments_data c' = Ret [] c'.
Proof.
  set (g := fun r : tournament_row =>
              mk_tournament (t_tournament_id r) (t_host_id r) (t_title r)
                (t_description r) (t_status r) (t_created_at r)
                (t_winner_id r) (JRaw CNull)).
  set (c' := stored c
               (with_tournaments (working c)
                  (map (fun r => if (t_tournament_id r =? tournament_id)%string
                                 then g r else r)
                       (tournaments (working c))))).
  assert (Q' : quiet c') by exact Q.
  assert (F' : find_tournament tournament_id (working c') = Some (g row)).
  { unfold find_tournament in *. simpl.
    rewrite (find_map_matching
               (fun r => (t_tournament_id r =? tournament_id)%string) g)
      by (intros x Hx; exact Hx).
    rewrite F. reflexivity. }
  assert (G : get_tournament tournament_id c' = Raise TypeError c').
  { rewrite (get_tournament_quiet _ c' Q'), F'. reflexivity. }
  exists c'. split; [| split; [exact G | split; [| split]]].
  - unfold update_tournament, try_sqlite. unfold bind at 1.
    rewrite (get_tournament_quiet _ c Q), F, L.
    cbn [filter fst snd String.eqb Ascii.eqb Bool.eqb negb
         bind_tournament_fields bind_tournament_field bind_param].
    unfold bind. rewrite (execute_quiet _ c Q).
    change (known_cols set_tournament_col blank_tournament
              [("reward_data", JRaw CNull)]) with true.
    cbv iota.
    rewrite (update_where_map _ _ _ g) by reflexivity.
    rewrite commit_quiet by exact Q. reflexivity.
  - intros data. unfold update_tournament, try_sqlite. unfold bind at 1.
    rewrite G. reflexivity.
  - intros participant_id is_bot bot_name.
    unfold add_tournament_participant, try_sqlite. unfold bind at 1.
    rewrite G. reflexivity.
  - unfold get_tournaments_data, try_exception. unfold bind at 1.
    rewrite (query_quiet _ c' Q').
    destruct (project_tournaments_raises tournament_id (g row) c' Q' F'
                eq_refl (select_tournament_ids (working c')) [])
      as (e & ->); [| reflexivity].
    unfold find_tournament in F'. apply find_some in F'.
    destruct F' as [Hin Hid]. apply String.eqb_eq in Hid.
    unfold select_tournament_ids. rewrite <- Hid. apply in_map, Hin.
Qed.

End More_tournaments.

(** ** A sect that an absorbed document lists and the store does not have *)

Section New_sect.
Context {RT : PyRuntime}.

(** [create_sect] for an id that is free, without storage faults. *)
Lemma create_sect_fresh sect_id name leader_id description level wealth
      c_name c_description c_level c_wealth c :
  quiet c ->
  bind_param name = inr c_name ->
  bind_param description = inr c_description ->
  bind_param level = inr c_level ->
  bind_param wealth = inr c_wealth ->
  find_sect sect_id (working c) = None ->
  existsb (sect_member_match sect_id (py_str leader_id))
          (sect_members (working c)) = false ->
  create_sect sect_id name leader_id description level wealth c
  = let c1 := after_get_user (py_str leader_id) c in
    Ret true
      (stored c1
         (with_sect_members
            (with_sects (working c1)
               (sects (working c1) ++
                [mk_sect sect_id (aff_text c_name) (CText (py_str leader_id))
                   (aff_text c_description) (CText (now c1))
                   (aff_numeric c_level) (aff_numeric c_wealth) (CInt 10)]))
            (sect_members (working c1) ++
             [mk_sect_member sect_id (py_str leader_id) "leader" (now c1)]))).
Proof.
  intros Q H1 H2 H3 H4 F E. cbv zeta.
  destruct (get_user_after (py_str leader_id) c Q) as (r & Eu).
  destruct (after_get_user_frame (py_str leader_id) c Q)
    as (Q1 & _ & Hs & Hm & _).
  set (c1 := after_get_user (py_str leader_id) c) in *.
  assert (F1 : find_sect sect_id (working c1) = None)
    by (unfold find_sect in *; rewrite Hs; exact F).
  unfold create_sect, try_sqlite. unfold bind at 1. rewrite Eu.
  unfold bind, bind_value. rewrite H1, H2, H3, H4.
  unfold ret, current_timestamp.
  rewrite (execute_quiet _ c1 Q1), F1.
  rewrite execute_quiet by exact Q1.
  cbn [working with_sects sect_members]. rewrite Hm, E.
  rewrite commit_quiet by exact Q1. reflexivity.
Qed.

(** The loop that adds the listed members of a sect that has just been
    created. *)
Lemma new_members_loop s leader (sect_data : pydict) :
  dict_get "leader" sect_data = Some (PStr leader) ->
  forall (news done : list string) (c c' : conn),
    new_sect_inv s leader done c ->
    for_each (map PStr news) (fun member_id =>
      if negb (py_eqb member_id (dict_get_none "leader" sect_data)) then
        add_sect_member s member_id "member" ;;; ret tt
      else ret tt) c = Ret tt c' ->
    new_sect_inv s leader (done ++ news) c'.
Proof.
  intros Hl. induction news as [| u news IH]; intros done c c' Hinv H.
  - simpl in H. inversion H; subst. rewrite app_nil_r. exact Hinv.
  - cbn [map for_each] in H. apply bind_Ret_inv in H.
    destruct H as ([] & c1 & Hstep & Hrest).
    replace (done ++ u :: news) with ((done ++ [u]) ++ news)
      by (rewrite <- app_assoc; reflexivity).
    apply (IH (done ++ [u]) c1 c'); [| exact Hrest]. clear IH Hrest.
    destruct Hinv as (St & Hs & Hrows & Hlead & Hdone & Hfk).
    unfold dict_get_none, dict_get_default in Hstep. rewrite Hl in Hstep.
    cbn [py_eqb] in Hstep.
    destruct (u =? leader)%string eqn:Eu; cbn [negb] in Hstep.
    + apply String.eqb_eq in Eu. subst u.
      inversion Hstep; subst c1.
      split; [exact St |]. split; [exact Hs |]. split; [| split; [| split]].
      * intros m Hm. destruct (Hrows m Hm) as [H | (H1 & H2 & H3)]; auto.
        right. split; [exact H1 |]. split; [| exact H3].
        apply in_or_app. left. exact H2.
      * exact Hlead.
      * intros x Hx. apply in_app_iff in Hx.
        destruct Hx as [Hx | [<- | []]]; auto.
      * exact Hfk.
    + assert (Hne : u <> leader).
      { intros ->. rewrite String.eqb_refl in Eu. discriminate. }
      apply bind_Ret_inv in Hstep. destruct Hstep as (b & c2 & Hadd & Hret).
      inversion Hret; subst c2. clear Hret.
      pose proof St as [Q _].
      rewrite (add_sect_member_quiet _ _ _ c Q) in Hadd. cbv zeta in Hadd.
      simpl py_str in Hadd.
      destruct (after_get_user_frame u c Q)
        as (Q1 & Hnow & Hs1 & Hm1 & Hu1 & Hmono & _).
      set (k := after_get_user u c) in *.
      assert (F1 : find_sect s (working k) <> None)
        by (unfold find_sect in *; rewrite Hs1; exact Hs).
      destruct (find_sect s (working k)) as [row |] eqn:Fk;
        [| contradiction].
      inversion Hadd; subst b c1. clear Hadd.
      assert (Hr : rows_of s (working k) = rows_of s (working c))
        by (unfold rows_of; rewrite Hm1; reflexivity).
      assert (Hrows' :
                rows_of s
                  (with_sect_members (working k)
                     (filter (fun r => negb (sect_member_match s u r))
                             (sect_members (working k))
                      ++ [mk_sect_member s u "member" (now k)]))
                = filter (not_user u) (rows_of s (working c))
                  ++ [mk_sect_member s u "member" (now k)]).
      { rewrite (rows_of_replace s (working k) u) by reflexivity.
        rewrite Hr. reflexivity. }
      split; [apply steady_stored, Q1 |].
      split.
      { unfold find_sect in *. simpl. rewrite Fk. discriminate. }
      cbn [working stored]. rewrite Hrows'.
      split; [| split; [| split]].
      * intros m Hm. apply in_app_iff in Hm.
        destruct Hm as [Hm | [<- | []]].
        -- apply In_filter_not_user in Hm. destruct Hm as [Hm _].
           destruct (Hrows m Hm) as [H | (H1 & H2 & H3)]; auto.
           right. split; [exact H1 |]. split; [| exact H3].
           apply in_or_app. left. exact H2.
        -- right. simpl. split; [exact Hne |]. split; [| reflexivity].
           apply in_or_app. right. left. reflexivity.
      * unfold users_of in *. rewrite map_app. apply in_or_app. left.
        apply in_map_iff in Hlead. destruct Hlead as (m & Em & Hm).
        apply in_map_iff. exists m. split; [exact Em |].
        apply In_filter_not_user. split; [exact Hm | congruence].
      * intros x Hx. unfold users_of in *. rewrite map_app.
        destruct (string_dec x u) as [-> | Hxu].
        -- apply in_or_app. right. left. reflexivity.
        -- apply in_app_iff in Hx.
           destruct Hx as [Hx | [Hx | []]]; [| congruence].
           apply in_or_app. left.
           specialize (Hdone x Hx). apply in_map_iff in Hdone.
           destruct Hdone as (m & Em & Hm).
           apply in_map_iff. exists m. split; [exact Em |].
           apply In_filter_not_user. split; [exact Hm | congruence].
      * intros m Hm. apply in_app_iff in Hm.
        assert (Hfu : forall x, find_user x (working k) <> None ->
                  find_user x
                    (with_sect_members (working k)
                       (filter (fun r => negb (sect_member_match s u r))
                               (sect_members (working k))
                        ++ [mk_sect_member s u "member" (now k)])) <> None)
          by (intros x Hx; exact Hx).
        destruct Hm as [Hm | [<- | []]].
        -- apply In_filter_not_user in Hm. destruct Hm as [Hm _].
           apply Hfu, Hmono, Hfk, Hm.
        -- apply Hfu. exact Hu1.
Qed.

Lemma find_none_filter {A} (f g : A -> bool) (l : list A) :
  find f l = None -> find f (filter g l) = None.
Proof.
  intros H. induction l as [| a l IH]; simpl in *; [reflexivity |].
  destruct (f a) eqn:Ef; [discriminate |].
  destruct (g a); simpl; [rewrite Ef |]; auto.
Qed.

(** X18.  A sect that the document lists and the store does not have.
    Take a connection with nothing pending, a store that has neither the
    sect [s] nor a membership row for it, and a plain document without
    repeated keys that lists [s] with a leader and members given as
    strings and values that can be bound.  The absorb returns and commits;
    afterwards [s] is stored, the users of its membership rows are the
    leader and the listed members, the leader holds the role [leader] and
    everyone else the role [member], and each of them has a user row. *)
Theorem absorb_creates_listed_sect
        (s leader : string) (data sect_data : pydict) (new : list string)
        (c_name c_description c_level c_wealth : cell) (c : conn)
        (S : steady c)
        (Hkeys : NoDup (map fst data))
        (Hplain : plain_sects_doc data = true)
        (Hentry : dict_get s data = Some (PDict sect_data))
        (Hleader : dict_get "leader" sect_data = Some (PStr leader))
        (Hmembers : dict_get "members" sect_data
                    = Some (PList (map PStr new)))
        (B1 : bind_param (dict_get_default "name"
                            (PStr ("Sect " ++ s)%string) sect_data)
              = inr c_name)
        (B2 : bind_param (dict_get_default "description" (PStr "") sect_data)
              = inr c_description)
        (B3 : bind_param (dict_get_default "level" (PInt 1) sect_data)
              = inr c_level)
        (B4 : bind_param (dict_get_default "wealth" (PInt 0) sect_data)
              = inr c_wealth)
        (Hfree : find_sect s (working c) = None)
        (Hnone : rows_of s (working c) = []) :
  exists c',
    save_sects_data data c = Ret tt c' /\
    committed c' = working c' /\
    find_sect s (working c') <> None /\
    (forall u, In u (users_of (rows_of s (working c')))
               <-> u = leader \/ In u new) /\
    (forall m, In m (rows_of s (working c')) ->
               sm_role m = if (sm_user_id m =? leader)%string
                           then "leader"%string else "member"%string) /\
    (forall m, In m (rows_of s (working c')) ->
               find_user (sm_user_id m) (working c') <> None).
Proof.
  pose proof S as [Q St].
  destruct (returns_absorb_sects data Hplain c Q) as ([] & c' & Hrun & _).
  exists c'.
  split; [unfold save_sects_data, try_exception; rewrite Hrun; reflexivity |].
  unfold absorb_sects in Hrun.
  apply bind_Ret_inv in Hrun. destruct Hrun as (existing & c0 & Hq & H).
  rewrite (query_quiet _ c Q) in Hq. inversion Hq; subst existing c0. clear Hq.
  apply bind_Ret_inv in H. destruct H as ([] & c3 & Hloop & H).
  apply bind_Ret_inv in H. destruct H as ([] & c4 & Hdel & Hcommit).
  destruct (dict_get_split _ _ _ Hkeys Hentry)
    as (pre & post & Hdata & Hpre & Hpost).
  rewrite Hdata in Hloop.
  apply for_each_app_Ret in Hloop. destruct Hloop as (c1 & Hloop1 & Hloop).
  cbn [for_each] in Hloop. apply bind_Ret_inv in Hloop.
  destruct Hloop as ([] & c2 & Htarget & Hloop2).
  assert (Hex : str_mem s (select_sect_ids (working c)) = false).
  { destruct (str_mem s (select_sect_ids (working c))) eqn:E; [| reflexivity].
    apply str_mem_In in E. apply find_sect_iff in E. contradiction. }
  (* the entries before [s] *)
  set (I := fun d => rows_of s d = [] /\ find_sect s d = None).
  set (allowed := fun sect_id : string => sect_id <> s).
  assert (A1 : forall d x, I d -> I (with_users d (users d ++ [x])))
    by (intros d x H; exact H).
  assert (A2 : forall d rows, I d ->
                 map s_sect_id rows = map s_sect_id (sects d) ->
                 I (with_sects d rows)).
  { intros d rows [H1 H2] E. split; [exact H1 |].
    destruct (find_sect s (with_sects d rows)) eqn:F; [| reflexivity].
    exfalso. assert (N : find_sect s (with_sects d rows) <> None)
      by (rewrite F; discriminate).
    apply find_sect_iff in N. simpl in N. rewrite E in N.
    apply find_sect_iff in N. contradiction. }
  assert (A3 : forall d x, allowed (s_sect_id x) -> I d ->
                 find_sect (s_sect_id x) d = None ->
                 I (with_sects d (sects d ++ [x]))).
  { intros d x Ha [H1 H2] _. split; [exact H1 |].
    unfold find_sect in *. simpl. rewrite find_app_one, H2.
    destruct (s_sect_id x =? s)%string eqn:E; [| reflexivity].
    apply String.eqb_eq in E. contradiction. }
  assert (A4 : forall d sect_id, I d ->
                 I (with_sects d
                      (filter (fun r => negb (s_sect_id r =? sect_id)%string)
                              (sects d)))).
  { intros d x [H1 H2]. split; [exact H1 |].
    unfold find_sect in *. simpl. apply find_none_filter, H2. }
  assert (A5 : forall d sect_id user_id role ts, allowed sect_id -> I d ->
                 find_user user_id d <> None ->
                 I (with_sect_members d
                      (filter (fun r => negb (sect_member_match sect_id
                                                user_id r))
                              (sect_members d)
                       ++ [mk_sect_member sect_id user_id role ts]))).
  { intros d sect_id user_id role ts Ha [H1 H2] _. split; [| exact H2].
    transitivity (rows_of s d); [| exact H1].
    apply (frame_other_members s d sect_id user_id
             [mk_sect_member sect_id user_id role ts] Ha).
    intros x [<- | []]. reflexivity. }
  assert (A6 : forall d sect_id user_id, allowed sect_id -> I d ->
                 I (with_sect_members d
                      (filter (fun r => negb (sect_member_match sect_id
                                                user_id r))
                              (sect_members d)))).
  { intros d sect_id user_id Ha [H1 H2]. split; [| exact H2].
    transitivity (rows_of s d); [| exact H1].
    pose proof (proj1 (frame_other_members s d sect_id user_id [] Ha
                         (fun x (Hx : In x []) => match Hx with end))) as F.
    rewrite app_nil_r in F. exact F. }
  assert (Hall : forall entry, In entry pre -> allowed (fst entry)).
  { intros entry Hin E. apply Hpre. rewrite <- E. apply in_map, Hin. }
  destruct (leads_save_loop I allowed A1 A2 A3 A5 A6
              (select_sect_ids (working c)) pre Hall c Q
              (conj Hnone Hfree))
    as (Q1 & [Hnone1 Hfree1] & _).
  { rewrite St. exact (conj Hnone Hfree). }
  rewrite Hloop1 in Q1, Hnone1, Hfree1. simpl in Q1, Hnone1, Hfree1.
  (* the entry of [s] *)
  unfold save_sect in Htarget. rewrite Hex in Htarget.
  apply bind_Ret_inv in Htarget. destruct Htarget as (sd & k0 & Ha & Htarget).
  inversion Ha; subst sd k0. clear Ha.
  apply bind_Ret_inv in Htarget. destruct Htarget as (b & k1 & Hcreate & Hadd).
  rewrite Hmembers in Hadd.
  assert (Hfreerow : existsb (sect_member_match s leader)
                             (sect_members (working c1)) = false).
  { destruct (existsb _ (sect_members (working c1))) eqn:E; [| reflexivity].
    apply existsb_exists in E. destruct E as (m & Hm & Hmatch).
    unfold sect_member_match in Hmatch. apply andb_true_iff in Hmatch.
    assert (Hr : In m (rows_of s (working c1))).
    { unfold rows_of. apply filter_In. tauto. }
    rewrite Hnone1 in Hr. destruct Hr. }
  unfold create_sect_from in Hcreate.
  assert (Hlv : dict_get_default "leader" (PStr "0") sect_data = PStr leader)
    by (unfold dict_get_default; rewrite Hleader; reflexivity).
  rewrite Hlv in Hcreate.
  rewrite (create_sect_fresh s _ (PStr leader) _ _ _ c_name c_description
             c_level c_wealth c1 Q1 B1 B2 B3 B4 Hfree1 Hfreerow) in Hcreate.
  cbv zeta in Hcreate. simpl py_str in Hcreate.
  destruct (after_get_user_frame leader c1 Q1)
    as (Qk & _ & Hsk & Hmk & Huk & _).
  set (k := after_get_user leader c1) in *.
  inversion Hcreate; subst b k1. clear Hcreate.
  assert (Hinv : new_sect_inv s leader []
                   (stored k
                      (with_sect_members
                         (with_sects (working k)
                            (sects (working k) ++
                             [mk_sect s (aff_text c_name) (CText leader)
                                (aff_text c_description) (CText (now k))
                                (aff_numeric c_level) (aff_numeric c_wealth)
                                (CInt 10)]))
                         (sect_members (working k) ++
                          [mk_sect_member s leader "leader" (now k)])))).
  { assert (Hr : rows_of s
                   (with_sect_members
                      (with_sects (working k)
                         (sects (working k) ++
                          [mk_sect s (aff_text c_name) (CText leader)
                             (aff_text c_description) (CText (now k))
                             (aff_numeric c_level) (aff_numeric c_wealth)
                             (CInt 10)]))
                      (sect_members (working k) ++
                       [mk_sect_member s leader "leader" (now k)]))
                 = [mk_sect_member s leader "leader" (now k)]).
    { unfold rows_of in *. simpl. rewrite filter_app, Hmk, Hnone1. simpl.
      rewrite String.eqb_refl. reflexivity. }
    split; [apply steady_stored, Qk |]. split.
    { unfold find_sect in *. simpl. rewrite Hsk, find_app_one, Hfree1.
      simpl. rewrite String.eqb_refl. discriminate. }
    cbn [working stored]. rewrite Hr.
    split; [| split; [| split]].
    - intros m [<- | []]. left. auto.
    - left. reflexivity.
    - intros u [].
    - intros m [<- | []]. exact Huk. }
  unfold add_new_sect_members in Hadd.
  pose proof (new_members_loop s leader sect_data Hleader new [] _ c2
                Hinv Hadd) as Hinv2.
  simpl app in Hinv2.
  destruct Hinv2 as (St2 & Hs2 & Hrows2 & Hlead2 & Hdone2 & Hfk2).
  (* the entries after [s], the deletions and the commit *)
  assert (F2 : framed s (working c2) c2).
  { destruct St2 as [Q2 E2]. split; [exact Q2 |].
    split; [apply frame_db_refl |]. rewrite E2. apply frame_db_refl. }
  assert (K2 : keeps s (for_each post
                          (save_sect (select_sect_ids (working c))))).
  { apply keeps_for_each. intros [x v] Hx. apply keeps_save_sect.
    intros E. apply Hpost. rewrite <- E.
    apply (in_map fst) in Hx. exact Hx. }
  pose proof (K2 _ _ F2) as F3. rewrite Hloop2 in F3. simpl in F3.
  assert (K3 : keeps s (for_each (select_sect_ids (working c))
                          (fun sect_id =>
                             if negb (dict_has sect_id data)
                             then delete_sect sect_id else ret tt))).
  { apply keeps_for_each. intros x Hx.
    destruct (negb (dict_has x data)); [| apply keeps_ret].
    apply keeps_delete_sect. intros ->.
    apply find_sect_iff in Hx. contradiction. }
  pose proof (K3 _ _ F3) as F4. rewrite Hdel in F4. simpl in F4.
  apply commit_Ret_inv in Hcommit. destruct Hcommit as (Hw & Hc & _).
  destruct F4 as (_ & (Hrows & Hsect & Husers) & _).
  split; [rewrite Hw, Hc; reflexivity |].
  rewrite Hw, Hrows.
  split; [apply Hsect, Hs2 |]. split; [| split].
  - intros u. split.
    + intros Hu. unfold users_of in Hu. apply in_map_iff in Hu.
      destruct Hu as (m & <- & Hm).
      destruct (Hrows2 m Hm) as [[H _] | (_ & H & _)]; auto.
    + intros [-> | Hu]; [exact Hlead2 | apply Hdone2, Hu].
  - intros m Hm.
    destruct (Hrows2 m Hm) as [[H1 H2] | (H1 & _ & H2)]; rewrite H2.
    + rewrite H1, String.eqb_refl. reflexivity.
    + destruct (sm_user_id m =? leader)%string eqn:E; [| reflexivity].
      apply String.eqb_eq in E. contradiction.
  - intros m Hm. apply Husers, Hfk2, Hm.
Qed.

End New_sect.

(** ** Keys that are not columns *)

Lemma bind_params_length vs cs :
  bind_params vs = inr cs -> List.length cs = List.length vs.
Proof.
  revert cs. induction vs as [| v vs IH]; simpl; intros cs H.
  - inversion H. reflexivity.
  - destruct (bind_param v); [discriminate |].
    destruct (bind_params vs) as [| cs']; [discriminate |].
    inversion H. simpl. rewrite (IH cs' eq_refl). reflexivity.
Qed.

Lemma in_combine_key {A B} (ks : list A) (cs : list B) k :
  In k ks -> List.length cs = List.length ks ->
  exists c, In (k, c) (combine ks cs).
Proof.
  revert cs. induction ks as [| a ks IH]; intros cs Hin Hlen; [destruct Hin |].
  destruct cs as [| c cs]; [discriminate |]. simpl in *.
  destruct Hin as [-> | Hin]; [eauto |].
  destruct (IH cs Hin) as (x & Hx); [congruence | eauto].
Qed.

Section Unknown_columns.
Context {RT : PyRuntime}.

Lemma set_sect_col_unknown k c r c' r' :
  set_sect_col k c r = None -> set_sect_col k c' r' = None.
Proof.
  unfold set_sect_col.
  repeat match goal with
         | |- context [(k =? ?a)%string] => destruct (k =? a)%string
         end; intros H; try discriminate H; reflexivity.
Qed.

Lemma set_user_job_col_unknown k c r c' r' :
  set_user_job_col k c r = None -> set_user_job_col k c' r' = None.
Proof.
  unfold set_user_job_col.
  repeat match goal with
         | |- context [(k =? ?a)%string] => destruct (k =? a)%string
         end; intros H; try discriminate H; reflexivity.
Qed.

Lemma known_cols_unknown {P R} (set_col : string -> P -> R -> option R)
      (blank : R) (sets : list (string * P)) k p :
  In (k, p) sets -> set_col k p blank = None ->
  known_cols set_col blank sets = false.
Proof.
  intros Hin Hk. unfold known_cols.
  destruct (forallb _ sets) eqn:E; [| reflexivity].
  rewrite forallb_forall in E. specialize (E _ Hin). simpl in E.
  rewrite Hk in E. discriminate.
Qed.

(** A name that resolves to nothing in [sects] is none of the columns
    [update_sect] can assign, and is not [sect_id]. *)
Lemma names_nothing_sects k :
  names_nothing sects_table_columns k = true ->
  k <> "sect_id"%string /\ set_sect_col k CNull blank_sect = None.
Proof.
  intros H. split.
  - intros ->. discriminate H.
  - unfold set_sect_col.
    repeat match goal with
           | |- context [(k =? ?a)%string] =>
               destruct (String.eqb_spec k a) as [-> |];
               [discriminate H |]
           end.
    reflexivity.
Qed.

Lemma names_nothing_user_jobs k row :
  names_nothing user_jobs_table_columns k = true ->
  k <> "user_id"%string /\ k <> "job_name"%string /\
  set_user_job_col k CNull row = None.
Proof.
  intros H. split; [| split].
  - intros ->. discriminate H.
  - intros ->. discriminate H.
  - unfold set_user_job_col.
    repeat match goal with
           | |- context [(k =? ?a)%string] =>
               destruct (String.eqb_spec k a) as [-> |];
               [discriminate H |]
           end.
    reflexivity.
Qed.

(** X19.  A key that names no column is rejected, not ignored.  Take a
    dictionary whose keys consist of letters, digits and underscores, so
    that each is pasted into the statement as one name, and whose values
    can be bound; let one of its keys, lower-cased, be neither a column of
    the table nor a name of the row identifier.  On a connection with
    nothing pending, [update_sect] for a stored sect and [update_user_job]
    for a stored (user, job) pair then return false and write nothing;
    [update_user_job] has still created the user row when it was
    missing. *)
Theorem unknown_column_is_rejected
        (k : string) (v : pyval) (data : pydict) (cells : list cell)
        (c : conn) (S : steady c) (Hin : In (k, v) data)
        (Hplain : forallb (fun kv => plain_name (fst kv)) data = true) :
  (forall sect_id row,
     find_sect sect_id (working c) = Some row ->
     names_nothing sects_table_columns k = true ->
     bind_params
       (map snd (filter (fun kv => negb (fst kv =? "sect_id")%string) data))
     = inr cells ->
     update_sect sect_id data c = Ret false c) /\
  (forall user_id job_name row,
     find (user_job_match (py_str user_id) job_name) (user_jobs (working c))
     = Some row ->
     names_nothing user_jobs_table_columns k = true ->
     bind_params
       (map snd
          (filter (fun kv => negb ((fst kv =? "user_id")
                                   || (fst kv =? "job_name"))%string) data))
     = inr cells ->
     update_user_job user_id job_name data c
     = Ret false (after_get_user (py_str user_id) c)).
Proof.
  pose proof S as [Q St]. split.
  - intros sect_id row F Hn B.
    destruct (names_nothing_sects k Hn) as [Hk Hcol].
    unfold update_sect, try_sqlite. unfold bind at 1.
    rewrite (get_sect_quiet _ c Q), F. cbn [option_map].
    set (fields := filter (fun kv : string * pyval =>
                             negb (fst kv =? "sect_id")%string) data) in *.
    assert (Hf : In (k, v) fields).
    { apply filter_In. split; [exact Hin |]. simpl.
      destruct (k =? "sect_id")%string eqn:E; [| reflexivity].
      apply String.eqb_eq in E. contradiction. }
    destruct fields as [| f fields'] eqn:Ef; [destruct Hf |].
    rewrite <- Ef in *. clear Ef.
    unfold bind, bind_values. rewrite B. unfold ret.
    rewrite (execute_quiet _ c Q).
    destruct (in_combine_key (map fst fields) cells k) as (x & Hx).
    { apply (in_map fst) in Hf. exact Hf. }
    { rewrite (bind_params_length _ _ B), !length_map. reflexivity. }
    rewrite (known_cols_unknown set_sect_col blank_sect _ k x Hx
               (set_sect_col_unknown _ _ _ _ _ Hcol)).
    simpl. rewrite (rollback_quiet _ Q). simpl.
    rewrite (steady_rolled_back c S). reflexivity.
  - intros user_id job_name row F Hn B.
    destruct (names_nothing_user_jobs k row Hn) as (Hk1 & Hk2 & Hcol).
    destruct (get_user_after (py_str user_id) c Q) as (r & E).
    destruct (after_get_user_frame (py_str user_id) c Q)
      as (Q1 & _ & _ & _ & _ & _ & S1).
    specialize (S1 S).
    assert (Hj : user_jobs (working (after_get_user (py_str user_id) c))
                 = user_jobs (working c)).
    { unfold after_get_user. destruct (find_user _ _); reflexivity. }
    set (c1 := after_get_user (py_str user_id) c) in *.
    unfold update_user_job, try_sqlite. unfold bind at 1. rewrite E.
    unfold bind at 1. rewrite (query_quiet _ c1 Q1), Hj.
    rewrite (existsb_find_some _ _ _ F).
    set (fields := filter (fun kv : string * pyval =>
                             negb ((fst kv =? "user_id")
                                   || (fst kv =? "job_name"))%string) data)
      in *.
    assert (Hf : In (k, v) fields).
    { apply filter_In. split; [exact Hin |]. simpl.
      destruct (k =? "user_id")%string eqn:E1;
        [apply String.eqb_eq in E1; contradiction |].
      destruct (k =? "job_name")%string eqn:E2;
        [apply String.eqb_eq in E2; contradiction |].
      reflexivity. }
    destruct fields as [| f fields'] eqn:Ef; [destruct Hf |].
    rewrite <- Ef in *. clear Ef.
    unfold bind, bind_values. rewrite B. unfold ret.
    rewrite (execute_quiet _ c1 Q1).
    destruct (in_combine_key (map fst fields) cells k) as (x & Hx).
    { apply (in_map fst) in Hf. exact Hf. }
    { rewrite (bind_params_length _ _ B), !length_map. reflexivity. }
    rewrite (known_cols_unknown set_user_job_col
               (default_user_job (py_str user_id) job_name) _ k x Hx
               (set_user_job_col_unknown _ _ _ _ _ Hcol)).
    simpl. rewrite (rollback_quiet _ Q1). simpl.
    rewrite (steady_rolled_back c1 S1). reflexivity.
Qed.

End Unknown_columns.

(** * Further scenarios *)

Section More_scenarios.

#[local] Existing Instance decimal_runtime.

Lemma inventory_merge_witness :
  quiet two_swords /\
  exists c1 c2 c3,
    add_inventory_item (PStr "u1") "Shield" 1 "rare" None two_swords
    = Ret true c1 /\
    add_inventory_item (PStr "u1") "Shield" 2 "rare" None c1 = Ret true c2 /\
    map i_quantity (inventory (working c2)) = [2; 3] /\
    add_inventory_item (PStr "u1") "Shield" 2 "epic" None c1 = Ret true c3 /\
    map i_quantity (inventory (working c3)) = [2; 1; 2].
Proof.
  split; [reflexivity |].
  assert (Hids : ids_issued (working two_swords)).
  { intros r [<- | []]. simpl. lia. }
  assert (Hdiff : "epic"%string <> "rare"%string) by discriminate.
  destruct (inventory_merge (PStr "u1") "Shield" "rare" "epic" 1 2 None None
              two_swords eq_refl Hids eq_refl eq_refl Hdiff eq_refl eq_refl
              eq_refl)
    as (c1 & c2 & c3 & E1 & E2 & I2 & E3 & I3).
  exists c1, c2, c3. rewrite I2, I3. repeat split; assumption.
Defined.

Lemma add_then_remove_inventory_item_witness :
  quiet two_swords /\
  exists c1 c2,
    add_inventory_item (PStr "u1") "Shield" 1 "rare" None two_swords
    = Ret true c1 /\
    remove_inventory_item (PStr "u1") "Shield" 4 (Some "rare") c1
    = Ret true c2 /\
    inventory (working c2) = inventory (working two_swords).
Proof.
  split; [reflexivity |].
  assert (Hids : ids_issued (working two_swords)).
  { intros r [<- | []]. simpl. lia. }
  assert (Hr : "rare"%string <> ""%string) by discriminate.
  destruct (add_then_remove_inventory_item (PStr "u1") "Shield" "rare" 1 4
              None two_swords eq_refl Hids Hr eq_refl eq_refl eq_refl)
    as (c1 & c2 & E1 & E2 & _ & I2).
  exists c1, c2. repeat split; assumption.
Defined.

Lemma inventory_quantities_stay_positive_witness :
  quiet two_swords /\
  exists c1 c2,
    add_inventory_item (PStr "u1") "Sword" 3 "common" None two_swords
    = Ret true c1 /\
    remove_inventory_item (PStr "u1") "Sword" 1 None two_swords
    = Ret true c2 /\
    quantities_positive (working c1) /\ quantities_positive (working c2).
Proof.
  split; [reflexivity |].
  assert (Hpos : quantities_positive (working two_swords)).
  { intros r [<- | []]. simpl. lia. }
  assert (Hids : ids_issued (working two_swords)).
  { intros r [<- | []]. simpl. lia. }
  assert (H3 : 0 < 3) by lia.
  eexists. eexists. split; [reflexivity |]. split; [reflexivity |].
  destruct (inventory_quantities_stay_positive (PStr "u1") "Sword" "common"
              3 1 None None two_swords _ _ true true eq_refl Hpos Hids H3
              eq_refl eq_refl) as [[P1 _] [P2 _]].
  split; assumption.
Defined.

Lemma set_job_then_get_jobs_witness :
  quiet fresh /\
  exists c' d,
    set_job "miner" (PInt 10) PNone fresh = Ret true c' /\
    get_jobs c' = Ret d c' /\
    dict_get "miner" d = Some (PList [PInt 10; PNone]).
Proof.
  split; [reflexivity |].
  assert (T1 : forall s, PInt 10 <> PStr s) by discriminate.
  assert (T2 : forall s, PNone <> PStr s) by discriminate.
  destruct (set_job_then_get_jobs "miner" (PInt 10) PNone (CInt 10)
              CNull fresh eq_refl eq_refl eq_refl T1 T2)
    as (c' & d & E1 & E2 & G & _).
  exists c', d. repeat split; assumption.
Defined.

Lemma save_jobs_data_then_get_jobs_witness :
  quiet fresh /\
  exists c' d,
    save_jobs_data [("miner", PList [PInt 10; PInt 20]);
                    ("smith", PList [PInt 5; PInt 9])] fresh = Ret tt c' /\
    get_jobs c' = Ret d c' /\
    dict_get "smith" d = Some (PList [PInt 5; PInt 9]).
Proof.
  split; [reflexivity |].
  assert (Hk : NoDup (map fst [("miner", PList [PInt 10; PInt 20]);
                               ("smith", PList [PInt 5; PInt 9])])).
  { repeat constructor; simpl; intuition discriminate. }
  destruct (save_jobs_data_then_get_jobs
              [("miner", PList [PInt 10; PInt 20]);
               ("smith", PList [PInt 5; PInt 9])] fresh eq_refl eq_refl Hk)
    as (c' & d & E1 & E2 & G).
  exists c', d. split; [exact E1 |]. split; [exact E2 |].
  rewrite G. reflexivity.
Defined.

Lemma update_user_job_then_get_user_job_witness :
  quiet adept_miner /\
  exists c' c'' r,
    update_user_job (PStr "u1") "miner" [("xp", PInt 9)] adept_miner
    = Ret true c' /\
    get_user_job (PStr "u1") "miner" c' = Ret r c'' /\
    dict_get "xp" r = Some (PInt 9) /\
    dict_get "rank" r = Some (PStr "adept").
Proof.
  split; [reflexivity |].
  destruct (update_user_job_then_get_user_job (PStr "u1") "miner" 9
              adept_miner _ _ eq_refl eq_refl eq_refl)
    as (c' & c'' & r & E1 & E2 & G1 & G2 & _).
  exists c', c'', r. repeat split; assumption.
Defined.

Lemma set_store_item_then_get_store_item_witness :
  quiet shop /\
  exists c' r,
    set_store_item "elixir" (PInt 9) (PStr "") (PInt (-1)) (PInt 0)
                   (PStr "rare") (Some (PDict [("glow", PBool true)])) shop
    = Ret true c' /\
    get_store_item "elixir" c' = Ret (Some r) c' /\
    dict_get "metadata" r = Some (PDict [("glow", PBool true)]) /\
    get_store_item "potion" c'
    = Ret (option_map store_item_dict
             (find_store_item "potion" (working shop))) c'.
Proof.
  split; [reflexivity |].
  assert (Hne : "potion"%string <> "elixir"%string) by discriminate.
  destruct (set_store_item_then_get_store_item "elixir" (PInt 9) (PStr "")
              (PInt (-1)) (PInt 0) (PStr "rare")
              (Some (PDict [("glow", PBool true)]))
              (CInt 9) (CText "") (CInt (-1)) (CInt 0) (CText "rare") shop
              eq_refl eq_refl eq_refl eq_refl eq_refl eq_refl
              (fun s H => eq_ind (PInt 9)
                            (fun v => match v with PInt _ => True
                                                 | _ => False end)
                            Logic.I _ H)
              (fun s H => eq_ind (PInt (-1))
                            (fun v => match v with PInt _ => True
                                                 | _ => False end)
                            Logic.I _ H)
              (fun s H => eq_ind (PInt 0)
                            (fun v => match v with PInt _ => True
                                                 | _ => False end)
                            Logic.I _ H))
    as (c' & E1 & E2 & E3).
  exists c'. eexists. split; [exact E1 |]. split; [exact E2 |].
  split; [reflexivity |].
  exact (E3 "potion" Hne).
Defined.

Lemma update_store_item_stock_cases_witness :
  quiet shop /\
  exists c',
    update_store_item_stock "potion" (-5) shop = Ret true c' /\
    option_map si_stock (find_store_item "potion" (working c'))
    = Some (CInt 0).
Proof.
  split; [reflexivity |].
  destruct (update_store_item_stock_cases "potion" (-5) shop eq_refl eq_refl)
    as (c' & E & _ & F & _).
  exists c'. split; [exact E |]. rewrite F. reflexivity.
Defined.

Lemma update_user_unwritten_keys_witness :
  (forall kv, In kv [("nickname", PStr "x")] ->
              str_mem (fst kv) user_columns = false) /\
  exists r c',
    get_user (PStr "u1") fresh = Ret r c' /\
    update_user (PStr "u1") [("nickname", PStr "x")] fresh = Ret true c'.
Proof.
  assert (H : forall kv, In kv [("nickname", PStr "x")] ->
                         str_mem (fst kv) user_columns = false).
  { intros kv [<- | []]. reflexivity. }
  split; [exact H |].
  exact (proj2 (proj2 (proj1 (proj2 (update_user_unwritten_keys (PStr "u1")
                                       [("nickname", PStr "x")] fresh)) H))
           eq_refl).
Defined.

Lemma balance_writers_then_get_balance_witness :
  quiet saver /\
  exists c' c'',
    add_cash (PStr "u1") (PInt (-80)) saver = Ret true c' /\
    get_balance (PStr "u1") c' = Ret (0, 7) c''.
Proof.
  split; [reflexivity |].
  exact (proj1 (balance_writers_then_get_balance (PStr "u1") (PInt (-80))
                  50 7 saver saver eq_refl eq_refl) eq_refl).
Defined.

Lemma create_sect_cases_witness :
  steady iron_sect /\
  exists c',
    create_sect "s1" (PStr "Copy") (PStr "Z") (PStr "") (PInt 1) (PInt 0)
                iron_sect = Ret false c' /\
    sects (working c') = sects (working iron_sect) /\
    find_user "Z" (working iron_sect) = None /\
    find_user "Z" (working c') <> None.
Proof.
  assert (S : steady iron_sect) by (split; reflexivity).
  split; [exact S |].
  destruct (create_sect_cases "s1" (PStr "Copy") (PStr "Z") (PStr "")
              (PInt 1) (PInt 0) (CText "Copy") (CText "") (CInt 1) (CInt 0)
              iron_sect S eq_refl eq_refl eq_refl eq_refl)
    as (b & c' & E & _ & Hu & H).
  destruct b.
  - destruct H as (F & _). vm_compute in F. discriminate F.
  - destruct H as (_ & Hs & _).
    exists c'. split; [exact E |]. split; [exact Hs |].
    split; [reflexivity | exact Hu].
Defined.

Lemma add_sect_member_cases_witness :
  quiet iron_sect /\
  exists c' c'',
    add_sect_member "s1" (PStr "B") "elder" iron_sect = Ret true c' /\
    add_sect_member "s1" (PStr "B") "member" c' = Ret true c'' /\
    map (fun m => (sm_user_id m, sm_role m)) (sect_members (working c''))
    = [("A", "leader"); ("C", "member"); ("B", "member")].
Proof.
  split; [reflexivity |].
  destruct (add_sect_member_cases "s1" (PStr "B") "elder" "member" iron_sect
              eq_refl) as (c' & c'' & E1 & E2 & _ & Hm).
  exists c', c''. split; [exact E1 |]. split; [exact E2 |].
  rewrite Hm. reflexivity.
Defined.

Lemma sect_tables_stay_consistent_witness :
  quiet iron_sect /\
  sect_store_ok (working iron_sect) /\
  sect_store_ok
    (working (conn_of (save_sects_data iron_sect_doc_then_junk iron_sect))).
Proof.
  assert (Hok : sect_store_ok (working iron_sect)).
  { split; [| split].
    - intros m Hm. vm_compute in Hm.
      destruct Hm as [<- | [<- | [<- | []]]]; vm_compute; discriminate.
    - unfold sect_ids_unique. simpl. repeat constructor. intros [].
    - unfold memberships_unique. simpl.
      repeat constructor; simpl; intuition discriminate. }
  split; [reflexivity |]. split; [exact Hok |].
  destruct (sect_tables_stay_consistent iron_sect eq_refl Hok Hok)
    as (_ & _ & _ & _ & _ & H).
  exact (proj1 (proj2 (H iron_sect_doc_then_junk))).
Defined.

Lemma absorb_orphans_members_of_unlisted_sect_witness :
  steady iron_sect /\
  exists c',
    save_sects_data [] iron_sect = Ret tt c' /\
    find_sect "s1" (working c') = None /\
    map sm_user_id (rows_of "s1" (working c')) = ["A"; "B"; "C"] /\
    exists c'',
      create_sect "s1" (PStr "Iron Sect") (PStr "B") (PStr "") (PInt 1)
                  (PInt 0) c' = Ret false c''.
Proof.
  assert (S : steady iron_sect) by (split; reflexivity).
  split; [exact S |].
  assert (Hs : find_sect "s1" (working iron_sect) <> None)
    by (vm_compute; discriminate).
  destruct (proj2 (absorb_orphans_members_of_unlisted_sect "s1" []
                     iron_sect S eq_refl) eq_refl Hs)
    as (c' & E & _ & Hgone & Hrows & Hcreate).
  exists c'. split; [exact E |]. split; [exact Hgone |].
  split; [rewrite Hrows; reflexivity |].
  destruct (Hcreate (mk_sect_member "s1" "B" "member" t0)
              (PStr "Iron Sect") (PStr "") (PInt 1) (PInt 0)
              (CText "Iron Sect") (CText "") (CInt 1) (CInt 0))
    as (c'' & E2 & _); try reflexivity.
  - vm_compute. auto.
  - exists c''. exact E2.
Defined.

Lemma add_tournament_participant_cases_witness :
  quiet cup /\
  exists c',
    add_tournament_participant "t1" (PInt (-1)) true (PStr "Iron Golem") cup
    = Ret true c' /\
    users (working c') = users (working cup) /\
    add_tournament_participant "t9" (PStr "300") false PNone cup
    = Ret false cup.
Proof.
  split; [reflexivity |].
  pose proof (add_tournament_participant_cases "t1" (PInt (-1)) true
                (PStr "Iron Golem") (CText "Iron Golem") cup eq_refl eq_refl)
    as H1.
  destruct (H1 (PDict []) eq_refl) as (c' & E & _ & _ & Hu).
  exists c'. split; [exact E |]. split; [exact Hu |].
  exact (add_tournament_participant_cases "t9" (PStr "300") false PNone
           CNull cup eq_refl eq_refl).
Defined.

Lemma unreadable_reward_data_witness :
  quiet cup /\
  exists c',
    update_tournament "t1" [("reward_data", PNone)] cup = Ret true c' /\
    get_tournament "t1" c' = Raise TypeError c' /\
    get_tournaments_data c' = Ret [] c'.
Proof.
  split; [reflexivity |].
  destruct (unreadable_reward_data "t1" _ (PDict []) cup eq_refl eq_refl
              eq_refl) as (c' & E & G & _ & _ & P).
  exists c'. repeat split; assumption.
Defined.

Lemma absorb_creates_listed_sect_witness :
  steady iron_sect /\
  exists c',
    save_sects_data jade_sect_doc iron_sect = Ret tt c' /\
    find_sect "s2" (working c') <> None /\
    forall u, In u (users_of (rows_of "s2" (working c')))
              <-> u = "A"%string \/ In u ["A"; "D"; "E"]%string.
Proof.
  assert (S : steady iron_sect) by (split; reflexivity).
  split; [exact S |].
  assert (Hk : NoDup (map fst jade_sect_doc)).
  { repeat constructor; simpl; intuition discriminate. }
  destruct (absorb_creates_listed_sect "s2" "A" jade_sect_doc jade_sect_data
              ["A"; "D"; "E"] (CText "Jade Sect") (CText "") (CInt 1)
              (CInt 0) iron_sect S Hk eq_refl eq_refl eq_refl eq_refl
              eq_refl eq_refl eq_refl eq_refl eq_refl eq_refl)
    as (c' & E & _ & Hs & Hu & _).
  exists c'. repeat split; try assumption; apply Hu.
Defined.

Lemma unknown_column_is_rejected_witness :
  steady iron_sect /\
  In ("motto", PStr "iron") [("motto", PStr "iron")] /\
  update_sect "s1" [("motto", PStr "iron")] iron_sect = Ret false iron_sect.
Proof.
  assert (S : steady iron_sect) by (split; reflexivity).
  assert (Hin : In ("motto", PStr "iron") [("motto", PStr "iron")])
    by (left; reflexivity).
  split; [exact S |]. split; [exact Hin |].
  refine (proj1 (unknown_column_is_rejected "motto" (PStr "iron")
                   [("motto", PStr "iron")] [CText "iron"] iron_sect S Hin
                   eq_refl)
            "s1" _ eq_refl eq_refl eq_refl).
Defined.

End More_scenarios.
